(** * SR-IOV provisioning (os_net_config/sriov_config.py)

    A shallow embedding of the SR-IOV configuration module and the
    properties its specification states about it.

    Layout:
    - [Text]      the Python [str] operations the module relies on;
    - [Py]        configuration values as the YAML/JSON loader yields them;
    - [Effects]   exceptions, the trace of external effects, the world;
    - the functions of [sriov_config.py], in the order of the source file;
    - a small concrete host on which the functions can be run;
    - the properties.

    Python strings are lists of characters; the model covers the code
    points below 256, so [str.splitlines] and [str.strip] are given with
    the line boundaries and white space of that range. *)

From Stdlib Require Import ZArith QArith Ascii String.
From stdpp Require Import base option list gmap strings pretty.

Open Scope Z_scope.

Abbreviation str := (list ascii).
Coercion list_ascii_of_string : string >-> list.
Arguments list_ascii_of_string : simpl never.

(** ** Python [str] operations *)

Module Text.

Definition LF : ascii := "010"%char.
Definition CR : ascii := "013"%char.
Definition NL : str := [LF].

(** The characters [str.splitlines] breaks a line at (a CR directly
    followed by LF counts once). *)
Definition is_linebreak (c : ascii) : bool :=
  match c with
  | "010" | "011" | "012" | "013" | "028" | "029" | "030" | "133" => true
  | _ => false
  end%char.

(** [str.isspace] on one character: what [str.strip] removes. *)
Definition isspace (c : ascii) : bool :=
  match c with
  | "009" | "010" | "011" | "012" | "013"
  | "028" | "029" | "030" | "031" | " " | "133" | "160" => true
  | _ => false
  end%char.

Fixpoint lstrip (s : str) : str :=
  match s with
  | c :: s' => if isspace c then lstrip s' else s
  | [] => []
  end.

Definition rstrip (s : str) : str := rev (lstrip (rev s)).

Definition strip (s : str) : str := rstrip (lstrip s).

Fixpoint startswith (p s : str) : bool :=
  match p, s with
  | [], _ => true
  | a :: p', b :: s' => Ascii.eqb a b && startswith p' s'
  | _ :: _, [] => false
  end.

(** [p in s] for two strings. *)
Fixpoint contains (p s : str) : bool :=
  startswith p s ||
  match s with
  | [] => false
  | _ :: s' => contains p s'
  end.

(** [s.splitlines()]: the lines without their terminators; a final
    terminator does not open a new line. *)
Fixpoint splitlines (s : str) : list str :=
  match s with
  | [] => []
  | c :: s' =>
    if is_linebreak c then
      [] :: match s' with
            | c' :: s'' =>
              if Ascii.eqb c CR && Ascii.eqb c' LF
              then splitlines s'' else splitlines s'
            | [] => []
            end
    else
      match splitlines s' with
      | [] => [[c]]
      | l :: ls => (c :: l) :: ls
      end
  end.

(** [x in l] for a list of strings. *)
Definition mem (x : str) (l : list str) : bool := bool_decide (x ∈ l).

(** [sep.join(l)]. *)
Fixpoint join (sep : str) (l : list str) : str :=
  match l with
  | [] => []
  | [x] => x
  | x :: l' => x ++ sep ++ join sep l'
  end.

(** [os.path.basename]: what follows the last slash. *)
Fixpoint basename (p : str) : str :=
  match p with
  | [] => []
  | c :: p' => if contains "/" p then basename p' else p
  end.

(** [posixpath.join] of two components. *)
Definition path_join (a b : str) : str :=
  if startswith "/" b then b
  else if bool_decide (a = []) || bool_decide (last a = Some "/"%char)
       then a ++ b
       else a ++ "/" ++ b.

(** [str.split('/')]. *)
Fixpoint split_slash (s : str) : list str :=
  match s with
  | [] => [[]]
  | c :: s' =>
    if Ascii.eqb c "/" then [] :: split_slash s'
    else match split_slash s' with
         | [] => [[c]]
         | l :: ls => (c :: l) :: ls
         end
  end.

(** The component loop of [posixpath.normpath]; [acc] holds the kept
    components, last first. *)
Fixpoint norm_comps (absolute : bool) (acc comps : list str) : list str :=
  match comps with
  | [] => rev acc
  | comp :: rest =>
    if bool_decide (comp = []) || bool_decide (comp = ("." : str))
    then norm_comps absolute acc rest
    else if negb (bool_decide (comp = (".." : str)))
            || (negb absolute && bool_decide (acc = []))
            || bool_decide (head acc = Some (".." : str))
         then norm_comps absolute (comp :: acc) rest
         else norm_comps absolute (tail acc) rest
  end.

(** [posixpath.normpath]. *)
Definition normpath (p : str) : str :=
  if bool_decide (p = []) then "."
  else
    let slashes : str :=
      if startswith "/" p then
        if startswith "//" p && negb (startswith "///" p) then "//" else "/"
      else [] in
    let body := join "/" (norm_comps (startswith "/" p) [] (split_slash p)) in
    let r := slashes ++ body in
    if bool_decide (r = []) then "." else r.

End Text.

Import Text.

(** ** Configuration values *)

Module Py.

(** A scalar of the loaded configuration. A float is given by its exact
    value together with the text [str()] prints for it. *)
Inductive pyval :=
| PyNone
| PyBool (b : bool)
| PyInt (z : Z)
| PyFloat (q : Q) (shown : str)
| PyStr (s : str).

(** One entry of the SR-IOV map: a mapping from keys to scalars, and the
    one nested mapping the module reads, [item['device']]. *)
Record item := Item {
  fields : list (str * pyval);
  device : option (list (str * pyval))
}.

Fixpoint assoc (k : str) (d : list (str * pyval)) : option pyval :=
  match d with
  | [] => None
  | (k', v) :: d' => if bool_decide (k = k') then Some v else assoc k d'
  end.

(** [k in item] *)
Definition has (k : str) (it : item) : bool :=
  if bool_decide (k = ("device" : str)) then bool_decide (is_Some (device it))
  else bool_decide (is_Some (assoc k (fields it))).

(** [item.get(k, default)] *)
Definition get_default (k : str) (default : pyval) (it : item) : pyval :=
  match assoc k (fields it) with
  | Some v => v
  | None => default
  end.

(** [item.get(k)] *)
Definition get (k : str) (it : item) : pyval := get_default k PyNone it.

(** [bool(v)] *)
Definition truthy (v : pyval) : bool :=
  match v with
  | PyNone => false
  | PyBool b => b
  | PyInt z => negb (z =? 0)
  | PyFloat q _ => negb (Qeq_bool q 0)
  | PyStr s => negb (bool_decide (s = []))
  end.

(** [isinstance(v, int)]: [bool] is a subclass of [int]. *)
Definition is_int (v : pyval) : bool :=
  match v with
  | PyBool _ | PyInt _ => true
  | _ => false
  end.

(** The integer an [int] instance stands for. *)
Definition int_of (v : pyval) : Z :=
  match v with
  | PyInt z => z
  | PyBool b => if b then 1 else 0
  | _ => 0
  end.

(** [v == z] for an integer [z]: numbers compare by value. *)
Definition eq_int (v : pyval) (z : Z) : bool :=
  match v with
  | PyBool _ | PyInt _ => int_of v =? z
  | PyFloat q _ => Qeq_bool q (inject_Z z)
  | _ => false
  end.

(** [v == s] for a string [s]. *)
Definition eq_str (v : pyval) (s : str) : bool :=
  match v with
  | PyStr s' => bool_decide (s' = s)
  | _ => false
  end.

(** [str(v)] *)
Definition to_str (v : pyval) : str :=
  match v with
  | PyNone => "None"
  | PyBool true => "True"
  | PyBool false => "False"
  | PyInt z => pretty z
  | PyFloat _ shown => shown
  | PyStr s => s
  end.

End Py.

Import Py.

(** ** Exceptions, effects and the world *)

Inductive level := DEBUG | INFO | WARNING | ERROR.

(** One hotplug notification, as [udev_event_handler] queues it. *)
Record UdevEvent := Event { action : str; device_of : str }.

(** A formatted message keeps the values put in its holes: literal text,
    [str()] of a configuration value, an integer, an event. *)
Inductive frag :=
| T (s : str)
| V (v : pyval)
| N (z : Z)
| E (e : UdevEvent).

Abbreviation msg := (list frag).

Inductive exn :=
| SRIOVNumvfsException (m : msg)
| ProcessExecutionError (text : str)
| IOError (text : str)
| ValueError (text : str)
| RuntimeError (m : msg)
| KeyError (key : str)
| TypeError
| AttributeError
| HelperError (text : str).

(** What a test double of the host observes, in order. *)
Inductive effect :=
| ELog (l : level) (m : msg)
| EExec (cmd : list str)
| ESysRead (path : str)
| ESysWrite (path data : str)
| EQueueGet (block : bool) (timeout : Z)
| EOpen (path mode : str)
| EWrite (path data : str)
| ERemove (path : str)
| EChmod (path : str) (mode : Z)
| ESleep (secs : Z)
| EMonitor (what : str)
| EHelper (fn : str) (args : list str).

Inductive outcome (A : Type) :=
| Done (a : A)
| Failed (text : str).
Arguments Done {A} a.
Arguments Failed {A} text.

(** The value of one entry of [vf_to_pf]. *)
Record PfVfLink := Link { link_device : str; link_pf : str }.

(** The host: the kernel's pseudo files, the command runner and the
    helpers of [os_net_config.common] and [sriov_bind_config], none of
    which this module defines. [K] is whatever state they keep. *)
Record Host (K : Type) := {
  (** [open(path).read()] of a sysfs attribute *)
  sys_read : str → K → outcome str;
  (** [open(path, "w").write(data)] on a sysfs attribute *)
  sys_write : str → str → K → K * outcome unit;
  (** [os.path.exists], [os.path.isdir], [os.listdir] under /sys *)
  sys_exists : str → K → bool;
  sys_isdir : str → K → bool;
  sys_listdir : str → K → list str;
  (** [common.get_file_data] of a sysfs attribute *)
  sys_file_data : str → K → str;
  (** [processutils.execute]: standard output, or the failure's text *)
  run_command : list str → K → K * outcome str;
  (** [time.sleep] *)
  pass_time : Z → K → K;
  (** [common.is_mellanox_interface], [common.interface_mac] *)
  is_mellanox_interface : str → K → bool;
  interface_mac : str → K → str;
  (** the helpers that only act: [common.load_kmods], [common.restorecon],
      [common.set_driverctl_override], [sriov_bind_config.*] *)
  helper_call : str → list str → K → K * outcome unit;
  (** the keys of [loads(stdout)['dev']] *)
  vdpa_dev_names : str → list str
}.

Arguments sys_read {K}.
Arguments sys_write {K}.
Arguments sys_exists {K}.
Arguments sys_isdir {K}.
Arguments sys_listdir {K}.
Arguments sys_file_data {K}.
Arguments run_command {K}.
Arguments pass_time {K}.
Arguments is_mellanox_interface {K}.
Arguments interface_mac {K}.
Arguments helper_call {K}.
Arguments vdpa_dev_names {K}.

(** The state one run acts on: the host, the script of what the next
    calls of [vf_queue.get(True, 5)] deliver ([Some] event that arrived
    within the wait, [None] for a wait that timed out; an exhausted script
    is silence), the module's [vf_to_pf] dictionary in insertion order,
    and the files outside /sys. *)
Record World (K : Type) := mkWorld {
  kern : K;
  vf_queue : list (option UdevEvent);
  vf_to_pf : list (str * PfVfLink);
  files : gmap str str
}.
Arguments mkWorld {K}.
Arguments kern {K}.
Arguments vf_queue {K}.
Arguments vf_to_pf {K}.
Arguments files {K}.

Inductive result (A : Type) :=
| Ret (a : A)
| Raise (e : exn).
Arguments Ret {A} a.
Arguments Raise {A} e.

(** What running a computation gives: how it ended, the world it left
    (effects are kept when an exception is raised) and the effects it
    caused. *)
Record Out (K A : Type) := mkOut {
  res : result A;
  post : World K;
  emitted : list effect
}.
Arguments mkOut {K A}.
Arguments res {K A}.
Arguments post {K A}.
Arguments emitted {K A}.

Definition M (K A : Type) : Type := World K → Out K A.

Section Monad.
Context {K : Type}.

Definition ret {A} (a : A) : M K A := λ w, mkOut (Ret a) w [].

Definition raise {A} (e : exn) : M K A := λ w, mkOut (Raise e) w [].

Definition bind {A B} (m : M K A) (f : A → M K B) : M K B := λ w,
  let o := m w in
  match res o with
  | Ret a => let o' := f a (post o) in
             mkOut (res o') (post o') (emitted o ++ emitted o')
  | Raise e => mkOut (Raise e) (post o) (emitted o)
  end.

(** [try: m except ...: handler]; [handler e = None] when no clause
    matches [e]. *)
Definition try_except {A} (m : M K A) (handler : exn → option (M K A)) : M K A := λ w,
  let o := m w in
  match res o with
  | Ret a => o
  | Raise e =>
    match handler e with
    | Some h => let o' := h (post o) in
                mkOut (res o') (post o') (emitted o ++ emitted o')
    | None => o
    end
  end.

Definition tell (e : effect) : M K unit := λ w, mkOut (Ret tt) w [e].

Definition gets {A} (f : World K → A) : M K A := λ w, mkOut (Ret (f w)) w [].

Definition modify (f : World K → World K) : M K unit := λ w, mkOut (Ret tt) (f w) [].

End Monad.

Declare Scope prog_scope.
Delimit Scope prog_scope with prog.
Bind Scope prog_scope with M.
Notation "'let*' x := m 'in' k" := (bind m (λ x, k))
  (at level 10, x binder, m at level 100, k at level 200) : prog_scope.
Notation "m >> k" := (bind m (λ _, k))
  (at level 100, k at level 200, right associativity) : prog_scope.
Open Scope prog_scope.

Section Monad_loops.
Context {K : Type}.

(** [for x in l: body] *)
Fixpoint for_each {A} (l : list A) (body : A → M K unit) : M K unit :=
  match l with
  | [] => ret tt
  | x :: l' => body x >> for_each l' body
  end.

(** A [for] loop that updates local variables [S]. *)
Fixpoint for_fold {A S} (l : list A) (body : A → S → M K S) (s : S) : M K S :=
  match l with
  | [] => ret s
  | x :: l' => let* s' := body x s in for_fold l' body s'
  end.

Definition when (b : bool) (m : M K unit) : M K unit := if b then m else ret tt.

End Monad_loops.

(** ** Parsing helpers: [int()] and the module's regular expressions *)

Definition is_digit (c : ascii) : bool := bool_decide (is_Some (Ascii.is_nat c)).

(** Decimal digits, single underscores allowed between them. *)
Fixpoint digits_value (acc : Z) (after_digit : bool) (s : str) : option Z :=
  match s with
  | [] => if after_digit then Some acc else None
  | c :: s' =>
    match Ascii.is_nat c with
    | Some d => digits_value (acc * 10 + Z.of_nat d) true s'
    | None =>
      if Ascii.eqb c "_" && after_digit then digits_value acc false s' else None
    end
  end.

(** [int(text)]; [None] stands for [ValueError]. *)
Definition py_int (text : str) : option Z :=
  match strip text with
  | "-"%char :: s => Z.opp <$> digits_value 0 false s
  | "+"%char :: s => digits_value 0 false s
  | s => digits_value 0 false s
  end.

Fixpoint take_while (f : ascii → bool) (s : str) : str :=
  match s with
  | c :: s' => if f c then c :: take_while f s' else []
  | [] => []
  end.

Fixpoint drop_while (f : ascii → bool) (s : str) : str :=
  match s with
  | c :: s' => if f c then drop_while f s' else s
  | [] => []
  end.

(** [s] minus the prefix [p], when it starts with it. *)
Definition expect (p s : str) : option str :=
  if startswith p s then Some (drop (length p) s) else None.

(** A non-empty run of digits, and what follows it. *)
Definition digits1 (s : str) : option (str * str) :=
  let d := take_while is_digit s in
  if bool_decide (d = []) then None else Some (d, drop_while is_digit s).

(** The search, in [get_pf_pci] and [get_vf_pcis_list], for the text
    that follows PCI_SLOT_NAME= up to the end of its line; [None] when
    nothing matches. *)
Fixpoint search_slot_name (info : str) : option str :=
  match expect "PCI_SLOT_NAME=" info with
  | Some rest => Some (take_while (λ c, negb (Ascii.eqb c LF)) rest)
  | None =>
    match info with
    | [] => None
    | _ :: info' => search_slot_name info'
    end
  end.

(** [PF_FUNC_RE.search]: a dot followed by digits up to the end of the
    string (or to its final newline); the digits of the first match. *)
Fixpoint PF_FUNC_RE_search (s : str) : option str :=
  match s with
  | [] => None
  | c :: s' =>
    let here :=
      if Ascii.eqb c "." then
        match digits1 s' with
        | Some (d, rest) =>
          if bool_decide (rest = []) || bool_decide (rest = NL) then Some d else None
        | None => None
        end
      else None in
    match here with
    | Some d => Some d
    | None => PF_FUNC_RE_search s'
    end
  end.

(** [VF_PCI_RE] matched at the start of [s]: groups 1, 2 and 3. *)
Definition VF_PCI_RE_here (s : str) : option (str * str * str) :=
  s ← expect "/" s;
  let d4 := take 4 s in
  if negb (bool_decide (length d4 = 4%nat) && forallb is_digit d4) then None else
  s ← expect ":" (drop 4 s);
  '(g1, s) ← digits1 s;
  s ← expect ":" s;
  '(g2, s) ← digits1 s;
  s ← expect "." s;
  '(g3, s) ← digits1 s;
  s ← expect "/net/" s;
  if bool_decide (s = []) || contains "/" s then None else Some (g1, g2, g3).

(** [VF_PCI_RE.search]: a slash, four digits, a colon, and then
    digits : digits . digits /net/ name, the name without a slash and
    running to the end of the string. *)
Fixpoint VF_PCI_RE_search (s : str) : option (str * str * str) :=
  match VF_PCI_RE_here s with
  | Some g => Some g
  | None =>
    match s with
    | [] => None
    | _ :: s' => VF_PCI_RE_search s'
    end
  end.

(** ** The module *)

Definition _UDEV_RULE_FILE : str := "/etc/udev/rules.d/80-persistent-os-net-config.rules".
Definition _UDEV_LEGACY_RULE_FILE : str := "/etc/udev/rules.d/70-os-net-config-sriov.rules".
Definition _IFUP_LOCAL_FILE : str := "/sbin/ifup-local".
Definition _RESET_SRIOV_RULES_FILE : str := "/etc/udev/rules.d/70-tripleo-reset-sriov.rules".
Definition _ALLOCATE_VFS_FILE : str := "/etc/sysconfig/allocate_vfs".
Definition _MLNX_DRIVER : str := "mlx5_core".
Definition MLNX_UNBIND_FILE_PATH : str := "/sys/bus/pci/drivers/mlx5_core/unbind".
Definition MLNX5_VDPA_KMODS : list str := ["vdpa" : str; "vhost_vdpa" : str; "mlx5_vdpa" : str].
Definition MAX_RETRIES : nat := 10.
Definition _REP_LINK_NAME_FILE : str := "/etc/udev/rep-link-name.sh".
Definition _REP_LINK_NAME_DATA : str :=
  "#!/bin/bash" ++ NL ++
  "# This file is autogenerated by os-net-config" ++ NL ++
  "set -x" ++ NL ++
  "PORT=" ++ ["034"%char] ++ "$1" ++ ["034"%char] ++ NL ++
  "echo " ++ ["034"%char] ++ "NUMBER=${PORT##pf*vf}" ++ ["034"%char] ++ NL.

(** A text between double quotes, for the rule lines. *)
Definition qt (s : str) : str := ["034"%char] ++ s ++ ["034"%char].

(** Modelled from the spec: [common.get_dev_path], the Device Filesystem
    Accessor's path of a pseudo file of a named interface, which is not
    part of this module. An attribute lives under the interface's
    [device] directory; a leading underscore asks for a file of the
    interface itself. Interface names hold no slash. *)
Definition get_dev_path (ifname path : str) : str :=
  "/sys/class/net/" ++ ifname ++ "/" ++
  (if startswith "_" path then drop 1 path else "device/" ++ path).

Section Program.
Context {K : Type} (host : Host K) (sriov_map : list item).

Definition set_kern (k : K) (w : World K) : World K :=
  mkWorld k (vf_queue w) (vf_to_pf w) (files w).
Definition set_vf_queue (q : list (option UdevEvent)) (w : World K) : World K :=
  mkWorld (kern w) q (vf_to_pf w) (files w).
Definition set_vf_to_pf (d : list (str * PfVfLink)) (w : World K) : World K :=
  mkWorld (kern w) (vf_queue w) d (files w).
Definition set_files (f : gmap str str) (w : World K) : World K :=
  mkWorld (kern w) (vf_queue w) (vf_to_pf w) f.

Definition log (l : level) (m : msg) : M K unit := tell (ELog l m).

(** [processutils.execute] on a command line *)
Definition execute (cmd : list str) : M K str := λ w,
  let '(k, r) := run_command host cmd (kern w) in
  mkOut (match r with
         | Done stdout => Ret stdout
         | Failed text => Raise (ProcessExecutionError text)
         end) (set_kern k w) [EExec cmd].

(** [with open(path, 'r') as f: f.read()] on a sysfs attribute *)
Definition read_attr (path : str) : M K str := λ w,
  mkOut (match sys_read host path (kern w) with
         | Done data => Ret data
         | Failed text => Raise (IOError text)
         end) w [ESysRead path].

(** [with open(path, 'w') as f: f.write(data)] on a sysfs attribute *)
Definition write_attr (path data : str) : M K unit := λ w,
  let '(k, r) := sys_write host path data (kern w) in
  mkOut (match r with
         | Done _ => Ret tt
         | Failed text => Raise (IOError text)
         end) (set_kern k w) [ESysWrite path data].

(** A helper of [common] or [sriov_bind_config] that only acts. *)
Definition call_helper (fn : str) (args : list str) : M K unit := λ w,
  let '(k, r) := helper_call host fn args (kern w) in
  mkOut (match r with
         | Done _ => Ret tt
         | Failed text => Raise (HelperError text)
         end) (set_kern k w) [EHelper fn args].

(** [time.sleep(secs)] *)
Definition sleep (secs : Z) : M K unit :=
  tell (ESleep secs) >> modify (λ w, set_kern (pass_time host secs (kern w)) w).

(** Files outside /sys: [os.path.exists], [open(path, "w")],
    [open(path, "a")], [f.write], [os.remove], and what
    [common.get_file_data] reads back. *)
Definition file_exists (path : str) : M K bool :=
  gets (λ w, bool_decide (is_Some (files w !! path))).

Definition open_w (path : str) : M K unit :=
  tell (EOpen path "w") >> modify (λ w, set_files (<[path := []]> (files w)) w).

Definition open_a (path : str) : M K unit :=
  tell (EOpen path "a") >>
  modify (λ w, set_files (<[path := default [] (files w !! path)]> (files w)) w).

Definition write (path data : str) : M K unit :=
  tell (EWrite path data) >>
  modify (λ w, set_files (<[path := default [] (files w !! path) ++ data]> (files w)) w).

Definition remove (path : str) : M K unit :=
  tell (ERemove path) >> modify (λ w, set_files (delete path (files w)) w).

Definition get_file_data (path : str) : M K str :=
  gets (λ w, default [] (files w !! path)).

(** Modelled from the spec: the configuration loader
    [common.get_sriov_map], which is not part of this module. It yields
    the configuration map, narrowed to the entries of one name when a
    name is given. *)
Definition get_sriov_map (pf_name : option str) : list item :=
  match pf_name with
  | Some n => filter (λ it, eq_str (get "name" it) n = true) sriov_map
  | None => sriov_map
  end.

(** [item[k]] *)
Definition getitem (k : str) (it : item) : M K pyval :=
  match assoc k (fields it) with
  | Some v => ret v
  | None => raise (KeyError k)
  end.

(** [item['device'][k]] *)
Definition getdevice (k : str) (it : item) : M K pyval :=
  match device it with
  | None => raise (KeyError "device")
  | Some d =>
    match assoc k d with
    | Some v => ret v
    | None => raise (KeyError k)
    end
  end.

(** A value used where only a [str] will do (a path component, an
    element of a joined command line). *)
Definition as_str (v : pyval) : M K str :=
  match v with
  | PyStr s => ret s
  | _ => raise TypeError
  end.

Definition _norm_path (dev suffix : str) : str := normpath (path_join dev suffix).

Definition _get_pf_path (device : str) : M K (option str) :=
  let pf_path := _norm_path device "../../physfn/net" in
  let* d := gets (λ w, sys_isdir host pf_path (kern w)) in
  if d then ret (Some pf_path) else
  let pf_path := _norm_path device "physfn/net" in
  let* d := gets (λ w, sys_isdir host pf_path (kern w)) in
  if d then ret (Some pf_path) else ret None.

Definition _driver_unbind (dev : str) : M K unit :=
  let vf_pci_path : str := "/sys/bus/pci/devices/" ++ dev ++ "/driver" in
  let* e := gets (λ w, sys_exists host vf_pci_path (kern w)) in
  if e then
    log INFO [T dev; T ": Unbinding driver"] >>
    write_attr MLNX_UNBIND_FILE_PATH dev
  else
    log INFO [T dev; T ": No driver to unbind"].

(** [vf_name in vf_to_pf] *)
Definition in_vf_to_pf (vf_name : str) (d : list (str * PfVfLink)) : bool :=
  bool_decide (vf_name ∈ d.*1).

(** The body of the loop of [_wait_for_vf_creation] for one received
    event; it returns the new [vf_count]. *)
Definition vf_event (pf_name : str) (vdpa : pyval) (vf_count : Z) (event : UdevEvent)
  : M K Z :=
  let vf_name := basename (device_of event) in
  let* pf_path := _get_pf_path (device_of event) in
  log DEBUG [T (device_of event); T ": Got udev event: "; E event] >>
  match pf_path with
  | Some pf_path =>
    let* pf_nic := gets (λ w, sys_listdir host pf_path (kern w)) in
    let* known := gets (λ w, in_vf_to_pf vf_name (vf_to_pf w)) in
    if negb known && mem pf_name pf_nic then
      modify (λ w, set_vf_to_pf (vf_to_pf w ++ [(vf_name, Link (device_of event) pf_name)]) w) >>
      log INFO [T pf_name; T ": VF "; T vf_name; T " created"] >>
      ret (vf_count + 1)
    else if known then
      log DEBUG [T pf_name; T ": VF "; T vf_name; T " was already created"] >>
      ret vf_count
    else if truthy vdpa then
      log WARNING [T pf_name; T ": This PF is not in "; T pf_path] >>
      ret vf_count
    else
      log WARNING [T pf_name; T ": Unable to parse event "; T (device_of event)] >>
      ret vf_count
  | None =>
    when (negb (truthy vdpa))
         (log WARNING [T (device_of event); T ": Unable to find PF"]) >>
    ret vf_count
  end.

(** The [while vf_count < numvfs] loop. [script] is the queue's script as
    the loop finds it; each round takes the head, as
    [vf_queue.get(True, 5)] does. *)
Fixpoint wait_loop (pf_name : str) (numvfs : Z) (vdpa : pyval) (vf_count : Z)
    (script : list (option UdevEvent)) : M K unit :=
  if vf_count <? numvfs then
    tell (EQueueGet true 5) >>
    match script with
    | Some event :: rest =>
      modify (set_vf_queue rest) >>
      let* vf_count := vf_event pf_name vdpa vf_count event in
      wait_loop pf_name numvfs vdpa vf_count rest
    | None :: rest =>
      modify (set_vf_queue rest) >>
      log INFO [T pf_name; T ": Timeout in the creation of VFs"]
    | [] =>
      log INFO [T pf_name; T ": Timeout in the creation of VFs"]
    end
  else
    log INFO [T pf_name; T ": Required VFs are created"].

Definition _wait_for_vf_creation (pf_name : str) (numvfs : Z) : M K unit :=
  let vf_count := 0 in
  let pf_config := get_sriov_map (Some pf_name) in
  let vdpa :=
    match pf_config with
    | it :: _ => get_default "vdpa" (PyBool false) it
    | [] => PyBool false
    end in
  let* script := gets vf_queue in
  wait_loop pf_name numvfs vdpa vf_count script.

Definition get_numvfs (ifname : str) : M K Z :=
  let sriov_numvfs_path := get_dev_path ifname "sriov_numvfs" in
  log DEBUG [T ifname; T ": Getting numvfs for interface"] >>
  let* curr_numvfs :=
    try_except
      (let* data := read_attr sriov_numvfs_path in
       match py_int data with
       | Some n => ret n
       | None => raise (ValueError data)
       end)
      (λ exc, match exc with
              | IOError text =>
                Some (raise (SRIOVNumvfsException
                               [T ifname; T ": Unable to read numvfs: "; T text]))
              | _ => None
              end) in
  log DEBUG [T ifname; T ": Interface has "; N curr_numvfs; T " configured"] >>
  ret curr_numvfs.

Definition set_numvfs (ifname : str) (numvfs : pyval) : M K Z :=
  let* curr_numvfs := get_numvfs ifname in
  log DEBUG [T ifname; T ": Interface has "; N curr_numvfs;
             T " configured, setting to "; V numvfs] >>
  if negb (is_int numvfs) then
    raise (SRIOVNumvfsException
             [T ifname; T ": Unable to configure pf with numvfs: "; V numvfs; T NL;
              T "numvfs must be an integer"])
  else
  if negb (eq_int numvfs curr_numvfs) then
    if negb (curr_numvfs =? 0) then
      log WARNING [T ifname; T ": Numvfs already configured to "; N curr_numvfs] >>
      ret curr_numvfs
    else
      let sriov_numvfs_path := get_dev_path ifname "sriov_numvfs" in
      try_except
        (log DEBUG [T "Setting "; T sriov_numvfs_path; T " to "; V numvfs] >>
         write_attr sriov_numvfs_path (pretty (int_of numvfs)))
        (λ exc, match exc with
                | IOError text =>
                  Some (raise (SRIOVNumvfsException
                                 [T ifname; T " Unable to configure pf  with numvfs: ";
                                  V numvfs; T NL; T text]))
                | _ => None
                end) >>
      _wait_for_vf_creation ifname (int_of numvfs) >>
      let* curr_numvfs := get_numvfs ifname in
      if negb (curr_numvfs =? int_of numvfs) then
        raise (SRIOVNumvfsException
                 [T ifname; T ": Unable to configure pf with numvfs: "; V numvfs; T NL;
                  T "sriov_numvfs file is not set to the targeted number of vfs"])
      else ret curr_numvfs
  else ret curr_numvfs.

(** The clause [except processutils.ProcessExecutionError as exc:] that
    logs and re-raises. *)
Definition on_exec_error {A} (report : str → M K unit) (exc : exn) : option (M K A) :=
  match exc with
  | ProcessExecutionError text => Some (report text >> raise exc)
  | _ => None
  end.

Definition if_down_interface (device : pyval) : M K unit :=
  log INFO [V device; T ": Running /sbin/ifdown"] >>
  try_except
    (execute ["/sbin/ifdown" : str; to_str device] >> ret tt)
    (on_exec_error (λ _, log ERROR [V device; T ": Failed to ifdown"])).

Definition if_up_interface (device : pyval) : M K unit :=
  log INFO [V device; T ": Running /sbin/ifup"] >>
  try_except
    (execute ["/sbin/ifup" : str; to_str device] >> ret tt)
    (on_exec_error (λ _, log ERROR [V device; T ": Failed to ifup"])).

Definition restart_ovs_and_pfs_netdevs : M K unit :=
  let sriov_map := get_sriov_map None in
  execute ["/usr/bin/systemctl" : str; "restart" : str; "openvswitch" : str] >>
  for_each sriov_map (λ item,
    let* device_type := getitem "device_type" item in
    if eq_str device_type "pf" then
      (let* name := getitem "name" item in if_down_interface name) >>
      (let* name := getitem "name" item in if_up_interface name)
    else ret tt).

(** The lines a text file yields when iterated, terminators kept. *)
Fixpoint readlines (s : str) : list str :=
  match s with
  | [] => []
  | c :: s' =>
    if Ascii.eqb c LF then [c] :: readlines s'
    else match readlines s' with
         | [] => [[c]]
         | l :: ls => (c :: l) :: ls
         end
  end.

Definition cleanup_puppet_config : M K unit :=
  let file_contents : str := [] in
  (let* e := file_exists _RESET_SRIOV_RULES_FILE in
   when e (remove _RESET_SRIOV_RULES_FILE)) >>
  (let* e := file_exists _ALLOCATE_VFS_FILE in
   when e (remove _ALLOCATE_VFS_FILE)) >>
  let* e := file_exists _IFUP_LOCAL_FILE in
  when e
    (let* oldfile := get_file_data _IFUP_LOCAL_FILE in
     let file_contents :=
       foldl (λ file_contents line,
                if negb (contains "/etc/sysconfig/allocate_vfs" line)
                then file_contents ++ line else file_contents)
             file_contents (readlines oldfile) in
     if bool_decide (strip file_contents = ("#!/bin/bash" : str)) then
       remove _IFUP_LOCAL_FILE
     else
       open_w _IFUP_LOCAL_FILE >> write _IFUP_LOCAL_FILE file_contents).

Definition udev_monitor_setup : M K unit := tell (EMonitor "setup").
Definition udev_monitor_start : M K unit := tell (EMonitor "start").
Definition udev_monitor_stop : M K unit := tell (EMonitor "stop").

(** The loop of [is_partitioned_pf] over the configuration map. *)
Fixpoint is_partitioned_pf_loop (dev_name : str) (l : list item) : M K bool :=
  match l with
  | [] => ret false
  | config :: l' =>
    let devtype := get_default "device_type" PyNone config in
    if eq_str devtype "vf" then
      let name := default PyNone (assoc "name" (default [] (device config))) in
      let vf_name := get "name" config in
      if eq_str name dev_name then
        log WARNING [V name; T " has VF("; V vf_name; T ") used by host"] >>
        ret true
      else is_partitioned_pf_loop dev_name l'
    else is_partitioned_pf_loop dev_name l'
  end.

Definition is_partitioned_pf (dev_name : str) : M K bool :=
  is_partitioned_pf_loop dev_name (get_sriov_map None).

(** [common.get_file_data] of a sysfs attribute. *)
Definition get_sys_file_data (path : str) : M K str :=
  gets (λ w, sys_file_data host path (kern w)).

(** The [for i in range(MAX_RETRIES)] loop, with its [else] clause. *)
Fixpoint uplink_rep_loop (pf_name path : str) (retries : nat) : M K unit :=
  match retries with
  | O => raise (RuntimeError [T pf_name; T ": Timeout waiting uplink representor"])
  | S retries' =>
    let* data := get_sys_file_data path in
    if negb (bool_decide (data = [])) then
      log INFO [T pf_name; T " Uplink representor ready"]
    else
      sleep 1 >> uplink_rep_loop pf_name path retries'
  end.

Definition _wait_for_uplink_rep_creation (pf_name : str) : M K unit :=
  let uplink_rep_phys_switch_id_path : str :=
    "/sys/class/net/" ++ pf_name ++ "/phys_switch_id" in
  uplink_rep_loop pf_name uplink_rep_phys_switch_id_path MAX_RETRIES.

Definition create_rep_link_name_script : M K unit :=
  open_w _REP_LINK_NAME_FILE >>
  write _REP_LINK_NAME_FILE _REP_LINK_NAME_DATA >>
  tell (EChmod _REP_LINK_NAME_FILE 493).

Definition get_pf_pci (pf_name : str) : M K str :=
  let pf_pci_path := get_dev_path pf_name "uevent" in
  let* pf_info := get_sys_file_data pf_pci_path in
  match search_slot_name pf_info with
  | Some pf_pci => ret pf_pci
  | None => raise AttributeError
  end.

Definition get_pf_device_id (pf_name : str) : M K str :=
  let pf_device_path := get_dev_path pf_name "device" in
  let* data := get_sys_file_data pf_device_path in
  ret (strip data).

Definition get_vf_pcis_list (pf_name : str) : M K (list str) :=
  let* pf_files := gets (λ w, sys_listdir host (get_dev_path pf_name "_device") (kern w)) in
  for_fold pf_files (λ pf_file vf_pcis_list,
    if startswith "virtfn" pf_file then
      let* vf_info := get_sys_file_data (get_dev_path pf_name (pf_file ++ "/uevent")) in
      match search_slot_name vf_info with
      | Some pci => ret (vf_pcis_list ++ [pci])
      | None => raise AttributeError
      end
    else ret vf_pcis_list) [].

Definition reload_udev_rules : M K unit :=
  try_except
    (execute ["/usr/sbin/udevadm" : str; "control" : str; "--reload-rules" : str] >>
     log INFO [T "udev rules reloaded successfully"])
    (on_exec_error (λ text, log ERROR [T "Failed to reload udev rules: "; T text])).

Definition trigger_udev_rules : M K unit :=
  try_except
    (execute ["/usr/sbin/udevadm" : str; "trigger" : str; "--action=add" : str;
              "--attr-match=subsystem=net" : str] >>
     log INFO [T "udev rules triggered successfully"])
    (on_exec_error (λ text, log ERROR [T "Failed to trigger udev rules: "; T text])).

Definition UDEV_HEADER : str := "# This file is autogenerated by os-net-config".

Definition add_udev_rule (udev_data udev_file : str) (pattern : option str) : M K bool :=
  log DEBUG [T "adding udev rule to "; T udev_file; T ": "; T udev_data] >>
  let trigger_udev_rule := false in
  let udev_data := strip udev_data in
  let pattern :=
    match pattern with
    | Some p => if bool_decide (p = []) then udev_data else p
    | None => udev_data
    end in
  let* e := file_exists udev_file in
  let* written :=
    if negb e then
      open_w udev_file >>
      write udev_file (UDEV_HEADER ++ NL ++ udev_data ++ NL) >>
      ret true
    else
      let* file_data := get_file_data udev_file in
      let udev_lines := splitlines file_data in
      if contains pattern file_data then
        if mem udev_data udev_lines then ret false
        else
          open_w udev_file >>
          for_each udev_lines (λ line,
            if contains pattern line
            then write udev_file (udev_data ++ NL)
            else write udev_file (line ++ NL)) >>
          ret true
      else
        open_a udev_file >>
        write udev_file (udev_data ++ NL) >>
        ret true in
  if written then
    reload_udev_rules >>
    let trigger_udev_rule := true in
    ret trigger_udev_rule
  else ret trigger_udev_rule.

Definition add_udev_rule_for_sriov_pf (pf_name : str) : M K bool :=
  log INFO [T pf_name; T ": adding udev rules for sriov"] >>
  let* pf_pci := get_pf_pci pf_name in
  let udev_data_line : str :=
    "SUBSYSTEM==" ++ qt "net" ++ ", ACTION==" ++ qt "add" ++ ", DRIVERS==" ++ qt "?*" ++ ", "
    ++ "KERNELS==" ++ qt pf_pci ++ ", NAME=" ++ qt pf_name in
  add_udev_rule udev_data_line _UDEV_RULE_FILE None.

Definition add_udev_rule_for_legacy_sriov_pf (pf_name : str) (numvfs : pyval) : M K bool :=
  log INFO [T pf_name; T ": adding udev rules for legacy sriov: "; V numvfs] >>
  let udev_line : str :=
    "KERNEL==" ++ qt pf_name ++ ", "
    ++ "RUN+=" ++ qt ("/bin/os-net-config-sriov -n %k:" ++ to_str numvfs) in
  let pattern : str :=
    "KERNEL==" ++ qt pf_name ++ ", RUN+=" ++ ["034"%char] ++ "/bin/os-net-config-sriov -n" in
  add_udev_rule udev_line _UDEV_LEGACY_RULE_FILE (Some pattern).

(** It returns [None] when the PCI function number cannot be read. *)
Definition add_udev_rule_for_vf_representors (pf_name : str) : M K (option bool) :=
  log INFO [T pf_name; T ": adding udev rules for vf representators"] >>
  let phys_switch_id_path := get_dev_path pf_name "_phys_switch_id" in
  let* data := get_sys_file_data phys_switch_id_path in
  let phys_switch_id := strip data in
  let* pf_pci := get_pf_pci pf_name in
  match PF_FUNC_RE_search pf_pci with
  | None =>
    log ERROR [T pf_name; T ": Failed to get function number ";
               T "and so failed to create a udev rule for renaming ";
               T "its vf-represent"] >>
    ret None
  | Some pf_fun_num =>
    let udev_data_line : str :=
      "SUBSYSTEM==" ++ qt "net" ++ ", ACTION==" ++ qt "add" ++ ", ATTR{phys_switch_id}"
      ++ "==" ++ qt phys_switch_id ++ ", ATTR{phys_port_name}==" ++ qt ("pf" ++ pf_fun_num ++ "vf*") ++ ", "
      ++ "IMPORT{program}=" ++ qt (_REP_LINK_NAME_FILE ++ " $attr{phys_port_name}") ++ ", "
      ++ "NAME=" ++ qt (pf_name ++ "_$env{NUMBER}") in
    create_rep_link_name_script >>
    let* r := add_udev_rule udev_data_line _UDEV_RULE_FILE None in
    ret (Some r)
  end.

Definition add_udev_rule_for_vdpa_representors (pf_name : str) : M K bool :=
  log INFO [T pf_name; T ": adding udev rules for vdpa representators"] >>
  let* links := gets vf_to_pf in
  let* udev_lines :=
    for_fold links (λ '(vf, att) udev_lines,
      let* mac := gets (λ w, interface_mac host vf (kern w)) in
      match VF_PCI_RE_search (link_device att) with
      | None =>
        log ERROR [T (link_device att); T "/"; T vf; T ": Failed to get pf/vf numbers ";
                   T "and so failed to create a udev rule for renaming vdpa dev"] >>
        ret udev_lines
      | Some (g1, g2, g3) =>
        let vdpa_rep : str := "vdpa" ++ g1 ++ "p" ++ g2 ++ "vf" ++ g3 in
        log INFO [T vdpa_rep; T ": Adding udev representor rule."] >>
        ret (udev_lines ++
             "SUBSYSTEM==" ++ qt "net" ++ ", ACTION==" ++ qt "add" ++ ", "
             ++ "ATTR{address}==" ++ qt mac ++ ", NAME=" ++ qt vdpa_rep ++ NL)
      end) [] in
  add_udev_rule udev_lines _UDEV_RULE_FILE None.

Definition add_udev_rule_to_unmanage_vf_representors_by_nm : M K bool :=
  log INFO [T "adding udev rules to unmanage vf representators"] >>
  let udev_data_line : str :=
    "SUBSYSTEM==" ++ qt "net" ++ ", ACTION==" ++ qt "add" ++ ", ATTR{phys_switch_id}"
    ++ "!=" ++ qt [] ++ ", ATTR{phys_port_name}==" ++ qt "pf*vf*" ++ ", "
    ++ "ENV{NM_UNMANAGED}=" ++ qt "1" in
  add_udev_rule udev_data_line _UDEV_RULE_FILE None.

Definition configure_switchdev (pf_name : str) : M K unit :=
  let* pf_pci := get_pf_pci pf_name in
  let* pf_device_id := get_pf_device_id pf_name in
  when (bool_decide (pf_device_id = ("0x1013" : str)) || bool_decide (pf_device_id = ("0x1015" : str)))
    (try_except
       (execute ["/usr/sbin/devlink" : str; "dev" : str; "eswitch" : str; "set" : str;
                 "pci/" ++ pf_pci; "inline-mode" : str; "transport" : str] >> ret tt)
       (on_exec_error (λ text,
          log ERROR [T pf_name; T ": Failed to set inline-mode to transport ";
                     T "for "; T pf_pci; T ": "; T text]))) >>
  try_except
    (execute ["/usr/sbin/devlink" : str; "dev" : str; "eswitch" : str; "set" : str;
              "pci/" ++ pf_pci; "mode" : str; "switchdev" : str] >> ret tt)
    (on_exec_error (λ text,
       log ERROR [T pf_name; T ": Failed to set mode to switchdev for ";
                  T pf_pci; T ": "; T text])) >>
  log INFO [T pf_name; T ": Device pci/"; T pf_pci; T " set to switchdev mode."] >>
  _wait_for_uplink_rep_creation pf_name >>
  try_except
    (execute ["/usr/sbin/ethtool" : str; "-K" : str; pf_name; "hw-tc-offload" : str; "on" : str] >>
     log INFO [T pf_name; T ": Enabled "; T (qt "hw-tc-offload"); T " for PF."])
    (on_exec_error (λ text,
       log ERROR [T pf_name; T ": Failed to enable hw-tc-offload: "; T text])).

Definition get_vdpa_vhost_devices : M K (list str) :=
  log INFO [T "Getting list of vdpa devices"] >>
  let* stdout :=
    try_except
      (execute ["vdpa" : str; "-j" : str; "dev" : str])
      (on_exec_error (λ text, log ERROR [T "Failed to get vdpa vhost devices: "; T text])) in
  ret (vdpa_dev_names host stdout).

Definition configure_vdpa_vhost_device (pci : str) : M K unit :=
  log INFO [T pci; T ": Creating vdpa device"] >>
  try_except
    (execute ["vdpa" : str; "dev" : str; "add" : str; "name" : str; pci;
              "mgmtdev" : str; "pci/" ++ pci] >> ret tt)
    (on_exec_error (λ text,
       log ERROR [T pci; T ": Failed to create vdpa vhost device: "; T text])).

Definition configure_flow_steering (pf_name : str) (steering_mode : pyval) : M K unit :=
  let* pf_pci := get_pf_pci pf_name in
  try_except
    (execute ["/usr/sbin/devlink" : str; "dev" : str; "param" : str; "set" : str;
              "pci/" ++ pf_pci; "name" : str; "flow_steering_mode" : str;
              "value" : str; to_str steering_mode; "cmode" : str; "runtime" : str] >>
     log INFO [T pf_name; T ": Device pci/"; T pf_pci; T " is set to";
               T " "; V steering_mode; T " steering mode."])
    (λ exc, match exc with
            | ProcessExecutionError text =>
              Some (log WARNING [T pf_name; T ": Could not set pci/"; T pf_pci; T " to";
                                 T " "; V steering_mode; T " steering mode: "; T text])
            | _ => None
            end).

(** [' '.join(cmd)]: every element has to be a [str]. *)
Fixpoint join_cmd (cmd : list pyval) : M K (list str) :=
  match cmd with
  | [] => ret []
  | v :: cmd' =>
    let* s := as_str v in
    let* l := join_cmd cmd' in
    ret (s :: l)
  end.

Definition run_ip_config_cmd (cmd : list pyval) : M K unit :=
  let* words := join_cmd cmd in
  log INFO [T "Running "; T (join " " words)] >>
  try_except
    (execute words >> ret tt)
    (on_exec_error (λ text,
       log ERROR [T "Failed to execute "; T (join " " words); T ": "; T text])).

Definition _pf_interface_up (pf_device : item) : M K unit :=
  when (has "promisc" pf_device)
    (let* name := getitem "name" pf_device in
     let* promisc := getitem "promisc" pf_device in
     run_ip_config_cmd [PyStr "ip"; PyStr "link"; PyStr "set"; PyStr "dev"; name;
                        PyStr "promisc"; promisc]) >>
  let* name := getitem "name" pf_device in
  log INFO [V name; T ": Bringing up PF"] >>
  let* name := getitem "name" pf_device in
  run_ip_config_cmd [PyStr "ip"; PyStr "link"; PyStr "set"; PyStr "dev"; name; PyStr "up"].

Definition pf_configure_status (pf_device : item) : M K bool :=
  let* numvfs := getitem "numvfs" pf_device in
  let* name := getitem "name" pf_device in
  let* name := as_str name in
  let* curr := get_numvfs name in
  ret (eq_int numvfs curr).

Definition run_ip_config_cmd_safe (raise_error : bool) (cmd : list pyval) : M K unit :=
  try_except
    (run_ip_config_cmd cmd)
    (λ exc, match exc with
            | ProcessExecutionError _ => Some (if raise_error then raise exc else ret tt)
            | _ => None
            end).

(** The local variables the loop of [configure_sriov_pf] updates. *)
Record pf_vars := PfVars {
  cur_dpdk_vfs_pcis_list : list str;
  cur_trigger_udev_rule : bool;
  cur_vdpa : pyval
}.

(** [item['name']], where a [str] is needed. *)
Definition name_of (it : item) : M K str :=
  let* name := getitem "name" it in as_str name.

(** The body of the loop of [configure_sriov_pf] for one entry. *)
Definition configure_sriov_pf_item (execution_from_cli : bool) (vdpa_devices : list str)
    (item : item) (vars : pf_vars) : M K pf_vars :=
  let* device_type := getitem "device_type" item in
  if negb (eq_str device_type "pf") then ret vars else
  let* configured := pf_configure_status item in
  if configured then
    (let* name := getitem "name" item in
     log DEBUG [T "PF "; V name; T " is already configured"]) >>
    ret vars
  else
  _pf_interface_up item >>
  when (eq_str (get "link_mode" item) "legacy")
    (let* name := name_of item in
     let* partitioned := is_partitioned_pf name in
     when (negb partitioned)
       (let* name := name_of item in
        let* numvfs := getitem "numvfs" item in
        add_udev_rule_for_legacy_sriov_pf name numvfs >> ret tt)) >>
  let* name := name_of item in
  let* is_mlnx := gets (λ w, is_mellanox_interface host name (kern w)) in
  let vdpa := get "vdpa" item in
  let vars := PfVars (cur_dpdk_vfs_pcis_list vars) (cur_trigger_udev_rule vars) vdpa in
  when (truthy vdpa && is_mlnx)
    (let* name := name_of item in configure_switchdev name) >>
  (let* name := name_of item in
   let* numvfs := getitem "numvfs" item in
   set_numvfs name numvfs >> ret tt) >>
  if eq_str (get "link_mode" item) "switchdev" && is_mlnx then
    (let* name := getitem "name" item in log INFO [V name; T ": Mellanox card"]) >>
    let* name := name_of item in
    let* vf_pcis_list := get_vf_pcis_list name in
    for_each vf_pcis_list (λ vf_pci,
      if negb (truthy vdpa) then _driver_unbind vf_pci
      else if negb (mem vf_pci vdpa_devices) then configure_vdpa_vhost_device vf_pci
      else log INFO [T name; T ": vDPA device already created "; T "for "; T vf_pci]) >>
    when (truthy vdpa) (call_helper "common.restorecon" ["/dev/vhost-*" : str]) >>
    log INFO [T name; T ": Adding udev rules"] >>
    add_udev_rule_to_unmanage_vf_representors_by_nm >>
    let* r := add_udev_rule_for_sriov_pf name in
    let vars := PfVars (cur_dpdk_vfs_pcis_list vars) (r || cur_trigger_udev_rule vars) vdpa in
    let* r := add_udev_rule_for_vf_representors name in
    let vars := PfVars (cur_dpdk_vfs_pcis_list vars)
                       (default false r || cur_trigger_udev_rule vars) vdpa in
    let* vars :=
      if negb (truthy vdpa) then
        let vars := PfVars (cur_dpdk_vfs_pcis_list vars ++ vf_pcis_list)
                           (cur_trigger_udev_rule vars) vdpa in
        configure_flow_steering name (get_default "steering_mode" (PyStr "smfs") item) >>
        configure_switchdev name >>
        ret vars
      else
        let* r := add_udev_rule_for_vdpa_representors name in
        ret (PfVars (cur_dpdk_vfs_pcis_list vars) (r || cur_trigger_udev_rule vars) vdpa) in
    when execution_from_cli (if_up_interface (PyStr name)) >>
    ret vars
  else ret vars.

Definition configure_sriov_pf (execution_from_cli restart_openvswitch : bool) : M K unit :=
  udev_monitor_setup >>
  udev_monitor_start >>
  let sriov_map := get_sriov_map None in
  let dpdk_vfs_pcis_list : list str := [] in
  let trigger_udev_rule := false in
  cleanup_puppet_config >>
  let* vdpa_devices :=
    if existsb (λ item, truthy (get "vdpa" item)) sriov_map then
      call_helper "common.load_kmods" MLNX5_VDPA_KMODS >>
      get_vdpa_vhost_devices
    else ret [] in
  let* vars :=
    for_fold sriov_map (configure_sriov_pf_item execution_from_cli vdpa_devices)
             (PfVars dpdk_vfs_pcis_list trigger_udev_rule PyNone) in
  when (negb (bool_decide (cur_dpdk_vfs_pcis_list vars = [])) && negb (truthy (cur_vdpa vars)))
    (let sriov_bind_pcis_map := _MLNX_DRIVER :: cur_dpdk_vfs_pcis_list vars in
     if negb execution_from_cli then
       call_helper "sriov_bind_config.update_sriov_bind_pcis_map" sriov_bind_pcis_map
     else
       call_helper "sriov_bind_config.configure_sriov_bind_service" [] >>
       call_helper "sriov_bind_config.bind_vfs" sriov_bind_pcis_map) >>
  when (cur_trigger_udev_rule vars) trigger_udev_rules >>
  udev_monitor_stop >>
  when restart_openvswitch restart_ovs_and_pfs_netdevs.

(** The body of the loop of [configure_sriov_vf] for one entry. *)
Definition configure_sriov_vf_item (item : item) : M K unit :=
  let raise_error := true in
  let* device_type := getitem "device_type" item in
  if negb (eq_str device_type "vf") then ret tt else
  let* pf_name := getdevice "name" item in
  let* vfid := getdevice "vfid" item in
  let base_cmd := [PyStr "ip"; PyStr "link"; PyStr "set"; PyStr "dev"; pf_name;
                   PyStr "vf"; PyStr (to_str vfid)] in
  (let* name := getitem "name" item in
   log INFO [V pf_name; T ": Configuring settings for VF: "; V vfid; T " ";
             T "VF name: "; V name]) >>
  let raise_error := true in
  when (has "macaddr" item)
    (let* macaddr := getitem "macaddr" item in
     let cmd := base_cmd ++ [PyStr "mac"; macaddr] in
     run_ip_config_cmd cmd) >>
  when (has "vlan_id" item)
    (let* vlan_id := getitem "vlan_id" item in
     let vlan_cmd := base_cmd ++ [PyStr "vlan"; PyStr (to_str vlan_id)] in
     let* vlan_cmd :=
       if has "qos" item then
         let* qos := getitem "qos" item in
         ret (vlan_cmd ++ [PyStr "qos"; PyStr (to_str qos)])
       else ret vlan_cmd in
     run_ip_config_cmd vlan_cmd) >>
  let* raise_error :=
    if has "max_tx_rate" item then
      let* max_tx_rate := getitem "max_tx_rate" item in
      let cmd := base_cmd ++ [PyStr "max_tx_rate"; PyStr (to_str max_tx_rate)] in
      let raise_error := if eq_int max_tx_rate 0 then false else raise_error in
      run_ip_config_cmd_safe raise_error cmd >>
      ret raise_error
    else ret raise_error in
  let* raise_error :=
    if has "min_tx_rate" item then
      let* min_tx_rate := getitem "min_tx_rate" item in
      let cmd := base_cmd ++ [PyStr "min_tx_rate"; PyStr (to_str min_tx_rate)] in
      let raise_error := if eq_int min_tx_rate 0 then false else raise_error in
      run_ip_config_cmd_safe raise_error cmd >>
      ret raise_error
    else ret raise_error in
  when (has "spoofcheck" item)
    (let* spoofcheck := getitem "spoofcheck" item in
     let cmd := base_cmd ++ [PyStr "spoofchk"; spoofcheck] in
     run_ip_config_cmd cmd) >>
  when (has "state" item)
    (let* state := getitem "state" item in
     let cmd := base_cmd ++ [PyStr "state"; state] in
     run_ip_config_cmd cmd) >>
  when (has "trust" item)
    (let* trust := getitem "trust" item in
     let cmd := base_cmd ++ [PyStr "trust"; trust] in
     run_ip_config_cmd cmd) >>
  when (has "promisc" item)
    (let* name := getitem "name" item in
     let* promisc := getitem "promisc" item in
     run_ip_config_cmd [PyStr "ip"; PyStr "link"; PyStr "set"; PyStr "dev"; name;
                        PyStr "promisc"; promisc]) >>
  when (has "driver" item)
    (let* pci_address := getitem "pci_address" item in
     let* driver := getitem "driver" item in
     call_helper "common.set_driverctl_override" [to_str pci_address; to_str driver]).

Definition configure_sriov_vf : M K unit :=
  let sriov_map := get_sriov_map None in
  for_each sriov_map configure_sriov_vf_item.

End Program.

(** ** A concrete host

    A small simulated machine on which the functions run: sysfs is a
    table of attribute files and one of directories, commands succeed
    unless listed as failing, and a write to an attribute is stored unless
    the machine is [inert]. *)

Module Sim.

Definition link_of_event (ev : UdevEvent) : str * PfVfLink :=
  (basename (device_of ev), Link (device_of ev) "ens1f0").

Record state := mkState {
  attrs : gmap str str;
  dirs : gmap str (list str);
  failing : list (list str);
  inert : bool
}.

Definition host : Host state := {|
  sys_read path k :=
    match attrs k !! path with
    | Some data => Done data
    | None => Failed "No such file or directory"
    end;
  sys_write path data k :=
    match attrs k !! path with
    | Some _ =>
      (if inert k then k
       else mkState (<[path := data]> (attrs k)) (dirs k) (failing k) (inert k),
       Done tt)
    | None => (k, Failed "Permission denied")
    end;
  sys_exists path k :=
    bool_decide (is_Some (attrs k !! path)) || bool_decide (is_Some (dirs k !! path));
  sys_isdir path k := bool_decide (is_Some (dirs k !! path));
  sys_listdir path k := default [] (dirs k !! path);
  sys_file_data path k := default [] (attrs k !! path);
  run_command cmd k :=
    (k, if bool_decide (cmd ∈ failing k) then Failed "exit code 1" else Done []);
  pass_time _ k := k;
  is_mellanox_interface name k :=
    bool_decide (strip (default [] (attrs k !! get_dev_path name "vendor")) = ("0x15b3" : str));
  interface_mac name k := strip (default [] (attrs k !! ("/sys/class/net/" ++ name ++ "/address")));
  helper_call _ _ k := (k, Done tt);
  vdpa_dev_names _ := []
|}.

Definition world (k : state) (queue : list (option UdevEvent)) (fs : gmap str str)
  : World state := mkWorld k queue [] fs.

(** A legacy PF [p1p1] with no VF yet. *)
Definition legacy_pf : item :=
  Item [("device_type" : str, PyStr "pf"); ("name" : str, PyStr "p1p1");
        ("numvfs" : str, PyInt 2); ("link_mode" : str, PyStr "legacy")] None.

Definition legacy_machine : state :=
  mkState {[ get_dev_path "p1p1" "sriov_numvfs" := "0" ++ NL ]} ∅ [] false.

(** A Mellanox PF [ens1f0] in switchdev mode, with or without vDPA, on a
    machine whose two VFs show up under the PF once they exist. *)
Definition switchdev_pf (vdpa : bool) : item :=
  Item ([("device_type" : str, PyStr "pf"); ("name" : str, PyStr "ens1f0");
         ("numvfs" : str, PyInt 2); ("link_mode" : str, PyStr "switchdev")] ++
        (if vdpa then [("vdpa" : str, PyBool true)] else [])) None.

Definition vf0_event : UdevEvent :=
  Event "add" "/sys/devices/pci0000:00/0000:06:00.2/net/ens1f0v0".
Definition vf1_event : UdevEvent :=
  Event "add" "/sys/devices/pci0000:00/0000:06:00.3/net/ens1f0v1".

Definition mlnx_machine : state :=
  mkState
    (list_to_map
       [(get_dev_path "ens1f0" "sriov_numvfs", "0" ++ NL);
        (get_dev_path "ens1f0" "vendor", "0x15b3" ++ NL);
        (get_dev_path "ens1f0" "device", "0x1017" ++ NL);
        (get_dev_path "ens1f0" "uevent",
         "DRIVER=mlx5_core" ++ NL ++ "PCI_SLOT_NAME=0000:06:00.0" ++ NL);
        (get_dev_path "ens1f0" "virtfn0/uevent", "PCI_SLOT_NAME=0000:06:00.2" ++ NL);
        (get_dev_path "ens1f0" "virtfn1/uevent", "PCI_SLOT_NAME=0000:06:00.3" ++ NL);
        (get_dev_path "ens1f0" "_phys_switch_id", "b8599f0300c2" ++ NL);
        ("/sys/class/net/ens1f0v0/address" : str, "aa:bb:cc:dd:ee:00" ++ NL);
        ("/sys/class/net/ens1f0v1/address" : str, "aa:bb:cc:dd:ee:01" ++ NL);
        (MLNX_UNBIND_FILE_PATH, [])])
    (list_to_map
       [(get_dev_path "ens1f0" "_device", ["net" : str; "virtfn0" : str; "virtfn1" : str]);
        ("/sys/devices/pci0000:00/0000:06:00.2/physfn/net" : str, ["ens1f0" : str]);
        ("/sys/devices/pci0000:00/0000:06:00.3/physfn/net" : str, ["ens1f0" : str]);
        ("/sys/bus/pci/devices/0000:06:00.2/driver" : str, [])])
    [] false.

(** A VF of [p1p1] with rate limits, and a machine on which the listed
    commands fail. *)
Definition rate_vf (rates : list (str * pyval)) : item :=
  Item ([("device_type" : str, PyStr "vf"); ("name" : str, PyStr "p1p1_0")] ++ rates)
       (Some [("name" : str, PyStr "p1p1"); ("vfid" : str, PyInt 0)]).

Definition rate_cmd (which value : str) : list str :=
  ["ip" : str; "link" : str; "set" : str; "dev" : str; "p1p1" : str; "vf" : str; "0" : str;
   which; value].

Definition failing_machine (cmds : list (list str)) : state :=
  mkState ∅ ∅ cmds false.

(** A machine without SR-IOV devices, holding one rule file, or none. *)
Definition rules_world (content : option str) : World state :=
  world (failing_machine []) []
        (match content with
         | Some c => {[ _UDEV_RULE_FILE := c ]}
         | None => ∅
         end).

(** The same machine when every card is taken for a Mellanox card. *)
Definition mlnx_host : Host state := {|
  sys_read := sys_read host;
  sys_write := sys_write host;
  sys_exists := sys_exists host;
  sys_isdir := sys_isdir host;
  sys_listdir := sys_listdir host;
  sys_file_data := sys_file_data host;
  run_command := run_command host;
  pass_time := pass_time host;
  is_mellanox_interface _ _ := true;
  interface_mac := interface_mac host;
  helper_call := helper_call host;
  vdpa_dev_names := vdpa_dev_names host
|}.

(** [p1p1] with four VFs already. *)
Definition busy_machine : state :=
  mkState {[ get_dev_path "p1p1" "sriov_numvfs" := "4" ++ NL ]} ∅ [] false.

(** Two VFs already recorded in [vf_to_pf]. *)
Definition two_links : list (str * PfVfLink) :=
  [link_of_event vf0_event; link_of_event vf1_event].

End Sim.

(** The two [udevadm] command lines. *)
Definition RELOAD_CMD : list str :=
  ["/usr/sbin/udevadm" : str; "control" : str; "--reload-rules" : str].
Definition TRIGGER_CMD : list str :=
  ["/usr/sbin/udevadm" : str; "trigger" : str; "--action=add" : str;
   "--attr-match=subsystem=net" : str].


(** ** Notions the properties are stated with *)

(** The VF-count attribute of an interface. *)
Definition numvfs_path (ifname : str) : str := get_dev_path ifname "sriov_numvfs".

Definition is_sys_write (e : effect) : Prop :=
  match e with
  | ESysWrite _ _ => True
  | _ => False
  end.

Definition is_log (e : effect) : Prop :=
  match e with
  | ELog _ _ => True
  | _ => False
  end.

(** What the synchronizer does to the outside: it takes from the queue
    and it logs. *)
Definition is_wait_effect (e : effect) : Prop :=
  match e with
  | ELog _ _ | EQueueGet _ _ => True
  | _ => False
  end.

(** The attribute can be read as a number whenever it can be read. *)
Definition reads_as_int {K} (host : Host K) (path : str) (k : K) : Prop :=
  ∀ text, sys_read host path k = Done text → is_Some (py_int text).

(** The attribute reads as the number [n]. *)
Definition reads_int {K} (host : Host K) (path : str) (k : K) (n : Z) : Prop :=
  ∃ text, sys_read host path k = Done text ∧ py_int text = Some n.

(** What [_get_pf_path] answers for a device in a given state of the
    host. *)
Definition pf_path_of {K} (host : Host K) (device : str) (k : K) : option str :=
  if sys_isdir host (_norm_path device "../../physfn/net") k
  then Some (_norm_path device "../../physfn/net")
  else if sys_isdir host (_norm_path device "physfn/net") k
       then Some (_norm_path device "physfn/net")
       else None.

(** A well-formed event of a VF of [pf_name]: its device resolves to a
    [physfn/net] directory that lists the PF. *)
Definition announces {K} (host : Host K) (k : K) (pf_name : str) (ev : UdevEvent) : Prop :=
  ∃ pf_path, pf_path_of host (device_of ev) k = Some pf_path
             ∧ pf_name ∈ sys_listdir host pf_path k.

Definition vf_name_of (ev : UdevEvent) : str := basename (device_of ev).

(** The entry of [vf_to_pf] recorded for an event. *)
Definition link_of (pf_name : str) (ev : UdevEvent) : str * PfVfLink :=
  (vf_name_of ev, Link (device_of ev) pf_name).

(** The queue stays silent for a whole wait: the next [get] times out. *)
Definition quiet (script : list (option UdevEvent)) : Prop :=
  match script with
  | [] | None :: _ => True
  | Some _ :: _ => False
  end.

(** A text without any line boundary: one line. *)
Definition one_line (s : str) : Prop := Forall (λ c, is_linebreak c = false) s.

(** [b] is a line terminator when followed by [s]: one boundary
    character (a CR only when no LF follows it), or CR LF. *)
Definition terminator (b s : str) : Prop :=
  (∃ c, b = [c] ∧ is_linebreak c = true ∧ ¬ (c = CR ∧ head s = Some LF))
  ∨ b = [CR; LF].

(** [Lines s ls x]: the text [s] consists of the terminated lines [ls]
    followed by the unterminated rest [x]. *)
Inductive Lines : str → list str → str → Prop :=
| Lines_rest x : one_line x → Lines x [] x
| Lines_line l b s ls x :
    one_line l → terminator b s → Lines s ls x → Lines (l ++ b ++ s) (l :: ls) x.

(** The lines, each followed by a newline: what the rewriting loop of
    [add_udev_rule] writes. *)
Definition unlines (ls : list str) : str := concat ((λ l, l ++ NL) <$> ls).

(** The lines of a rule file that contain the pattern. *)
Definition matching (pattern content : str) : list str :=
  filter (λ l, contains pattern l = true) (splitlines content).

(** The pattern [add_udev_rule] works with: the one given, or the
    stripped rule when none (or an empty one) is given. *)
Definition pattern_of (udev_data : str) (pattern : option str) : str :=
  match pattern with
  | Some p => if bool_decide (p = []) then strip udev_data else p
  | None => strip udev_data
  end.

(** What the rewriting loop of [add_udev_rule] puts in the place of a
    line. *)
Definition replaced (d p line : str) : str := if contains p line then d else line.

(** What [add_udev_rule] makes of a rule file holding [old] ([None]: no
    such file), for the stripped rule [d] and the pattern [p]: the text it
    writes, or [None] when it leaves the file alone. *)
Definition new_content (d p : str) (old : option str) : option str :=
  match old with
  | None => Some (UDEV_HEADER ++ NL ++ d ++ NL)
  | Some file_data =>
    if contains p file_data then
      if mem d (splitlines file_data) then None
      else Some (unlines (replaced d p <$> splitlines file_data))
    else Some (file_data ++ d ++ NL)
  end.

(** Two calls of [add_udev_rule] in a row behave as an idempotent upsert:
    the first reports a change, the second none, and one line of the
    file matches the pattern afterwards. *)
Definition upsert_idempotent {K} (host : Host K) (udev_data f : str) (pattern : option str)
    (w : World K) : Prop :=
  let o1 := add_udev_rule host udev_data f pattern w in
  let o2 := add_udev_rule host udev_data f pattern (post o1) in
  res o1 = Ret true ∧ res o2 = Ret false
  ∧ ∃ content, files (post o2) !! f = Some content
               ∧ length (matching (pattern_of udev_data pattern) content) = 1%nat.

(** After one call of [add_udev_rule], exactly one line of the file
    matches the pattern. *)
Definition one_match_after {K} (host : Host K) (udev_data f : str) (pattern : option str)
    (w : World K) : Prop :=
  ∃ content, files (post (add_udev_rule host udev_data f pattern w)) !! f = Some content
             ∧ length (matching (pattern_of udev_data pattern) content) = 1%nat.

(** How many times a command line was run. *)
Definition is_exec (cmd : list str) (e : effect) : bool :=
  match e with
  | EExec c => bool_decide (c = cmd)
  | _ => false
  end.

Definition runs (cmd : list str) (tr : list effect) : nat :=
  length (filter (λ e, is_exec cmd e = true) tr).

(** The command line that sets the eswitch of a PCI device to switchdev
    mode. *)
Definition switchdev_cmd (pf_pci : str) : list str :=
  ["/usr/sbin/devlink" : str; "dev" : str; "eswitch" : str; "set" : str;
   "pci/" ++ pf_pci; "mode" : str; "switchdev" : str].

(** The trace shows [configure_switchdev pf_name] setting the mode: the
    command went through and its success was logged for the PF. *)
Definition switched_to_switchdev (pf_name : str) (tr : list effect) : Prop :=
  ∃ before pf_pci after,
    tr = before ++
         [EExec (switchdev_cmd pf_pci);
          ELog INFO [T pf_name; T ": Device pci/"; T pf_pci; T " set to switchdev mode."]]
         ++ after.

(** A write of the VF-count attribute of [pf_name]. *)
Definition is_numvfs_write (pf_name : str) (e : effect) : Prop :=
  ∃ data, e = ESysWrite (numvfs_path pf_name) data.

(** Every write of the VF count of [pf_name] in the trace comes after
    the switch to switchdev mode. *)
Definition switchdev_before_numvfs (pf_name : str) (tr : list effect) : Prop :=
  ∀ before e after, tr = before ++ e :: after → is_numvfs_write pf_name e →
                    switched_to_switchdev pf_name before.

(** An entry of the map that describes the PF [pf_name]. *)
Definition describes_pf (pf_name : str) (it : item) : Prop :=
  assoc "device_type" (fields it) = Some (PyStr "pf")
  ∧ assoc "name" (fields it) = Some (PyStr pf_name).

(** Every effect of the computation satisfies [P], in any world. *)
Definition emits {K A} (P : effect → Prop) (m : M K A) : Prop :=
  ∀ w, Forall P (emitted (m w)).

(** Whenever the computation returns, its trace satisfies [Q]. *)
Definition produces {K A} (Q : list effect → Prop) (m : M K A) : Prop :=
  ∀ w a, res (m w) = Ret a → Q (emitted (m w)).

(** In any world, the computation writes the VF count of [pf_name] only
    after the switch to switchdev mode. *)
Definition ordered {K A} (pf_name : str) (m : M K A) : Prop :=
  ∀ w, switchdev_before_numvfs pf_name (emitted (m w)).

(** An effect other than a write of the VF count of [pf_name]. *)
Definition spares (pf_name : str) (e : effect) : Prop :=
  match e with
  | ESysWrite path _ => path ≠ numvfs_path pf_name
  | _ => True
  end.

(** ** Further notions and machines *)

Module SimMore.

(** The simulated machine with a sysfs that refuses every write. *)
Definition readonly_host : Host Sim.state := {|
  sys_read := sys_read Sim.host;
  sys_write _ _ k := (k, Failed "Read-only file system");
  sys_exists := sys_exists Sim.host;
  sys_isdir := sys_isdir Sim.host;
  sys_listdir := sys_listdir Sim.host;
  sys_file_data := sys_file_data Sim.host;
  run_command := run_command Sim.host;
  pass_time := pass_time Sim.host;
  is_mellanox_interface := is_mellanox_interface Sim.host;
  interface_mac := interface_mac Sim.host;
  helper_call := helper_call Sim.host;
  vdpa_dev_names := vdpa_dev_names Sim.host
|}.

(** The simulated machine when no command ever fails. *)
Definition reliable_host : Host Sim.state := {|
  sys_read := sys_read Sim.host;
  sys_write := sys_write Sim.host;
  sys_exists := sys_exists Sim.host;
  sys_isdir := sys_isdir Sim.host;
  sys_listdir := sys_listdir Sim.host;
  sys_file_data := sys_file_data Sim.host;
  run_command _ k := (k, Done []);
  pass_time := pass_time Sim.host;
  is_mellanox_interface := is_mellanox_interface Sim.host;
  interface_mac := interface_mac Sim.host;
  helper_call := helper_call Sim.host;
  vdpa_dev_names := vdpa_dev_names Sim.host
|}.

End SimMore.

(** A blocking read of the event queue. *)
Definition is_queue_get (e : effect) : Prop :=
  match e with
  | EQueueGet _ _ => True
  | _ => False
  end.

(** How many times the computation slept. *)
Definition is_sleep (e : effect) : bool :=
  match e with
  | ESleep _ => true
  | _ => false
  end.

Definition sleeps (tr : list effect) : nat :=
  length (filter (λ e, is_sleep e = true) tr).

(** The [ip link] command line that sets one rate limit of a VF. *)
Definition vf_rate_cmd (pf_name : str) (vfid : pyval) (which : str) (rate : pyval) : list str :=
  ["ip" : str; "link" : str; "set" : str; "dev" : str; pf_name; "vf" : str; to_str vfid;
   which; to_str rate].

(** An entry for a VF [vfid] of [pf_name] that asks for nothing but rate
    limits. *)
Definition rate_only_vf (it : item) (pf_name : str) (vfid : pyval) : Prop :=
  assoc "device_type" (fields it) = Some (PyStr "vf")
  ∧ is_Some (assoc "name" (fields it))
  ∧ (∃ dev, device it = Some dev ∧ assoc "name" dev = Some (PyStr pf_name)
            ∧ assoc "vfid" dev = Some vfid)
  ∧ Forall (λ k, has k it = false)
           ["macaddr" : str; "vlan_id" : str; "spoofcheck" : str; "state" : str;
            "trust" : str; "promisc" : str; "driver" : str].

(** An effect other than a run of the trigger command. *)
Definition no_trigger (e : effect) : Prop := is_exec TRIGGER_CMD e = false.

(** An entry for a VF of [dev_name], as the loop of [is_partitioned_pf]
    recognises it. *)
Definition uses_vf_of (dev_name : str) (config : item) : bool :=
  eq_str (get_default "device_type" PyNone config) "vf"
  && eq_str (default PyNone (assoc "name" (default [] (device config)))) dev_name.

(** The command lines run, in order. *)
Definition execs (tr : list effect) : list (list str) :=
  omap (λ e, match e with EExec cmd => Some cmd | _ => None end) tr.

(** The commands [restart_ovs_and_pfs_netdevs] runs for one entry. *)
Definition cycle_cmds (it : item) : list (list str) :=
  if eq_str (get "device_type" it) "pf"
  then [["/sbin/ifdown" : str; to_str (get "name" it)];
        ["/sbin/ifup" : str; to_str (get "name" it)]]
  else [].

(** A sysfs write [configure_sriov_pf] may make for a given map: the VF
    count of a PF named in the map, or the unbind file of the driver. *)
Definition pf_write_of (sriov_map : list item) (e : effect) : Prop :=
  match e with
  | ESysWrite path _ =>
    path = MLNX_UNBIND_FILE_PATH
    ∨ ∃ it name, it ∈ sriov_map ∧ assoc "name" (fields it) = Some (PyStr name)
                 ∧ assoc "device_type" (fields it) = Some (PyStr "pf")
                 ∧ path = numvfs_path name
  | _ => True
  end.

(** The lines of a text file as Python iterates over it: each ends with
    its newline, except possibly the last. *)
Inductive file_lines : list str → Prop :=
| file_lines_nil : file_lines []
| file_lines_last s : s ≠ [] → LF ∉ s → file_lines [s]
| file_lines_cons s ls : LF ∉ s → file_lines ls → file_lines ((s ++ [LF]) :: ls).

(** What [cleanup_puppet_config] keeps of [ifup-local]: the lines that
    do not mention the [allocate_vfs] script. *)
Definition kept_of_ifup_local (old : str) : str :=
  concat (filter (λ line, contains "/etc/sysconfig/allocate_vfs" line = false)
                 (readlines old)).

(** The files [cleanup_puppet_config] leaves behind. *)
Definition cleaned (fs : gmap str str) : gmap str str :=
  let fs := delete _ALLOCATE_VFS_FILE (delete _RESET_SRIOV_RULES_FILE fs) in
  match fs !! _IFUP_LOCAL_FILE with
  | None => fs
  | Some old =>
    if bool_decide (strip (kept_of_ifup_local old) = ("#!/bin/bash" : str))
    then delete _IFUP_LOCAL_FILE fs
    else <[_IFUP_LOCAL_FILE := kept_of_ifup_local old]> fs
  end.

(** * Properties *)

(** ** Running a computation

    A run is described by an equation [m w = mkOut r w' t]; the lemmas
    below build such equations along the structure of [m]. *)

Section Running.
Context {K : Type}.

Lemma bind_Ret {A B} (m : M K A) (f : A → M K B) w a w1 t1 :
  m w = mkOut (Ret a) w1 t1 →
  bind m f w = mkOut (res (f a w1)) (post (f a w1)) (t1 ++ emitted (f a w1)).
Proof. intros H. unfold bind. rewrite H. reflexivity. Qed.

Lemma bind_Raise {A B} (m : M K A) (f : A → M K B) w e w1 t1 :
  m w = mkOut (Raise e) w1 t1 →
  bind m f w = mkOut (Raise e) w1 t1.
Proof. intros H. unfold bind. rewrite H. reflexivity. Qed.

Lemma bind_Ret_eq {A B} (m : M K A) (f : A → M K B) w a w1 t1 r w2 t2 t :
  m w = mkOut (Ret a) w1 t1 →
  t = t1 ++ t2 →
  f a w1 = mkOut r w2 t2 →
  bind m f w = mkOut r w2 t.
Proof. intros H1 -> H2. rewrite (bind_Ret _ _ _ _ _ _ H1), H2. reflexivity. Qed.

Lemma try_except_Ret {A} (m : M K A) h w a w1 t1 :
  m w = mkOut (Ret a) w1 t1 → try_except m h w = mkOut (Ret a) w1 t1.
Proof. intros H. unfold try_except. rewrite H. reflexivity. Qed.

Lemma try_except_caught {A} (m : M K A) h w e w1 t1 hd r w2 t2 t :
  m w = mkOut (Raise e) w1 t1 → h e = Some hd →
  t = t1 ++ t2 →
  hd w1 = mkOut r w2 t2 →
  try_except m h w = mkOut r w2 t.
Proof. intros H He -> H2. unfold try_except. rewrite H. cbn. rewrite He, H2. reflexivity. Qed.

Lemma try_except_passed {A} (m : M K A) h w e w1 t1 :
  m w = mkOut (Raise e) w1 t1 → h e = None →
  try_except m h w = mkOut (Raise e) w1 t1.
Proof. intros H He. unfold try_except. rewrite H. cbn. rewrite He. reflexivity. Qed.

Lemma out_eta {A} (o : Out K A) : o = mkOut (res o) (post o) (emitted o).
Proof. destruct o; reflexivity. Qed.

End Running.

(** Building the equation of a run: the steps whose outcome is known by
    computation or from the lemmas of the hint base [run]. *)
Create HintDb run.

Ltac run_leaf := first [solve [eauto 4 with run nocore] | reflexivity].

Ltac run :=
  cbv beta iota;
  lazymatch goal with
  | |- (if ?b then _ else _) _ = _ =>
    first [ progress (cbn [negb andb orb]); run
          | lazymatch goal with H : b = _ |- _ => rewrite H; run end
          | idtac ]
  | |- bind _ _ _ = _ =>
    first [ eapply bind_Ret_eq; [solve [run] | reflexivity | run]
          | eapply bind_Raise; solve [run]
          | idtac ]
  | |- try_except _ _ _ = _ =>
    first [ eapply try_except_Ret; solve [run]
          | eapply try_except_caught; [solve [run] | reflexivity | reflexivity | run]
          | eapply try_except_passed; [solve [run] | reflexivity]
          | idtac ]
  | |- _ => first [run_leaf | idtac]
  end.

(** Unfolding a short computation in full. *)
Ltac unfold_prog :=
  cbv beta iota zeta delta
    [bind ret raise tell log try_except gets modify when
     read_attr write_attr execute call_helper sleep on_exec_error];
  cbn [res post emitted].

(** Closing goals about a trace that is known in full. *)
Ltac no_writes := repeat constructor; intros [].
Ltac logs_only := eexists; split; [reflexivity | repeat constructor].

(** ** The VF-count attribute: [get_numvfs], [set_numvfs] *)

Section Numvfs.
Context {K : Type} (host : Host K) (sriov_map : list item).

Lemma read_attr_Done path (w : World K) data :
  sys_read host path (kern w) = Done data →
  read_attr host path w = mkOut (Ret data) w [ESysRead path].
Proof. intros H. unfold read_attr. rewrite H. reflexivity. Qed.

Lemma read_attr_Failed path (w : World K) text :
  sys_read host path (kern w) = Failed text →
  read_attr host path w = mkOut (Raise (IOError text)) w [ESysRead path].
Proof. intros H. unfold read_attr. rewrite H. reflexivity. Qed.

Lemma write_attr_Done path data (w : World K) k1 :
  sys_write host path data (kern w) = (k1, Done tt) →
  write_attr host path data w = mkOut (Ret tt) (set_kern k1 w) [ESysWrite path data].
Proof. intros H. unfold write_attr. rewrite H. reflexivity. Qed.

Hint Resolve read_attr_Done read_attr_Failed write_attr_Done : run.

Lemma get_numvfs_reads ifname (w : World K) n :
  reads_int host (numvfs_path ifname) (kern w) n →
  get_numvfs host ifname w =
  mkOut (Ret n) w
        [ELog DEBUG [T ifname; T ": Getting numvfs for interface"];
         ESysRead (numvfs_path ifname);
         ELog DEBUG [T ifname; T ": Interface has "; N n; T " configured"]].
Proof.
  intros (text & Hr & Hn). unfold get_numvfs, numvfs_path in *.
  eapply bind_Ret_eq; [reflexivity | reflexivity |].
  eapply bind_Ret_eq;
    [ eapply try_except_Ret; eapply bind_Ret_eq;
        [eauto with run | reflexivity | cbv beta; rewrite Hn; reflexivity]
    | reflexivity | run ].
Qed.

Lemma get_numvfs_fails ifname (w : World K) text :
  sys_read host (numvfs_path ifname) (kern w) = Failed text →
  get_numvfs host ifname w =
  mkOut (Raise (SRIOVNumvfsException [T ifname; T ": Unable to read numvfs: "; T text])) w
        [ELog DEBUG [T ifname; T ": Getting numvfs for interface"];
         ESysRead (numvfs_path ifname)].
Proof.
  intros Hr. unfold get_numvfs, numvfs_path in *.
  eapply bind_Ret_eq; [reflexivity | reflexivity |].
  eapply bind_Raise.
  eapply try_except_caught;
    [eapply bind_Raise; eauto with run | reflexivity | reflexivity | reflexivity].
Qed.

Hint Resolve get_numvfs_reads get_numvfs_fails : run.

Lemma vf_event_spec pf_name vdpa c ev (w : World K) :
  let o := vf_event host pf_name vdpa c ev w in
  (∃ c', res o = Ret c') ∧ kern (post o) = kern w ∧ files (post o) = files w
  ∧ vf_queue (post o) = vf_queue w ∧ Forall is_wait_effect (emitted o).
Proof.
  unfold vf_event, _get_pf_path. unfold_prog.
  repeat match goal with
         | |- context [if ?b then _ else _] => destruct b eqn:?; unfold_prog
         end; cbn; repeat split; eauto; repeat constructor.
Qed.

Lemma wait_loop_spec script : ∀ pf_name numvfs vdpa c (w : World K),
  let o := wait_loop host pf_name numvfs vdpa c script w in
  res o = Ret tt ∧ kern (post o) = kern w ∧ files (post o) = files w
  ∧ Forall is_wait_effect (emitted o).
Proof.
  induction script as [|[ev|] rest IH]; intros pf_name numvfs vdpa c w; cbn [wait_loop];
    destruct (c <? numvfs) eqn:Hc;
    try (unfold_prog; cbn; repeat split; repeat constructor; fail).
  unfold_prog.
  destruct (vf_event_spec pf_name vdpa c ev (set_vf_queue rest w))
    as ([c' Hc'] & Hk & Hf & _ & He).
  rewrite Hc'. cbn [res post emitted].
  destruct (IH pf_name numvfs vdpa c'
               (post (vf_event host pf_name vdpa c ev (set_vf_queue rest w))))
    as (Hr & Hk' & Hf' & He').
  repeat split.
  - exact Hr.
  - rewrite Hk', Hk. reflexivity.
  - rewrite Hf', Hf. reflexivity.
  - cbn [app]. constructor; [exact I|]. apply Forall_app. split; assumption.
Qed.

(** The synchronizer never raises and touches neither the host nor the
    files. *)
Lemma _wait_for_vf_creation_eq pf_name numvfs (w : World K) :
  ∃ w' t, _wait_for_vf_creation host sriov_map pf_name numvfs w = mkOut (Ret tt) w' t
          ∧ kern w' = kern w ∧ files w' = files w ∧ Forall is_wait_effect t.
Proof.
  exists (post (_wait_for_vf_creation host sriov_map pf_name numvfs w)),
         (emitted (_wait_for_vf_creation host sriov_map pf_name numvfs w)).
  assert (H : let o := _wait_for_vf_creation host sriov_map pf_name numvfs w in
              res o = Ret tt ∧ kern (post o) = kern w ∧ files (post o) = files w
              ∧ Forall is_wait_effect (emitted o)).
  { unfold _wait_for_vf_creation. unfold_prog. apply wait_loop_spec. }
  cbv zeta in H. destruct H as (Hr & Hk & Hf & He).
  rewrite (out_eta (_wait_for_vf_creation host sriov_map pf_name numvfs w)) at 1.
  rewrite Hr. auto.
Qed.

(** C10. A target that is not an [int] makes [set_numvfs] raise
    [SRIOVNumvfsException]: the current count is read first (the one
    effect besides logging), nothing is written and the world is left as
    it was, whatever the value of the target. *)
Theorem set_numvfs_rejects_non_integer ifname numvfs (w : World K) :
  is_int numvfs = false →
  reads_as_int host (numvfs_path ifname) (kern w) →
  let o := set_numvfs host sriov_map ifname numvfs w in
  (∃ m, res o = Raise (SRIOVNumvfsException m))
  ∧ post o = w
  ∧ Forall (λ e, ¬ is_sys_write e) (emitted o)
  ∧ ∃ logs, emitted o =
            ELog DEBUG [T ifname; T ": Getting numvfs for interface"]
            :: ESysRead (numvfs_path ifname) :: logs
            ∧ Forall is_log logs.
Proof.
  intros Hint Hwf.
  destruct (sys_read host (numvfs_path ifname) (kern w)) as [text|text] eqn:Hr.
  - destruct (Hwf text Hr) as [n Hn].
    assert (Hcur : reads_int host (numvfs_path ifname) (kern w) n) by (exists text; auto).
    eassert (Hrun : set_numvfs host sriov_map ifname numvfs w = mkOut _ _ _).
    { unfold set_numvfs. run. rewrite Hint. reflexivity. }
    cbv zeta. rewrite Hrun. cbn.
    repeat split; eauto; first [no_writes | logs_only].
  - eassert (Hrun : set_numvfs host sriov_map ifname numvfs w = mkOut _ _ _).
    { unfold set_numvfs. run. }
    cbv zeta. rewrite Hrun. cbn.
    repeat split; eauto; first [no_writes | logs_only].
Qed.

Lemma eq_int_int_of numvfs n : is_int numvfs = true → eq_int numvfs n = (int_of numvfs =? n).
Proof. destruct numvfs; intros H; try discriminate H; reflexivity. Qed.

(** C3. With the current count equal to the target, or non-zero and
    different from it, [set_numvfs] returns the current count, writes no
    attribute and leaves the world as it was; in the second case it logs
    the warning. *)
Theorem set_numvfs_noop_branches ifname numvfs curr (w : World K) :
  is_int numvfs = true →
  reads_int host (numvfs_path ifname) (kern w) curr →
  int_of numvfs = curr ∨ curr ≠ 0 →
  let o := set_numvfs host sriov_map ifname numvfs w in
  res o = Ret curr
  ∧ post o = w
  ∧ Forall (λ e, ¬ is_sys_write e) (emitted o)
  ∧ (int_of numvfs ≠ curr →
     ELog WARNING [T ifname; T ": Numvfs already configured to "; N curr] ∈ emitted o).
Proof.
  intros Hint Hcur Hcase.
  destruct (int_of numvfs =? curr) eqn:Heq.
  - eassert (Hrun : set_numvfs host sriov_map ifname numvfs w = mkOut _ _ _).
    { unfold set_numvfs. run. rewrite Hint, (eq_int_int_of _ _ Hint), Heq. reflexivity. }
    apply Z.eqb_eq in Heq.
    cbv zeta. rewrite Hrun. cbn. repeat split; [no_writes | tauto].
  - apply Z.eqb_neq in Heq. destruct Hcase as [?|Hnz]; [tauto|].
    apply Z.eqb_neq in Heq, Hnz.
    eassert (Hrun : set_numvfs host sriov_map ifname numvfs w = mkOut _ _ _).
    { unfold set_numvfs. run. rewrite Hint, (eq_int_int_of _ _ Hint), Heq, Hnz.
      cbn [negb]. run. }
    cbv zeta. rewrite Hrun. cbn.
    repeat split; [no_writes | intros _; repeat constructor].
Qed.

(** C2. Once the write of the VF count went through, [set_numvfs] waits
    for the VFs and reads the count again, and that value alone decides:
    the target is returned when it reads back, [SRIOVNumvfsException] is
    raised when anything else does, whatever the queue delivered. *)
Theorem set_numvfs_verifies_by_reading_back ifname numvfs k1 v (w : World K) :
  is_int numvfs = true →
  int_of numvfs ≠ 0 →
  reads_int host (numvfs_path ifname) (kern w) 0 →
  sys_write host (numvfs_path ifname) (pretty (int_of numvfs)) (kern w) = (k1, Done tt) →
  reads_int host (numvfs_path ifname) k1 v →
  let o := set_numvfs host sriov_map ifname numvfs w in
  res o =
    (if v =? int_of numvfs then Ret (int_of numvfs)
     else Raise (SRIOVNumvfsException
                   [T ifname; T ": Unable to configure pf with numvfs: "; V numvfs; T NL;
                    T "sriov_numvfs file is not set to the targeted number of vfs"]))
  ∧ ∃ before waiting,
      emitted o =
        before ++ ESysWrite (numvfs_path ifname) (pretty (int_of numvfs)) :: waiting ++
        [ELog DEBUG [T ifname; T ": Getting numvfs for interface"];
         ESysRead (numvfs_path ifname);
         ELog DEBUG [T ifname; T ": Interface has "; N v; T " configured"]]
      ∧ Forall (λ e, ¬ is_sys_write e) before
      ∧ Forall is_wait_effect waiting.
Proof.
  intros Hint Hnz Hcur Hwrite Hback.
  apply Z.eqb_neq in Hnz.
  destruct (_wait_for_vf_creation_eq ifname (int_of numvfs) (set_kern k1 w))
    as (w2 & tw & Hwait & Hk & _ & Hw).
  assert (Hback' : reads_int host (numvfs_path ifname) (kern w2) v)
    by (rewrite Hk; exact Hback).
  eassert (Hrun : set_numvfs host sriov_map ifname numvfs w = mkOut _ _ _).
  { unfold set_numvfs. run. rewrite Hint, (eq_int_int_of _ _ Hint), Hnz.
    cbn [negb Z.eqb]. fold (numvfs_path ifname).
    eapply bind_Ret_eq; [eapply try_except_Ret; run | reflexivity |].
    eapply bind_Ret_eq; [exact Hwait | reflexivity |].
    eapply bind_Ret_eq; [eauto with run | reflexivity |].
    cbv beta. apply out_eta. }
  cbv zeta. rewrite Hrun. cbn [res post emitted]. split.
  - destruct (v =? int_of numvfs) eqn:Hv; cbn [negb]; [|reflexivity].
    apply Z.eqb_eq in Hv. subst v. reflexivity.
  - exists [ELog DEBUG [T ifname; T ": Getting numvfs for interface"];
            ESysRead (numvfs_path ifname);
            ELog DEBUG [T ifname; T ": Interface has "; N 0; T " configured"];
            ELog DEBUG [T ifname; T ": Interface has "; N 0;
                        T " configured, setting to "; V numvfs];
            ELog DEBUG [T "Setting "; T (numvfs_path ifname); T " to "; V numvfs]], tw.
    split; [|split; [no_writes | exact Hw]].
    destruct (negb (v =? int_of numvfs)); cbn [emitted app];
      rewrite <- ?app_assoc; cbn [app]; rewrite ?app_nil_r; reflexivity.
Qed.

End Numvfs.

(** ** The VF creation synchronizer *)

Section Synchronizer.
Context {K : Type} (host : Host K) (sriov_map : list item).

Lemma _get_pf_path_eq device (w : World K) :
  _get_pf_path host device w = mkOut (Ret (pf_path_of host device (kern w))) w [].
Proof.
  unfold _get_pf_path, pf_path_of. unfold_prog.
  destruct (sys_isdir host _ (kern w)); [reflexivity|].
  cbn [res post emitted].
  destruct (sys_isdir host _ (kern w)); reflexivity.
Qed.

Lemma vf_event_creates pf_name vdpa c ev (w : World K) :
  announces host (kern w) pf_name ev →
  vf_name_of ev ∉ (vf_to_pf w).*1 →
  vf_event host pf_name vdpa c ev w =
  mkOut (Ret (c + 1)) (set_vf_to_pf (vf_to_pf w ++ [link_of pf_name ev]) w)
        [ELog DEBUG [T (device_of ev); T ": Got udev event: "; E ev];
         ELog INFO [T pf_name; T ": VF "; T (vf_name_of ev); T " created"]].
Proof.
  intros (pf_path & Hp & Hin) Hfresh. unfold vf_event.
  rewrite (bind_Ret _ _ _ _ _ _ (_get_pf_path_eq (device_of ev) w)).
  rewrite Hp. unfold_prog.
  unfold in_vf_to_pf, mem. fold (vf_name_of ev).
  rewrite (bool_decide_eq_false_2 _ Hfresh), (bool_decide_eq_true_2 _ Hin).
  reflexivity.
Qed.

Lemma wait_loop_collects pf_name numvfs vdpa evs : ∀ c rest (w : World K),
  Forall (announces host (kern w) pf_name) evs →
  NoDup (vf_name_of <$> evs) →
  (∀ ev, ev ∈ evs → vf_name_of ev ∉ (vf_to_pf w).*1) →
  c + Z.of_nat (length evs) = numvfs ∨ (c + Z.of_nat (length evs) < numvfs ∧ quiet rest) →
  let o := wait_loop host pf_name numvfs vdpa c ((Some <$> evs) ++ rest) w in
  res o = Ret tt
  ∧ vf_to_pf (post o) = vf_to_pf w ++ (link_of pf_name <$> evs)
  ∧ kern (post o) = kern w
  ∧ last (emitted o) =
    Some (ELog INFO [T pf_name;
                     T (if bool_decide (c + Z.of_nat (length evs) = numvfs)
                        then ": Required VFs are created"
                        else ": Timeout in the creation of VFs")]).
Proof.
  induction evs as [|ev evs IH]; intros c rest w Hann Hnd Hfresh Hcase.
  - cbn [fmap list_fmap app length] in *. rewrite Z.add_0_r in *.
    destruct Hcase as [Heq|[Hlt Hq]].
    + subst c. rewrite bool_decide_eq_true_2 by reflexivity.
      destruct rest as [|[?|] ?]; cbn [wait_loop]; rewrite Z.ltb_irrefl; unfold_prog;
        rewrite app_nil_r; auto.
    + rewrite bool_decide_eq_false_2 by lia.
      destruct rest as [|[?|] ?]; [| destruct Hq |]; cbn [wait_loop];
        (replace (c <? numvfs) with true by (symmetry; apply Z.ltb_lt; lia));
        unfold_prog; rewrite app_nil_r; auto.
  - cbn [fmap list_fmap app length wait_loop] in *.
    rewrite Nat2Z.inj_succ in *.
    replace (c <? numvfs) with true by (symmetry; apply Z.ltb_lt; lia).
    apply Forall_cons in Hann as [Hev Hann]. apply NoDup_cons in Hnd as [Hnew Hnd].
    assert (Hfresh0 : vf_name_of ev ∉ (vf_to_pf w).*1) by (apply Hfresh; left).
    unfold_prog.
    rewrite (vf_event_creates pf_name vdpa c ev (set_vf_queue ((Some <$> evs) ++ rest) w) Hev Hfresh0).
    cbn [res post emitted].
    match goal with |- context [wait_loop _ _ _ _ _ _ ?w'] => set (w1 := w') end.
    destruct (IH (c + 1) rest w1) as (Hr & Hl & Hk & Hlast).
    + exact Hann.
    + exact Hnd.
    + intros ev' Hin. subst w1. cbn [vf_to_pf set_vf_to_pf set_vf_queue].
      rewrite fmap_app. cbn. rewrite elem_of_app. intros [Hold|Hsame].
      * apply (Hfresh ev'); [right; exact Hin | exact Hold].
      * apply list_elem_of_singleton in Hsame. apply Hnew. rewrite <- Hsame.
        apply list_elem_of_fmap_2. exact Hin.
    + destruct Hcase as [?|[? ?]]; [left|right]; [lia | split; [lia|assumption]].
    + repeat split.
      * exact Hr.
      * rewrite Hl. subst w1. cbn [vf_to_pf set_vf_to_pf set_vf_queue].
        rewrite <- app_assoc. reflexivity.
      * rewrite Hk. reflexivity.
      * rewrite !last_app, Hlast.
        replace (c + 1 + Z.of_nat (length evs)) with (c + Z.succ (Z.of_nat (length evs))) by lia.
        reflexivity.
Qed.

(** C6. The synchronizer returns in both regimes. With as many
    well-formed events of distinct, not yet recorded VFs of the PF as the
    target asks for, it records one link per event and reports that the
    VFs are created; with fewer of them, followed by a wait in which the
    queue stays silent, it records the links of the events it saw and
    returns all the same, reporting the timeout. *)
Theorem wait_for_vf_creation_returns pf_name numvfs evs rest (w : World K) :
  Forall (announces host (kern w) pf_name) evs →
  NoDup (vf_name_of <$> evs) →
  (∀ ev, ev ∈ evs → vf_name_of ev ∉ (vf_to_pf w).*1) →
  vf_queue w = (Some <$> evs) ++ rest →
  Z.of_nat (length evs) = numvfs ∨ (Z.of_nat (length evs) < numvfs ∧ quiet rest) →
  let o := _wait_for_vf_creation host sriov_map pf_name numvfs w in
  res o = Ret tt
  ∧ vf_to_pf (post o) = vf_to_pf w ++ (link_of pf_name <$> evs)
  ∧ last (emitted o) =
    Some (ELog INFO [T pf_name;
                     T (if bool_decide (Z.of_nat (length evs) = numvfs)
                        then ": Required VFs are created"
                        else ": Timeout in the creation of VFs")]).
Proof.
  intros Hann Hnd Hfresh Hq Hcase. unfold _wait_for_vf_creation. unfold_prog.
  rewrite Hq.
  match goal with |- context [wait_loop _ _ _ ?v _ _ _] => set (vdpa := v) end.
  destruct (wait_loop_collects pf_name numvfs vdpa evs 0 rest w Hann Hnd Hfresh)
    as (Hr & Hl & _ & Hlast).
  { rewrite Z.add_0_l. exact Hcase. }
  rewrite Z.add_0_l in Hlast. auto.
Qed.

End Synchronizer.

(** ** Texts: substrings and lines *)

Section Text_facts.
Implicit Types (s p a b l x d : str) (c : ascii) (ls : list str).

Lemma startswith_spec p s : startswith p s = true ↔ ∃ b, s = p ++ b.
Proof.
  revert s. induction p as [|c p IH]; intros s; cbn.
  - split; eauto.
  - destruct s as [|c' s]; cbn.
    + split; [discriminate | intros [b Hb]; discriminate Hb].
    + rewrite andb_true_iff, Ascii.eqb_eq, IH. split.
      * intros [-> [b ->]]. eauto.
      * intros [b Hb]. injection Hb as -> ->. eauto.
Qed.

Lemma contains_spec p s : contains p s = true ↔ ∃ a b, s = a ++ p ++ b.
Proof.
  induction s as [|c s IH]; cbn.
  - rewrite orb_false_r, startswith_spec. split.
    + intros [b Hb]. exists [], b. exact Hb.
    + intros (a & b & Hab). destruct a; [eauto|discriminate Hab].
  - rewrite orb_true_iff, startswith_spec, IH. split.
    + intros [[b Hb]|(a & b & Hab)].
      * exists [], b. exact Hb.
      * exists (c :: a), b. rewrite Hab. reflexivity.
    + intros (a & b & Hab). destruct a as [|c' a]; cbn in Hab.
      * left. eauto.
      * right. injection Hab as -> ->. eauto.
Qed.

Lemma contains_app_l p a b : contains p a = true → contains p (a ++ b) = true.
Proof.
  rewrite !contains_spec. intros (a1 & a2 & ->).
  exists a1, (a2 ++ b). rewrite <- !app_assoc. reflexivity.
Qed.

Lemma contains_app_r p a b : contains p b = true → contains p (a ++ b) = true.
Proof.
  rewrite !contains_spec. intros (b1 & b2 & ->).
  exists (a ++ b1), b2. rewrite <- !app_assoc. reflexivity.
Qed.

Lemma contains_refl p : contains p p = true.
Proof. apply contains_spec. exists [], []. rewrite app_nil_r. reflexivity. Qed.

Lemma contains_trans p q s : contains p q = true → contains q s = true → contains p s = true.
Proof.
  rewrite !contains_spec. intros (a & b & ->) (a' & b' & ->).
  exists (a' ++ a), (b ++ b'). rewrite <- !app_assoc. reflexivity.
Qed.

Lemma startswith_across p x c b :
  one_line p → is_linebreak c = true →
  startswith p (x ++ c :: b) = startswith p x.
Proof.
  intros Hp Hc. revert x. induction Hp as [|c' p Hc' Hp IH]; intros x; [reflexivity|].
  destruct x as [|x0 x]; cbn.
  - destruct (Ascii.eqb_spec c' c) as [->|]; [congruence | reflexivity].
  - rewrite IH. reflexivity.
Qed.

(** A one-line pattern does not reach across a line boundary. *)
Lemma contains_across p a c b :
  one_line p → p ≠ [] → is_linebreak c = true →
  contains p (a ++ c :: b) = contains p a || contains p b.
Proof.
  intros Hp Hne Hc. induction a as [|c0 a IH].
  - pose proof (startswith_across p [] c b Hp Hc) as H. cbn [app] in H.
    cbn [app contains]. rewrite H.
    destruct p; [congruence | reflexivity].
  - pose proof (startswith_across p (c0 :: a) c b Hp Hc) as H. cbn [app] in H.
    cbn [app contains]. rewrite IH, H, orb_assoc. reflexivity.
Qed.

Lemma contains_nil_iff p : contains p [] = true ↔ p = [].
Proof. destruct p; cbn; split; congruence. Qed.

(** ... nor across a terminator. *)
Lemma contains_across_terminator p a t b :
  one_line p → p ≠ [] → terminator t b →
  contains p (a ++ t ++ b) = contains p a || contains p b.
Proof.
  intros Hp Hne [(c & -> & Hc & _)| ->].
  - apply contains_across; assumption.
  - cbn [app]. rewrite (contains_across p a CR (LF :: b)) by (assumption || reflexivity).
    pose proof (contains_across p [] LF b Hp Hne eq_refl) as H. cbn [app] in H.
    rewrite H. destruct p; [congruence|]. reflexivity.
Qed.

Lemma one_line_app a b : one_line (a ++ b) ↔ one_line a ∧ one_line b.
Proof. apply Forall_app. Qed.

(** *** The lines of a text *)

Lemma Lines_exists s : ∃ ls x, Lines s ls x.
Proof.
  induction s as [s IH] using (induction_ltof1 _ (@length ascii)). unfold ltof in IH.
  destruct s as [|c s]; [exists [], []; constructor; constructor|].
  destruct (is_linebreak c) eqn:Hc.
  - destruct (decide (c = CR ∧ head s = Some LF)) as [[-> Hs]|Hn].
    + destruct s as [|c' s]; [discriminate Hs|]. injection Hs as ->.
      destruct (IH s) as (ls & x & HL); [cbn; lia|].
      exists ([] :: ls), x.
      apply (Lines_line [] [CR; LF] s ls x); [constructor | right; reflexivity | exact HL].
    + destruct (IH s) as (ls & x & HL); [cbn; lia|].
      exists ([] :: ls), x.
      apply (Lines_line [] [c] s ls x); [constructor | left; eauto | exact HL].
  - destruct (IH s) as (ls & x & HL); [cbn; lia|].
    inversion HL as [x' Hx|l b s' ls' x' Hl Hb HL']; subst.
    + exists [], (c :: x). constructor. constructor; assumption.
    + exists ((c :: l) :: ls'), x.
      apply (Lines_line (c :: l) b s' ls' x); [constructor; assumption | assumption | assumption].
Qed.

Lemma splitlines_one_line x : one_line x → splitlines x = if bool_decide (x = []) then [] else [x].
Proof.
  induction 1 as [|c x Hc Hx IH]; [reflexivity|].
  cbn [splitlines]. rewrite Hc, IH. destruct x; reflexivity.
Qed.

Lemma splitlines_terminator b s : terminator b s → splitlines (b ++ s) = [] :: splitlines s.
Proof.
  intros [(c & -> & Hc & Hn)| ->].
  - cbn [app splitlines]. rewrite Hc. destruct s as [|c' s]; [reflexivity|].
    destruct (Ascii.eqb_spec c CR) as [->|]; [|reflexivity].
    destruct (Ascii.eqb_spec c' LF) as [->|]; [|reflexivity].
    exfalso. apply Hn. split; reflexivity.
  - reflexivity.
Qed.

Lemma splitlines_line l b s :
  one_line l → terminator b s → splitlines (l ++ b ++ s) = l :: splitlines s.
Proof.
  intros Hl Hb. induction Hl as [|c l Hc Hl IH].
  - exact (splitlines_terminator b s Hb).
  - cbn [app splitlines]. rewrite Hc, IH. reflexivity.
Qed.

Lemma Lines_splitlines s ls x :
  Lines s ls x → splitlines s = ls ++ (if bool_decide (x = []) then [] else [x]).
Proof.
  induction 1 as [x Hx|l b s ls x Hl Hb HL IH].
  - apply splitlines_one_line. exact Hx.
  - rewrite splitlines_line by assumption. rewrite IH. reflexivity.
Qed.

Lemma Lines_one_line s ls x : Lines s ls x → Forall one_line ls ∧ one_line x.
Proof.
  induction 1 as [x Hx|l b s ls x Hl Hb HL [IH1 IH2]]; split; auto.
Qed.

(** Every line [splitlines] yields is one line. *)
Lemma splitlines_one_lines s : Forall one_line (splitlines s).
Proof.
  destruct (Lines_exists s) as (ls & x & HL).
  rewrite (Lines_splitlines _ _ _ HL). destruct (Lines_one_line _ _ _ HL) as [H1 H2].
  apply Forall_app. split; [exact H1|]. case_bool_decide; auto.
Qed.

Lemma Lines_unlines ls : Forall one_line ls → Lines (unlines ls) ls [].
Proof.
  induction 1 as [|l ls Hl Hls IH]; [constructor; constructor|].
  unfold unlines. cbn [fmap list_fmap concat]. rewrite <- app_assoc.
  apply Lines_line; [exact Hl | | exact IH].
  left. exists LF. repeat split. intros [H _]. discriminate H.
Qed.

Lemma splitlines_unlines ls : Forall one_line ls → splitlines (unlines ls) = ls.
Proof.
  intros H. rewrite (Lines_splitlines _ _ _ (Lines_unlines ls H)).
  apply app_nil_r.
Qed.

Lemma one_line_head d : one_line d → head d ≠ Some LF.
Proof. destruct 1 as [|c d Hc _]; cbn; [discriminate|]. intros [= ->]. discriminate Hc. Qed.

Lemma Lines_nil_inv ls x : Lines [] ls x → ls = [] ∧ x = [].
Proof.
  inversion 1 as [x' Hx|l b s ls' x' Hl Hb HL Heq]; subst; [auto|].
  exfalso. destruct Hb as [(c & -> & _)| ->]; destruct l; discriminate Heq.
Qed.

(** Text added after the last terminator joins the unterminated rest. *)
Lemma Lines_app_one_line s ls x d :
  Lines s ls x → one_line d → Lines (s ++ d) ls (x ++ d).
Proof.
  intros HL Hd. induction HL as [x Hx|l b s ls x Hl Hb HL IH].
  - constructor. apply one_line_app. auto.
  - rewrite <- !app_assoc. apply Lines_line; [exact Hl | | exact IH].
    destruct Hb as [(c & -> & Hc & Hn)| ->]; [left|right; reflexivity].
    exists c. repeat split; [exact Hc|]. intros [-> Hh]. apply Hn. split; [reflexivity|].
    destruct s as [|c' s]; [|exact Hh].
    exfalso. exact (one_line_head d Hd Hh).
Qed.

(** A newline after a non-empty rest closes it as the last line. *)
Lemma Lines_snoc_newline s ls x :
  Lines s ls x → x ≠ [] → Lines (s ++ NL) (ls ++ [x]) [].
Proof.
  intros HL Hx. induction HL as [x Hx'|l b s ls x Hl Hb HL IH].
  - apply (Lines_line x NL [] [] []); [exact Hx' | | constructor; constructor].
    left. exists LF. repeat split. intros [H _]. discriminate H.
  - rewrite <- !app_assoc. cbn [app]. apply Lines_line; [exact Hl | | exact (IH Hx)].
    destruct Hb as [(c & -> & Hc & Hn)| ->]; [left|right; reflexivity].
    exists c. repeat split; [exact Hc|]. intros [-> Hh]. apply Hn. split; [reflexivity|].
    destruct s as [|c' s]; [|exact Hh].
    exfalso. apply Hx. apply (Lines_nil_inv _ _ HL).
Qed.

(** A text that ends with a newline has no unterminated rest. *)
Lemma Lines_terminated s ls x :
  Lines s ls x → s = [] ∨ last s = Some LF → x = [].
Proof.
  intros HL. induction HL as [x Hx|l b s ls x Hl Hb HL IH]; intros Hend.
  - destruct Hend as [->|Hlast]; [reflexivity|].
    exfalso. apply last_Some in Hlast as [x' ->].
    apply one_line_app in Hx as [_ Hx]. inversion Hx as [|? ? Hc]. discriminate Hc.
  - destruct (decide (s = [])) as [->|Hs]; [apply (Lines_nil_inv _ _ HL)|].
    apply IH. right. destruct Hend as [Hnil|Hlast].
    + destruct l; [|discriminate Hnil].
      destruct Hb as [(c & -> & _)| ->]; discriminate Hnil.
    + rewrite !last_app in Hlast. destruct (last s) eqn:Hl'; [exact Hlast|].
      apply last_None in Hl'. contradiction.
Qed.

(** A one-line pattern occurs in a text exactly when it occurs in one
    of its lines. *)
Lemma contains_Lines p s ls x :
  Lines s ls x → one_line p → p ≠ [] →
  contains p s = existsb (contains p) (ls ++ [x]).
Proof.
  intros HL Hp Hne. induction HL as [x Hx|l b s ls x Hl Hb HL IH].
  - cbn. rewrite orb_false_r. reflexivity.
  - rewrite (contains_across_terminator p l b s Hp Hne Hb), IH. reflexivity.
Qed.

Lemma contains_splitlines p s :
  one_line p → p ≠ [] → contains p s = existsb (contains p) (splitlines s).
Proof.
  intros Hp Hne. destruct (Lines_exists s) as (ls & x & HL).
  rewrite (contains_Lines p s ls x HL Hp Hne), (Lines_splitlines _ _ _ HL).
  rewrite !existsb_app. f_equal. case_bool_decide as Hx; [|reflexivity].
  subst x. cbn. destruct p; [congruence | reflexivity].
Qed.

End Text_facts.

(** ** The udev rule reconciler: [add_udev_rule] *)

Section Upsert.
Context {K : Type} (host : Host K).

Lemma reload_udev_rules_spec (w : World K) :
  let o := reload_udev_rules host w in
  files (post o) = files w
  ∧ (res o = Ret tt ∨ ∃ text, res o = Raise (ProcessExecutionError text))
  ∧ ∀ k1 out, run_command host RELOAD_CMD (kern w) = (k1, Done out) →
              res o = Ret tt ∧ post o = set_kern k1 w.
Proof.
  unfold reload_udev_rules. unfold_prog. fold RELOAD_CMD.
  destruct (run_command host RELOAD_CMD (kern w)) as [k r] eqn:Hrun.
  destruct r as [out|text]; cbn; (split; [reflexivity|]); (split; [eauto|]);
    intros k1 out' Heq; inversion Heq; subst; auto.
Qed.

Lemma file_exists_true f c (w : World K) :
  files w !! f = Some c → file_exists f w = mkOut (Ret true) w [].
Proof. intros H. unfold file_exists, gets. rewrite H. reflexivity. Qed.

Lemma file_exists_false f (w : World K) :
  files w !! f = None → file_exists f w = mkOut (Ret false) w [].
Proof. intros H. unfold file_exists, gets. rewrite H. reflexivity. Qed.

Lemma get_file_data_Some f c (w : World K) :
  files w !! f = Some c → get_file_data f w = mkOut (Ret c) w [].
Proof. intros H. unfold get_file_data, gets. rewrite H. reflexivity. Qed.

Lemma write_eq f data (w : World K) :
  write f data w =
  mkOut (Ret tt) (set_files (<[f := default [] (files w !! f) ++ data]> (files w)) w)
        [EWrite f data].
Proof. reflexivity. Qed.

Lemma open_w_eq f (w : World K) :
  open_w f w = mkOut (Ret tt) (set_files (<[f := []]> (files w)) w) [EOpen f "w"].
Proof. reflexivity. Qed.

Lemma open_a_eq f (w : World K) :
  open_a f w =
  mkOut (Ret tt) (set_files (<[f := default [] (files w !! f)]> (files w)) w) [EOpen f "a"].
Proof. reflexivity. Qed.

Hint Resolve file_exists_true file_exists_false get_file_data_Some
  open_w_eq open_a_eq write_eq : run.

Lemma rewrite_loop f d p lines : ∀ (w : World K) c0,
  files w !! f = Some c0 →
  ∃ t,
    for_each lines (λ line,
      if contains p line then write f (d ++ NL) else write f (line ++ NL)) w
    = mkOut (Ret tt)
        (set_files (<[f := c0 ++ unlines (replaced d p <$> lines)]> (files w)) w) t.
Proof.
  induction lines as [|line lines IH]; intros w c0 Hf.
  - exists []. cbn. rewrite app_nil_r, (insert_id _ _ _ Hf). destruct w; reflexivity.
  - cbn [for_each].
    assert (Hstep : (if contains p line then write (K:=K) f (d ++ NL) else write f (line ++ NL))
                    = write f (replaced d p line ++ NL))
      by (unfold replaced; destruct (contains p line); reflexivity).
    rewrite Hstep, (bind_Ret _ _ _ _ _ _ (write_eq _ _ w)), Hf. cbn [default].
    match goal with |- context [for_each _ _ ?w'] => set (w1 := w') end.
    destruct (IH w1 (c0 ++ replaced d p line ++ NL)) as (t & Ht).
    { subst w1. cbn. apply lookup_insert_eq. }
    rewrite Ht. cbn [res post emitted]. eexists. f_equal.
    subst w1. unfold set_files. cbn.
    rewrite insert_insert_eq. unfold unlines. cbn [fmap list_fmap concat].
    rewrite <- !app_assoc. reflexivity.
Qed.

(** [add_udev_rule] leaves the file alone exactly when [new_content]
    says so; otherwise it writes that text and goes on to reload. *)
Lemma add_udev_rule_run udev_data f pattern (w : World K) :
  let d := strip udev_data in
  let p := pattern_of udev_data pattern in
  match new_content d p (files w !! f) with
  | None =>
    add_udev_rule host udev_data f pattern w =
    mkOut (Ret false) w [ELog DEBUG [T "adding udev rule to "; T f; T ": "; T udev_data]]
  | Some c =>
    ∃ t, (EOpen f "w" ∈ t ∨ EOpen f "a" ∈ t)
         ∧ add_udev_rule host udev_data f pattern w =
           let o := (reload_udev_rules host >> ret true)
                      (set_files (<[f := c]> (files w)) w) in
           mkOut (res o) (post o) (t ++ emitted o)
  end.
Proof.
  intros d p. unfold new_content.
  assert (Hunfold : add_udev_rule host udev_data f pattern =
    (log DEBUG [T "adding udev rule to "; T f; T ": "; T udev_data] >>
     let* e := file_exists f in
     let* written :=
       if negb e then
         open_w f >> write f (UDEV_HEADER ++ NL ++ d ++ NL) >> ret true
       else
         let* file_data := get_file_data f in
         if contains p file_data then
           if mem d (splitlines file_data) then ret false
           else
             open_w f >>
             for_each (splitlines file_data) (λ line,
               if contains p line then write f (d ++ NL) else write f (line ++ NL)) >>
             ret true
         else open_a f >> write f (d ++ NL) >> ret true in
     if written then reload_udev_rules host >> ret true else ret false)) by reflexivity.
  rewrite Hunfold. clear Hunfold.
  destruct (files w !! f) as [file_data|] eqn:Hf.
  - destruct (contains p file_data) eqn:Hc; [destruct (mem d (splitlines file_data)) eqn:Hm|].
    + run.
    + destruct (rewrite_loop f d p (splitlines file_data)
                  (set_files (<[f := []]> (files w)) w) []) as (t & Ht).
      { cbn. apply lookup_insert_eq. }
      match goal with |- ∃ _, _ ∧ ?lhs = _ => eassert (Hrun : lhs = mkOut _ _ _) end;
        [|revert Hrun].
      { run. apply out_eta. }
      unfold set_files; cbn [files kern vf_queue vf_to_pf app].
      rewrite insert_insert_eq. intros Hrun.
      exists (ELog DEBUG [T "adding udev rule to "; T f; T ": "; T udev_data]
              :: EOpen f "w" :: t).
      split; [left; apply list_elem_of_further, list_elem_of_here|].
      rewrite Hrun. cbv zeta. unfold set_files. cbn [app].
      rewrite <- app_assoc. reflexivity.
    + match goal with |- ∃ _, _ ∧ ?lhs = _ => eassert (Hrun : lhs = mkOut _ _ _) end;
        [|revert Hrun].
      { run. apply out_eta. }
      unfold set_files; cbn [files kern vf_queue vf_to_pf app].
      rewrite lookup_insert_eq, insert_insert_eq, Hf. cbn [default]. intros Hrun.
      exists [ELog DEBUG [T "adding udev rule to "; T f; T ": "; T udev_data];
              EOpen f "a"; EWrite f (d ++ NL)].
      split; [right; apply list_elem_of_further, list_elem_of_here|].
      rewrite Hrun. reflexivity.
  - match goal with |- ∃ _, _ ∧ ?lhs = _ => eassert (Hrun : lhs = mkOut _ _ _) end;
      [|revert Hrun].
    { run. apply out_eta. }
    unfold set_files; cbn [files kern vf_queue vf_to_pf app].
    rewrite lookup_insert_eq, insert_insert_eq. cbn [default app]. intros Hrun.
    exists [ELog DEBUG [T "adding udev rule to "; T f; T ": "; T udev_data];
            EOpen f "w"; EWrite f (UDEV_HEADER ++ NL ++ d ++ NL)].
    split; [left; apply list_elem_of_further, list_elem_of_here|].
    rewrite Hrun. reflexivity.
Qed.

End Upsert.

(** *** What the rewritten file holds *)

Section New_content.
Implicit Types (s p a b l x d : str) (ls : list str).

Lemma one_line_forallb s : forallb (λ c, negb (is_linebreak c)) s = true → one_line s.
Proof.
  intros H. apply Forall_forall. intros c Hc.
  rewrite forallb_forall in H. specialize (H c). rewrite <- list_elem_of_In in H.
  apply negb_true_iff. auto.
Qed.

Lemma one_line_header : one_line UDEV_HEADER.
Proof. apply one_line_forallb. vm_compute. reflexivity. Qed.

Lemma one_line_contained p d : contains p d = true → one_line d → one_line p.
Proof.
  rewrite contains_spec. intros (a & b & ->) H.
  apply one_line_app in H as [_ H]. apply one_line_app in H as [H _]. exact H.
Qed.

Lemma matching_unlines p ls :
  Forall one_line ls → matching p (unlines ls) = filter (λ l, contains p l = true) ls.
Proof. intros H. unfold matching. rewrite (splitlines_unlines ls H). reflexivity. Qed.

Lemma filter_none p ls :
  existsb (contains p) ls = false → filter (λ l, contains p l = true) ls = [].
Proof.
  induction ls as [|l ls IH]; [reflexivity|]. cbn [existsb].
  rewrite orb_false_iff. intros [Hl Hls].
  rewrite filter_cons, decide_False by (rewrite Hl; discriminate). apply IH, Hls.
Qed.

Lemma filter_some p ls :
  existsb (contains p) ls = true → filter (λ l, contains p l = true) ls ≠ [].
Proof.
  induction ls as [|l ls IH]; [discriminate|]. cbn [existsb].
  rewrite filter_cons. destruct (decide (contains p l = true)) as [Hl|Hl].
  - discriminate.
  - apply not_true_is_false in Hl. rewrite Hl. exact IH.
Qed.

Section With_rule.
Context (d p : str) (Hd : one_line d) (Hp : p ≠ []) (Hpd : contains p d = true).

Lemma one_line_p : one_line p.
Proof. exact (one_line_contained p d Hpd Hd). Qed.

Lemma d_nonempty : d ≠ [].
Proof. intros ->. destruct p; [exact (Hp eq_refl) | discriminate Hpd]. Qed.

Lemma splitlines_created : splitlines (UDEV_HEADER ++ NL ++ d ++ NL) = [UDEV_HEADER; d].
Proof.
  replace (UDEV_HEADER ++ NL ++ d ++ NL) with (unlines [UDEV_HEADER; d])
    by (unfold unlines; cbn [fmap list_fmap concat];
        rewrite <- app_assoc, app_nil_r; reflexivity).
  apply splitlines_unlines.
  constructor; [exact one_line_header | constructor; [exact Hd | constructor]].
Qed.

(** Appending the rule to any text makes it the last line, joined to
    what the text left unterminated. *)
Lemma splitlines_appended s ls x :
  Lines s ls x → splitlines (s ++ d ++ NL) = ls ++ [x ++ d].
Proof.
  intros HL. rewrite app_assoc.
  assert (HL' : Lines ((s ++ d) ++ NL) (ls ++ [x ++ d]) []).
  { apply Lines_snoc_newline; [apply Lines_app_one_line; assumption|].
    intros H. apply app_eq_nil in H as [_ H]. exact (d_nonempty H). }
  rewrite (Lines_splitlines _ _ _ HL'). cbn. apply app_nil_r.
Qed.

Lemma matching_appended s :
  contains p s = false → ∃ x, matching p (s ++ d ++ NL) = [x ++ d].
Proof.
  intros Hs. destruct (Lines_exists s) as (ls & x & HL). exists x.
  unfold matching. rewrite (splitlines_appended s ls x HL).
  rewrite (contains_Lines p s ls x HL one_line_p Hp), existsb_app in Hs.
  apply orb_false_iff in Hs as [Hls _].
  rewrite filter_app, (filter_none p ls Hls). cbn [app].
  rewrite filter_cons, decide_True by (apply contains_app_r; exact Hpd).
  reflexivity.
Qed.

Lemma contains_replaced line : contains p (replaced d p line) = contains p line.
Proof. unfold replaced. destruct (contains p line) eqn:H; [exact Hpd | exact H]. Qed.

Lemma one_line_replaced ls : Forall one_line ls → Forall one_line (replaced d p <$> ls).
Proof.
  intros H. apply Forall_fmap. eapply Forall_impl; [exact H|].
  intros l Hl. cbn. unfold replaced. destruct (contains p l); assumption.
Qed.

Lemma matching_replaced_length ls :
  length (filter (λ l, contains p l = true) (replaced d p <$> ls))
  = length (filter (λ l, contains p l = true) ls).
Proof.
  induction ls as [|l ls IH]; [reflexivity|].
  cbn [fmap list_fmap]. rewrite !filter_cons, contains_replaced.
  destruct (decide (contains p l = true)); cbn [length]; rewrite IH; reflexivity.
Qed.

Lemma replaced_has_rule ls : existsb (contains p) ls = true → d ∈ replaced d p <$> ls.
Proof.
  induction ls as [|l ls IH]; cbn; [discriminate|].
  destruct (contains p l) eqn:Hl.
  - intros _. unfold replaced at 1. rewrite Hl. left.
  - intros H. right. apply IH. exact H.
Qed.

(** After [add_udev_rule] wrote the file, exactly one line matches the
    pattern, provided at most one did before (and the header does not,
    when the file is created). *)
Lemma new_content_one_match old (c : str) :
  match old with
  | None => contains p UDEV_HEADER = false
  | Some content => (length (matching p content) ≤ 1)%nat
  end →
  new_content d p old = Some c →
  length (matching p c) = 1%nat.
Proof.
  unfold new_content. destruct old as [content|].
  - intros Hle. destruct (contains p content) eqn:Hc.
    + destruct (mem d (splitlines content)); [discriminate|].
      intros [= <-].
      rewrite matching_unlines by (apply one_line_replaced, splitlines_one_lines).
      rewrite matching_replaced_length. fold (matching p content).
      rewrite (contains_splitlines p content one_line_p Hp) in Hc.
      apply filter_some in Hc. fold (matching p content) in Hc.
      destruct (matching p content) as [|? [|]]; cbn in *; [congruence | reflexivity | lia].
    + intros Heq. assert (c = content ++ d ++ NL) as -> by congruence.
      destruct (matching_appended content Hc) as [x ->]. reflexivity.
  - intros Hh Heq.
    assert (c = UDEV_HEADER ++ NL ++ d ++ NL) as -> by congruence.
    unfold matching. rewrite splitlines_created.
    rewrite filter_cons, decide_False by (rewrite Hh; discriminate).
    rewrite filter_cons, decide_True by exact Hpd. reflexivity.
Qed.

(** A file the function left alone holds a matching line. *)
Lemma new_content_left_alone content :
  new_content d p (Some content) = None → matching p content ≠ [].
Proof.
  unfold new_content. destruct (contains p content) eqn:Hc; [|discriminate].
  intros _. rewrite (contains_splitlines p content one_line_p Hp) in Hc.
  exact (filter_some p _ Hc).
Qed.

(** Once written, the file is converged: a second call leaves it alone.
    When the rule was appended, this needs the old text to end with a
    newline. *)
Lemma new_content_converged old (c : str) :
  (∀ content, old = Some content → contains p content = false →
              content = [] ∨ last content = Some LF) →
  new_content d p old = Some c →
  new_content d p (Some c) = None.
Proof.
  intros Hterm Hnew.
  assert (Hgoal : contains p c = true ∧ d ∈ splitlines c).
  { revert Hnew. unfold new_content. destruct old as [content|].
    - destruct (contains p content) eqn:Hc.
      + destruct (mem d (splitlines content)); [discriminate|].
        intros [= <-].
        assert (Hl : splitlines (unlines (replaced d p <$> splitlines content))
                     = replaced d p <$> splitlines content)
          by (apply splitlines_unlines, one_line_replaced, splitlines_one_lines).
        rewrite (contains_splitlines p content one_line_p Hp) in Hc.
        split.
        * rewrite (contains_splitlines p _ one_line_p Hp), Hl.
          clear Hl. induction (splitlines content) as [|l ls IH]; [discriminate Hc|].
          cbn in *. rewrite contains_replaced.
          destruct (contains p l); [reflexivity|]. apply IH, Hc.
        * rewrite Hl. apply replaced_has_rule, Hc.
      + intros Heq. assert (c = content ++ d ++ NL) as -> by congruence.
        split; [apply contains_app_r, contains_app_l, Hpd|].
        destruct (Lines_exists content) as (ls & x & HL).
        rewrite (splitlines_appended content ls x HL).
        rewrite (Lines_terminated content ls x HL (Hterm content eq_refl Hc)).
        apply elem_of_app. right. left.
    - intros Heq.
      assert (c = UDEV_HEADER ++ NL ++ d ++ NL) as -> by congruence. split.
      + apply contains_app_r, contains_app_r, contains_app_l, Hpd.
      + rewrite splitlines_created. right. left. }
  destruct Hgoal as [Hc Hin]. unfold new_content. rewrite Hc.
  unfold mem. rewrite bool_decide_eq_true_2 by exact Hin. reflexivity.
Qed.

End With_rule.

(** A rule with a newline inside is never found among the lines of a
    file. *)
Lemma multiline_not_a_line d content : LF ∈ d → mem d (splitlines content) = false.
Proof.
  intros HLF. unfold mem. apply bool_decide_eq_false_2. intros Hin.
  pose proof (splitlines_one_lines content) as Hall.
  rewrite Forall_forall in Hall. specialize (Hall d Hin).
  unfold one_line in Hall. rewrite Forall_forall in Hall.
  specialize (Hall LF HLF). discriminate Hall.
Qed.

End New_content.

(** *** The reconciler's contract *)

Section Reconciler.
Context {K : Type} (host : Host K).

Lemma add_udev_rule_left_alone udev_data f pattern (w : World K) :
  new_content (strip udev_data) (pattern_of udev_data pattern) (files w !! f) = None →
  let o := add_udev_rule host udev_data f pattern w in
  res o = Ret false ∧ post o = w.
Proof.
  intros Hnew. pose proof (add_udev_rule_run host udev_data f pattern w) as Hrun.
  cbv zeta in Hrun. rewrite Hnew in Hrun. cbv zeta. rewrite Hrun. split; reflexivity.
Qed.

Lemma add_udev_rule_writes udev_data f pattern (w : World K) c :
  new_content (strip udev_data) (pattern_of udev_data pattern) (files w !! f) = Some c →
  let o := add_udev_rule host udev_data f pattern w in
  files (post o) = <[f := c]> (files w)
  ∧ (EOpen f "w" ∈ emitted o ∨ EOpen f "a" ∈ emitted o)
  ∧ (res o = Ret true ∨ ∃ text, res o = Raise (ProcessExecutionError text))
  ∧ ∀ k1 out, run_command host RELOAD_CMD (kern w) = (k1, Done out) →
              res o = Ret true
              ∧ post o = set_kern k1 (set_files (<[f := c]> (files w)) w).
Proof.
  intros Hnew. pose proof (add_udev_rule_run host udev_data f pattern w) as Hrun.
  cbv zeta in Hrun. rewrite Hnew in Hrun. destruct Hrun as (t & Ht & Hrun).
  cbv zeta. rewrite Hrun. clear Hrun. cbn [res post emitted].
  set (w1 := set_files (<[f := c]> (files w)) w).
  destruct (reload_udev_rules_spec host w1) as (Hfiles & Hres & Hok).
  unfold bind. repeat split.
  - destruct Hres as [Hr|[tx Hr]]; rewrite Hr; cbn [post]; exact Hfiles.
  - destruct Ht as [Ht|Ht]; [left|right]; apply elem_of_app; left; exact Ht.
  - destruct Hres as [Hr|[tx Hr]]; rewrite Hr; cbn [res]; eauto.
  - destruct (Hok k1 out H) as [Hr _]. rewrite Hr. reflexivity.
  - destruct (Hok k1 out H) as [Hr Hp]. rewrite Hr. cbn [post]. exact Hp.
Qed.

(** C9. A rule that still holds a newline after stripping is never seen
    as converged: on an existing file, whatever it holds (the lines of
    the rule included), [add_udev_rule] opens the file for rewriting or
    for appending and returns [True]. *)
Theorem add_udev_rule_multiline_always_changes udev_data f pattern content k1 out
    (w : World K) :
  LF ∈ strip udev_data →
  files w !! f = Some content →
  run_command host RELOAD_CMD (kern w) = (k1, Done out) →
  let o := add_udev_rule host udev_data f pattern w in
  res o = Ret true
  ∧ (EOpen f "w" ∈ emitted o ∨ EOpen f "a" ∈ emitted o).
Proof.
  intros HLF Hf Hreload.
  destruct (new_content (strip udev_data) (pattern_of udev_data pattern) (files w !! f))
    as [c|] eqn:Hnew.
  - destruct (add_udev_rule_writes udev_data f pattern w c Hnew) as (_ & Hopen & _ & Hok).
    destruct (Hok k1 out Hreload) as [Hr _]. auto.
  - exfalso. rewrite Hf in Hnew. unfold new_content in Hnew.
    rewrite (multiline_not_a_line _ content HLF) in Hnew.
    destruct (contains _ content); discriminate Hnew.
Qed.

(** C5, as amended. For a one-line rule that contains the pattern:
    when at most one line of the file matched the pattern before the
    call (or the file did not exist and the header comment does not
    match), exactly one line matches it after the call. *)
Theorem add_udev_rule_leaves_one_match udev_data f pattern (w : World K) :
  let d := strip udev_data in
  let p := pattern_of udev_data pattern in
  one_line d → p ≠ [] → contains p d = true →
  match files w !! f with
  | None => contains p UDEV_HEADER = false
  | Some content => (length (matching p content) ≤ 1)%nat
  end →
  let o := add_udev_rule host udev_data f pattern w in
  ∃ content', files (post o) !! f = Some content'
              ∧ length (matching p content') = 1%nat.
Proof.
  intros d p Hd Hp Hpd Hbefore.
  destruct (new_content d p (files w !! f)) as [c|] eqn:Hnew.
  - destruct (add_udev_rule_writes udev_data f pattern w c Hnew) as (Hfiles & _).
    exists c. cbv zeta. rewrite Hfiles, lookup_insert_eq. split; [reflexivity|].
    exact (new_content_one_match d p Hd Hp Hpd _ c Hbefore Hnew).
  - destruct (add_udev_rule_left_alone udev_data f pattern w Hnew) as [_ Hpost].
    cbv zeta. rewrite Hpost.
    destruct (files w !! f) as [content|] eqn:Hf; [|discriminate Hnew].
    exists content. split; [reflexivity|].
    pose proof (new_content_left_alone d p Hd Hp Hpd content Hnew) as Hne.
    destruct (matching p content) as [|? [|]]; cbn in *; [congruence | reflexivity | lia].
Qed.

(** C1, as amended. For a one-line rule that contains the pattern, on a
    file that does not exist (the header comment not matching) or that
    ends with a newline, holds at most one line matching the pattern and
    not the rule itself: with the reload succeeding, the first call
    returns [True], the second returns [False] and changes nothing, and
    the file then holds exactly one line matching the pattern. *)
Theorem add_udev_rule_twice udev_data f pattern k1 out (w : World K) :
  let d := strip udev_data in
  let p := pattern_of udev_data pattern in
  one_line d → p ≠ [] → contains p d = true →
  match files w !! f with
  | None => contains p UDEV_HEADER = false
  | Some content =>
    (length (matching p content) ≤ 1)%nat
    ∧ (d ∉ splitlines content)
    ∧ (content = [] ∨ last content = Some LF)
  end →
  run_command host RELOAD_CMD (kern w) = (k1, Done out) →
  let o1 := add_udev_rule host udev_data f pattern w in
  let o2 := add_udev_rule host udev_data f pattern (post o1) in
  res o1 = Ret true
  ∧ res o2 = Ret false
  ∧ post o2 = post o1
  ∧ ∃ content', files (post o2) !! f = Some content'
                ∧ length (matching p content') = 1%nat.
Proof.
  intros d p Hd Hp Hpd Hbefore Hreload.
  assert (Hnew : ∃ c, new_content d p (files w !! f) = Some c).
  { unfold new_content. destruct (files w !! f) as [content|]; [|eauto].
    destruct Hbefore as (_ & Hnot & _).
    unfold mem. rewrite (bool_decide_eq_false_2 _ Hnot).
    destruct (contains p content); eauto. }
  destruct Hnew as [c Hnew].
  destruct (add_udev_rule_writes udev_data f pattern w c Hnew) as (_ & _ & _ & Hok).
  destruct (Hok k1 out Hreload) as [Hr1 Hp1].
  assert (Hf1 : files (post (add_udev_rule host udev_data f pattern w)) !! f = Some c).
  { rewrite Hp1. cbn. apply lookup_insert_eq. }
  assert (Hconv : new_content d p (Some c) = None).
  { apply (new_content_converged d p Hd Hp Hpd (files w !! f) c); [|exact Hnew].
    intros content Hc _. rewrite Hc in Hbefore. tauto. }
  cbv zeta.
  destruct (add_udev_rule_left_alone udev_data f pattern
              (post (add_udev_rule host udev_data f pattern w))) as [Hr2 Hp2].
  { rewrite Hf1. exact Hconv. }
  repeat split; [exact Hr1 | exact Hr2 | exact Hp2 |].
  exists c. rewrite Hp2. split; [exact Hf1|].
  apply (new_content_one_match d p Hd Hp Hpd (files w !! f) c); [|exact Hnew].
  destruct (files w !! f); tauto.
Qed.

End Reconciler.

(** ** Which effects a computation can cause *)

Section Emits.
Context {K : Type}.
Implicit Types P : effect → Prop.

Lemma emits_ret P {A} (a : A) : emits (K:=K) P (ret a).
Proof. intros w. constructor. Qed.

Lemma emits_raise P {A} e : emits (K:=K) (A:=A) P (raise e).
Proof. intros w. constructor. Qed.

Lemma emits_gets P {A} (f : World K → A) : emits P (gets f).
Proof. intros w. constructor. Qed.

Lemma emits_modify P (f : World K → World K) : emits P (modify f).
Proof. intros w. constructor. Qed.

Lemma emits_tell P e : P e → emits (K:=K) P (tell e).
Proof. intros H w. repeat constructor. exact H. Qed.

Lemma emits_bind P {A B} (m : M K A) (f : A → M K B) :
  emits P m → (∀ w a, res (m w) = Ret a → emits P (f a)) → emits P (bind m f).
Proof.
  intros Hm Hf w. unfold bind. specialize (Hm w).
  destruct (res (m w)) as [a|e] eqn:Hr; cbn [emitted]; [|exact Hm].
  apply Forall_app. split; [exact Hm|]. exact (Hf w a Hr _).
Qed.

Lemma emits_try_except P {A} (m : M K A) h :
  emits P m → (∀ e hd, h e = Some hd → emits P hd) → emits P (try_except m h).
Proof.
  intros Hm Hh w. unfold try_except. specialize (Hm w).
  destruct (res (m w)) as [a|e]; [exact Hm|].
  destruct (h e) as [hd|] eqn:He; [|exact Hm].
  cbn [emitted]. apply Forall_app. split; [exact Hm|]. exact (Hh e hd He _).
Qed.

Lemma emits_when P b (m : M K unit) : emits P m → emits P (when b m).
Proof. intros H. destruct b; [exact H | apply emits_ret]. Qed.

Lemma emits_for_each P {A} (l : list A) (body : A → M K unit) :
  (∀ x, emits P (body x)) → emits P (for_each l body).
Proof.
  intros H. induction l as [|x l IH]; [apply emits_ret|].
  cbn [for_each]. apply emits_bind; [apply H | intros; exact IH].
Qed.

Lemma emits_for_fold P {A S} (l : list A) (body : A → S → M K S) :
  (∀ x s, emits P (body x s)) → ∀ s, emits P (for_fold l body s).
Proof.
  intros H. induction l as [|x l IH]; intros s; [apply emits_ret|].
  cbn [for_fold]. apply emits_bind; [apply H | intros; apply IH].
Qed.

Lemma emits_on_exec_error P {A} (report : str → M K unit) :
  (∀ text, emits P (report text)) →
  ∀ e hd, on_exec_error (A:=A) report e = Some hd → emits P hd.
Proof.
  intros H e hd. destruct e; cbn; intros Heq; try discriminate Heq.
  injection Heq as <-. apply emits_bind; [apply H | intros; apply emits_raise].
Qed.

End Emits.

(** The effects of the host's primitives. *)
Section Emits_host.
Context {K : Type} (host : Host K).
Implicit Types P : effect → Prop.

Lemma emits_execute P cmd : P (EExec cmd) → emits P (execute host cmd).
Proof.
  intros H w. unfold execute. destruct (run_command host cmd (kern w)).
  repeat constructor. exact H.
Qed.

Lemma emits_read_attr P path : P (ESysRead path) → emits P (read_attr host path).
Proof. intros H w. repeat constructor. exact H. Qed.

Lemma emits_write_attr P path data :
  P (ESysWrite path data) → emits P (write_attr host path data).
Proof.
  intros H w. unfold write_attr. destruct (sys_write host path data (kern w)).
  repeat constructor. exact H.
Qed.

Lemma emits_call_helper P fn args : P (EHelper fn args) → emits P (call_helper host fn args).
Proof.
  intros H w. unfold call_helper. destruct (helper_call host fn args (kern w)).
  repeat constructor. exact H.
Qed.

End Emits_host.

(** Proving [emits P m] along the structure of [m]; [side] closes the
    goals [P e] and whatever else is left. *)
Create HintDb emits.

Ltac head_of t := lazymatch t with ?f _ => head_of f | _ => t end.

Ltac emits_with side :=
  cbv beta zeta;
  lazymatch goal with
  | |- emits _ (bind _ _) =>
    apply emits_bind; [emits_with side | intros ? ? ?; emits_with side]
  | |- emits _ (ret _) => apply emits_ret
  | |- emits _ (raise _) => apply emits_raise
  | |- emits _ (gets _) => apply emits_gets
  | |- emits _ (modify _) => apply emits_modify
  | |- emits _ (tell _) => apply emits_tell; try solve [side]
  | |- emits _ (log _ _) => apply emits_tell; try solve [side]
  | |- emits _ (when _ _) => apply emits_when; emits_with side
  | |- emits _ (for_each _ _) => apply emits_for_each; intros ?; emits_with side
  | |- emits _ (for_fold _ _ _) => apply emits_for_fold; intros ? ?; emits_with side
  | |- emits _ (try_except _ (on_exec_error _)) =>
    apply emits_try_except;
    [emits_with side | apply emits_on_exec_error; intros ?; emits_with side]
  | |- emits _ (try_except _ _) =>
    apply emits_try_except;
    [emits_with side
    | let e := fresh "e" in let hd := fresh "hd" in let H := fresh "H" in
      intros e hd H; destruct e; try discriminate H;
      injection H as <-; emits_with side]
  | |- emits _ (execute _ _) => apply emits_execute; try solve [side]
  | |- emits _ (read_attr _ _) => apply emits_read_attr; try solve [side]
  | |- emits _ (write_attr _ _ _) => apply emits_write_attr; try solve [side]
  | |- emits _ (call_helper _ _ _) => apply emits_call_helper; try solve [side]
  | |- emits _ (if ?b then _ else _) => destruct b eqn:?; emits_with side
  | |- emits _ (match ?x with _ => _ end) => destruct x eqn:?; emits_with side
  | |- emits _ ((match ?x with _ => _ end) _) => destruct x eqn:?; emits_with side
  | |- emits _ ?m =>
    first [ solve [eauto 3 with emits nocore]
          | solve [side]
          | let h := head_of m in progress (unfold h); emits_with side
          | idtac ]
  end.

(** ** The order of the mode change and the VF-count write *)

Section Order_traces.
Context (p : str).

Lemma switched_app_l t1 t2 :
  switched_to_switchdev p t1 → switched_to_switchdev p (t1 ++ t2).
Proof.
  intros (before & pci & after & ->). exists before, pci, (after ++ t2).
  by rewrite <- !app_assoc.
Qed.

Lemma switched_app_r t1 t2 :
  switched_to_switchdev p t2 → switched_to_switchdev p (t1 ++ t2).
Proof.
  intros (before & pci & after & ->). exists (t1 ++ before), pci, after.
  by rewrite <- !app_assoc.
Qed.

Lemma spares_not_write e : spares p e → ¬ is_numvfs_write p e.
Proof. intros Hs [data ->]. by apply Hs. Qed.

Lemma before_numvfs_spares tr : Forall (spares p) tr → switchdev_before_numvfs p tr.
Proof.
  intros Hall before e after -> Hw. exfalso.
  apply Forall_app in Hall as [_ Hall]. apply Forall_cons in Hall as [He _].
  exact (spares_not_write e He Hw).
Qed.

Lemma before_numvfs_app t1 t2 :
  switchdev_before_numvfs p t1 →
  switched_to_switchdev p t1 ∨ switchdev_before_numvfs p t2 →
  switchdev_before_numvfs p (t1 ++ t2).
Proof.
  intros H1 H2 before e after Heq Hw.
  apply app_eq_inv in Heq as [(k & -> & Hk)|(k & -> & Hk)].
  - destruct k as [|e' k]; cbn in Hk.
    + rewrite app_nil_r in H1, H2. destruct H2 as [H2|H2]; [exact H2|].
      exfalso. specialize (H2 [] e after (eq_sym Hk) Hw).
      destruct H2 as (b & pci & a & Hnil). by destruct b.
    + injection Hk as <- ->. by apply (H1 before e k).
  - destruct H2 as [H2|H2]; [by apply switched_app_l|].
    apply switched_app_r. by apply (H2 k e after).
Qed.

End Order_traces.

Section Order_monad.
Context {K : Type} (p : str).

Lemma ordered_of_emits {A} (m : M K A) : emits (spares p) m → ordered p m.
Proof. intros H w. apply before_numvfs_spares, H. Qed.

Lemma ordered_bind {A B} (m : M K A) (f : A → M K B) :
  ordered p m → (∀ w a, res (m w) = Ret a → ordered p (f a)) → ordered p (bind m f).
Proof.
  intros Hm Hf w. unfold bind. specialize (Hm w).
  destruct (res (m w)) as [a|e] eqn:Hr; cbn [emitted]; [|exact Hm].
  apply before_numvfs_app; [exact Hm|]. right. exact (Hf w a Hr _).
Qed.

Lemma ordered_bind_spares {A B} (m : M K A) (f : A → M K B) :
  emits (spares p) m → (∀ w a, res (m w) = Ret a → ordered p (f a)) →
  ordered p (bind m f).
Proof. intros Hm. apply ordered_bind, ordered_of_emits, Hm. Qed.

Lemma ordered_bind_after {A B} (m : M K A) (f : A → M K B) :
  emits (spares p) m → produces (switched_to_switchdev p) m → ordered p (bind m f).
Proof.
  intros Hm Hs w. unfold bind. specialize (Hm w). specialize (Hs w).
  destruct (res (m w)) as [a|e] eqn:Hr; cbn [emitted].
  - apply before_numvfs_app; [by apply before_numvfs_spares|]. left. by apply (Hs a).
  - by apply before_numvfs_spares.
Qed.

Lemma ordered_for_fold {A S} (l : list A) (body : A → S → M K S) :
  (∀ x, x ∈ l → ∀ s, ordered p (body x s)) → ∀ s, ordered p (for_fold l body s).
Proof.
  induction l as [|x l IH]; intros H s.
  - apply ordered_of_emits, emits_ret.
  - cbn [for_fold]. apply ordered_bind.
    + apply H. left.
    + intros _ s' _. apply IH. intros y Hy. apply H. by right.
Qed.

Lemma bind_returns {A B} (m : M K A) (f : A → M K B) w b :
  res (bind m f w) = Ret b →
  ∃ a, res (m w) = Ret a ∧ res (f a (post (m w))) = Ret b
       ∧ emitted (bind m f w) = emitted (m w) ++ emitted (f a (post (m w))).
Proof.
  unfold bind. destruct (res (m w)) as [a|e]; cbn [res emitted]; [|discriminate].
  intros H. by exists a.
Qed.

End Order_monad.

Section Order_host.
Context {K : Type} (host : Host K).

(** A command whose failure is logged and raised again: when the
    guarded call returns, the command ran and nothing else happened. *)
Lemma guarded_execute_returns cmd (report : str → M K unit) w a :
  res (try_except (execute host cmd >> ret tt) (on_exec_error report) w) = Ret a →
  emitted (try_except (execute host cmd >> ret tt) (on_exec_error report) w) = [EExec cmd].
Proof.
  unfold try_except, bind, execute, ret.
  destruct (run_command host cmd (kern w)) as [k [out|text]]; cbn [res post emitted].
  - intros _. reflexivity.
  - cbn [on_exec_error]. unfold bind, raise.
    destruct (res (report text _)); cbn [res]; discriminate.
Qed.

Lemma configure_switchdev_switched pf_name :
  produces (switched_to_switchdev pf_name) (configure_switchdev host pf_name).
Proof.
  intros w a H. unfold configure_switchdev in *.
  apply bind_returns in H as (pci & _ & H & ->). apply switched_app_r.
  apply bind_returns in H as (id & _ & H & ->). apply switched_app_r.
  apply bind_returns in H as (? & _ & H & ->). apply switched_app_r.
  apply bind_returns in H as (? & Hx & H & ->).
  apply bind_returns in H as (? & _ & H & ->).
  rewrite (guarded_execute_returns _ _ _ _ Hx).
  eexists [], pci, _. reflexivity.
Qed.

End Order_host.

Section Order.
Context {K : Type} (host : Host K) (sriov_map : list item) (p : str).

Lemma numvfs_path_inj a b : numvfs_path a = numvfs_path b → a = b.
Proof.
  unfold numvfs_path, get_dev_path. cbn [startswith].
  intros H. apply (app_inv_head "/sys/class/net/") in H.
  change (a ++ ("/device/sriov_numvfs" : str) = b ++ "/device/sriov_numvfs") in H.
  by apply app_inv_tail in H.
Qed.

Lemma unbind_path_spared : MLNX_UNBIND_FILE_PATH ≠ numvfs_path p.
Proof. discriminate. Qed.

Ltac spared := first [exact I | exact unbind_path_spared].

Lemma emits_spares_uplink_rep_loop pf_name path retries :
  emits (spares p) (uplink_rep_loop host pf_name path retries).
Proof.
  induction retries as [|n IH]; cbn [uplink_rep_loop]; emits_with spared; try exact IH.
Qed.

Lemma emits_spares_is_partitioned_pf_loop dev_name l :
  emits (K:=K) (spares p) (is_partitioned_pf_loop dev_name l).
Proof.
  induction l as [|c l IH]; cbn [is_partitioned_pf_loop]; emits_with spared; try exact IH.
Qed.

Lemma emits_spares_join_cmd cmd : emits (K:=K) (spares p) (join_cmd cmd).
Proof.
  induction cmd as [|v cmd IH]; cbn [join_cmd]; emits_with spared; try exact IH.
Qed.

Lemma emits_spares_wait_loop pf_name numvfs vdpa vf_count script :
  emits (spares p) (wait_loop host pf_name numvfs vdpa vf_count script).
Proof.
  revert vf_count. induction script as [|ev script IH]; intros vf_count;
    cbn [wait_loop]; emits_with spared; try apply IH.
Qed.

Hint Resolve emits_spares_uplink_rep_loop emits_spares_is_partitioned_pf_loop
  emits_spares_join_cmd emits_spares_wait_loop : emits.

Lemma emits_spares_get_numvfs ifname : emits (spares p) (get_numvfs host ifname).
Proof. emits_with spared. Qed.

Lemma emits_spares_set_numvfs ifname numvfs :
  ifname ≠ p → emits (spares p) (set_numvfs host sriov_map ifname numvfs).
Proof.
  intros Hne. assert (numvfs_path ifname ≠ numvfs_path p) by (by intros ?%numvfs_path_inj).
  emits_with ltac:(first [exact I | assumption]).
Qed.

Hint Resolve emits_spares_get_numvfs : emits.

Lemma name_of_Ret (it : item) w name :
  res (name_of (K:=K) it w) = Ret name → assoc "name" (fields it) = Some (PyStr name).
Proof.
  unfold name_of, getitem, bind. destruct (assoc "name" (fields it)) as [v|]; [|discriminate].
  cbn. destruct v; cbn; try discriminate. congruence.
Qed.

Lemma getitem_Ret k (it : item) w v :
  res (getitem (K:=K) k it w) = Ret v → assoc k (fields it) = Some v.
Proof. unfold getitem. destruct (assoc k (fields it)); cbn; [congruence | discriminate]. Qed.

Lemma emits_spares_configure_switchdev pf_name :
  emits (spares p) (configure_switchdev host pf_name).
Proof. emits_with spared. Qed.

Lemma emits_spares_run_ip_config_cmd cmd : emits (spares p) (run_ip_config_cmd host cmd).
Proof. emits_with spared. Qed.

Lemma emits_spares_add_udev_rule udev_data udev_file pattern :
  emits (spares p) (add_udev_rule host udev_data udev_file pattern).
Proof. emits_with spared. Qed.

Hint Resolve emits_spares_configure_switchdev emits_spares_run_ip_config_cmd
  emits_spares_add_udev_rule : emits.

Lemma emits_spares_cleanup_puppet_config : emits (K:=K) (spares p) cleanup_puppet_config.
Proof. emits_with spared. Qed.

Lemma emits_spares_restart_ovs_and_pfs_netdevs :
  emits (spares p) (restart_ovs_and_pfs_netdevs host sriov_map).
Proof. emits_with spared. Qed.

Lemma emits_spares_trigger_udev_rules : emits (spares p) (trigger_udev_rules host).
Proof. emits_with spared. Qed.

Lemma emits_spares_get_vdpa_vhost_devices : emits (spares p) (get_vdpa_vhost_devices host).
Proof. emits_with spared. Qed.

Hint Resolve emits_spares_cleanup_puppet_config emits_spares_restart_ovs_and_pfs_netdevs
  emits_spares_trigger_udev_rules emits_spares_get_vdpa_vhost_devices : emits.

Lemma name_of_other (it : item) w name :
  assoc "name" (fields it) ≠ Some (PyStr p) → res (name_of (K:=K) it w) = Ret name →
  name ≠ p.
Proof. intros Hne H%name_of_Ret ->. by apply Hne. Qed.

(** An entry of another name leaves the VF count of [p] alone. *)
Lemma emits_spares_other_item cli vdpa_devices (it : item) vars :
  assoc "name" (fields it) ≠ Some (PyStr p) →
  emits (spares p) (configure_sriov_pf_item host sriov_map cli vdpa_devices it vars).
Proof.
  intros Hne. unfold configure_sriov_pf_item.
  emits_with ltac:(first [ exact I | exact unbind_path_spared
                         | apply emits_spares_set_numvfs; eapply name_of_other;
                           eassumption ]).
Qed.

Lemma name_of_known (it : item) name w :
  assoc "name" (fields it) = Some (PyStr name) →
  name_of (K:=K) it w = mkOut (Ret name) w [].
Proof. intros H. unfold name_of, getitem, bind. by rewrite H. Qed.

(** A vDPA entry for [p] on a Mellanox card switches the mode first. *)
Lemma ordered_vdpa_item cli vdpa_devices (it : item) vars :
  assoc "name" (fields it) = Some (PyStr p) →
  truthy (get "vdpa" it) = true →
  (∀ k, is_mellanox_interface host p k = true) →
  ordered p (configure_sriov_pf_item host sriov_map cli vdpa_devices it vars).
Proof.
  intros Hname Hvdpa Hmlnx. unfold configure_sriov_pf_item.
  apply ordered_bind_spares; [emits_with spared|]. intros _ device_type _.
  destruct (negb (eq_str device_type "pf")); [apply ordered_of_emits, emits_ret|].
  apply ordered_bind_spares; [emits_with spared|]. intros _ configured _.
  destruct configured; [apply ordered_of_emits; emits_with spared|].
  apply ordered_bind_spares; [emits_with spared|]. intros _ _ _.
  apply ordered_bind_spares; [emits_with spared|]. intros _ _ _.
  apply ordered_bind_spares; [emits_with spared|]. intros w name Hn.
  apply name_of_Ret in Hn. assert (name = p) as -> by congruence.
  apply ordered_bind_spares; [emits_with spared|]. intros w' is_mlnx Hm.
  cbn in Hm. rewrite Hmlnx in Hm. injection Hm as <-.
  rewrite Hvdpa. cbn [andb when].
  apply ordered_bind_after.
  - emits_with spared.
  - intros w'' a. unfold bind at 1 2. rewrite (name_of_known _ _ _ Hname).
    cbn [res post emitted app]. intros H.
    exact (configure_switchdev_switched host p w'' a H).
Qed.

(** C7. For a PF [p] on a Mellanox card whose entries in the map all ask
    for vDPA, every write of the VF count of [p] during
    [configure_sriov_pf] comes after [configure_switchdev] has set the
    eswitch of [p] to switchdev mode: the trace before the write holds
    the mode command and the log line of its success. *)
Theorem configure_sriov_pf_switchdev_before_numvfs cli restart w :
  (∀ it, it ∈ sriov_map → describes_pf p it → truthy (get "vdpa" it) = true) →
  (∀ k, is_mellanox_interface host p k = true) →
  switchdev_before_numvfs p (emitted (configure_sriov_pf host sriov_map cli restart w)).
Proof.
  intros Hvdpa Hmlnx. revert w. change (ordered p (configure_sriov_pf host sriov_map cli restart)).
  unfold configure_sriov_pf. cbn [get_sriov_map].
  apply ordered_bind_spares; [emits_with spared|]. intros _ _ _.
  apply ordered_bind_spares; [emits_with spared|]. intros _ _ _.
  apply ordered_bind_spares; [emits_with spared|]. intros _ _ _.
  apply ordered_bind_spares; [emits_with spared|]. intros _ vdpa_devices _.
  apply ordered_bind; [|intros; apply ordered_of_emits; emits_with spared].
  apply ordered_for_fold. intros it Hit vars.
  assert (assoc "name" (fields it) = Some (PyStr p)
          ∨ assoc "name" (fields it) ≠ Some (PyStr p)) as [Hname|Hname].
  { destruct (assoc "name" (fields it)) as [[| | | |s]|]; try (right; discriminate).
    destruct (decide (s = p)) as [->|Hs]; [by left | right; congruence]. }
  2: by apply ordered_of_emits, emits_spares_other_item.
  destruct (assoc "device_type" (fields it)) as [device_type|] eqn:Htype.
  - destruct (eq_str device_type "pf") eqn:Hpf.
    + apply ordered_vdpa_item; [exact Hname| |exact Hmlnx].
      apply Hvdpa; [exact Hit|]. split; [|exact Hname].
      rewrite Htype. f_equal. destruct device_type; try discriminate Hpf.
      f_equal. by apply bool_decide_eq_true in Hpf.
    + apply ordered_of_emits, emits_bind; [emits_with spared|].
      intros w a Ha%getitem_Ret. assert (a = device_type) as -> by congruence.
      rewrite Hpf. apply emits_ret.
  - apply ordered_of_emits, emits_bind; [emits_with spared|].
    intros w a Ha%getitem_Ret. congruence.
Qed.

End Order.

(** ** The properties at work on the simulated host *)

(** C4. A legacy PF with no rule file yet: [add_udev_rule_for_legacy_sriov_pf]
    writes the rule and reloads (it returned [True]), the run of
    [configure_sriov_pf] completes, and the trigger command is never
    run, its result having been dropped. *)
Theorem configure_sriov_pf_drops_legacy_rule_change :
  let w := Sim.world Sim.legacy_machine [] ∅ in
  let o := configure_sriov_pf Sim.host [Sim.legacy_pf] false false w in
  res (add_udev_rule_for_legacy_sriov_pf Sim.host "p1p1" (PyInt 2) w) = Ret true
  ∧ res o = Ret tt
  ∧ is_Some (files (post o) !! _UDEV_LEGACY_RULE_FILE)
  ∧ runs RELOAD_CMD (emitted o) = 1%nat
  ∧ runs TRIGGER_CMD (emitted o) = 0%nat.
Proof. vm_compute. repeat split; eauto. Qed.

(** C8. A VF with [max_tx_rate] 0 and [min_tx_rate] 5 on a machine where
    the command for the minimum rate fails: the run of
    [configure_sriov_vf] returns although the failed command asked for
    a rate other than zero; without the [max_tx_rate] entry the same
    failure is raised. *)
Theorem configure_sriov_vf_keeps_raise_error_off :
  let w := Sim.world (Sim.failing_machine [Sim.rate_cmd "min_tx_rate" "5"]) [] ∅ in
  let both := Sim.rate_vf [("max_tx_rate" : str, PyInt 0); ("min_tx_rate" : str, PyInt 5)] in
  let only_min := Sim.rate_vf [("min_tx_rate" : str, PyInt 5)] in
  let o := configure_sriov_vf Sim.host [both] w in
  res o = Ret tt
  ∧ runs (Sim.rate_cmd "min_tx_rate" "5") (emitted o) = 1%nat
  ∧ snd (run_command Sim.host (Sim.rate_cmd "min_tx_rate" "5") (kern w)) = Failed "exit code 1"
  ∧ res (configure_sriov_vf Sim.host [only_min] w) = Raise (ProcessExecutionError "exit code 1").
Proof. vm_compute. repeat split; eauto. Qed.

(** C1, as stated, fails. Each line is a concrete file, rule and pattern
    on which two calls in a row do not behave as an idempotent upsert:
    the rule is in the file already (the first call returns [False]);
    two lines match the pattern (both are replaced); the file does not
    end with a newline (the second call rewrites it); the rule does not
    contain the pattern (the second call appends it again); the rule has
    two lines (every call rewrites); the header comment matches the
    pattern (two lines match in the new file). *)
Lemma add_udev_rule_twice_counterexample :
  ¬ upsert_idempotent Sim.host "C X" _UDEV_RULE_FILE None
      (Sim.rules_world (Some ("C X" ++ NL)))
  ∧ ¬ upsert_idempotent Sim.host "C X" _UDEV_RULE_FILE (Some ("X" : str))
        (Sim.rules_world (Some ("A X" ++ NL ++ "B X" ++ NL)))
  ∧ ¬ upsert_idempotent Sim.host "X" _UDEV_RULE_FILE None
        (Sim.rules_world (Some ("abc" : str)))
  ∧ ¬ upsert_idempotent Sim.host "C" _UDEV_RULE_FILE (Some ("X" : str))
        (Sim.rules_world (Some ("A X" ++ NL)))
  ∧ ¬ upsert_idempotent Sim.host ("A" ++ NL ++ "B") _UDEV_RULE_FILE None
        (Sim.rules_world (Some ("A" ++ NL ++ "B" ++ NL)))
  ∧ ¬ upsert_idempotent Sim.host "os-net-config X" _UDEV_RULE_FILE (Some ("os-net-config" : str))
        (Sim.rules_world None).
Proof.
  repeat split; intros (H1 & H2 & c & Hc & Hlen); vm_compute in H1, H2, Hc;
    try discriminate H1; try discriminate H2;
    injection Hc as <-; vm_compute in Hlen; discriminate Hlen.
Qed.

(** C5, as stated, fails: with two lines matching the pattern before the
    call, two lines match it after; a rule that does not contain the
    pattern leaves no matching line; on a new file whose header comment
    matches the pattern, two lines match. *)
Lemma add_udev_rule_one_match_counterexample :
  ¬ one_match_after Sim.host "C X" _UDEV_RULE_FILE (Some ("X" : str))
      (Sim.rules_world (Some ("A X" ++ NL ++ "B X" ++ NL)))
  ∧ ¬ one_match_after Sim.host "C" _UDEV_RULE_FILE (Some ("X" : str))
        (Sim.rules_world (Some ("A X" ++ NL)))
  ∧ ¬ one_match_after Sim.host "os-net-config X" _UDEV_RULE_FILE (Some ("os-net-config" : str))
        (Sim.rules_world None).
Proof.
  repeat split; intros (c & Hc & Hlen); vm_compute in Hc;
    injection Hc as <-; vm_compute in Hlen; discriminate Hlen.
Qed.

(** *** The theorems applied on the simulated machines *)

Lemma add_udev_rule_twice_witness :
  upsert_idempotent Sim.host "C X" _UDEV_RULE_FILE (Some ("X" : str))
    (Sim.rules_world (Some ("A X" ++ NL ++ "B" ++ NL))).
Proof.
  destruct (add_udev_rule_twice Sim.host "C X" _UDEV_RULE_FILE (Some ("X" : str))
              (Sim.failing_machine []) []
              (Sim.rules_world (Some ("A X" ++ NL ++ "B" ++ NL))))
    as (H1 & H2 & _ & H3).
  - vm_compute. repeat constructor.
  - discriminate.
  - reflexivity.
  - vm_compute. repeat split; [lia | | right; reflexivity].
    intros H. repeat (apply elem_of_cons in H as [H|H]; [discriminate H|]).
    by apply elem_of_nil in H.
  - reflexivity.
  - exact (conj H1 (conj H2 H3)).
Defined.

Lemma set_numvfs_verifies_by_reading_back_witness :
  res (set_numvfs Sim.host [Sim.legacy_pf] "p1p1" (PyInt 2)
         (Sim.world Sim.legacy_machine [] ∅)) = Ret 2.
Proof.
  apply (set_numvfs_verifies_by_reading_back Sim.host [Sim.legacy_pf] "p1p1" (PyInt 2)
           (fst (sys_write Sim.host (numvfs_path "p1p1") "2" Sim.legacy_machine)) 2).
  - reflexivity.
  - vm_compute. discriminate.
  - exists ("0" ++ NL). split; vm_compute; reflexivity.
  - vm_compute. reflexivity.
  - exists ("2" : str). split; vm_compute; reflexivity.
Defined.

Lemma set_numvfs_noop_branches_witness :
  let o := set_numvfs Sim.host [] "p1p1" (PyInt 2) (Sim.world Sim.busy_machine [] ∅) in
  res o = Ret 4
  ∧ post o = Sim.world Sim.busy_machine [] ∅
  ∧ Forall (λ e, ¬ is_sys_write e) (emitted o)
  ∧ (int_of (PyInt 2) ≠ 4 →
     ELog WARNING [T "p1p1"; T ": Numvfs already configured to "; N 4] ∈ emitted o).
Proof.
  apply (set_numvfs_noop_branches Sim.host [] "p1p1" (PyInt 2) 4).
  - reflexivity.
  - eexists. split; vm_compute; reflexivity.
  - right. lia.
Defined.

Lemma add_udev_rule_leaves_one_match_witness :
  one_match_after Sim.host "C X" _UDEV_RULE_FILE (Some ("X" : str))
    (Sim.rules_world (Some ("A X" ++ NL ++ "B" ++ NL))).
Proof.
  apply (add_udev_rule_leaves_one_match Sim.host "C X" _UDEV_RULE_FILE (Some ("X" : str))).
  - vm_compute. repeat constructor.
  - discriminate.
  - reflexivity.
  - vm_compute. lia.
Defined.

Lemma wait_for_vf_creation_returns_witness :
  let w := Sim.world Sim.mlnx_machine [Some Sim.vf0_event; Some Sim.vf1_event] ∅ in
  let o := _wait_for_vf_creation Sim.host [Sim.switchdev_pf false] "ens1f0" 2 w in
  res o = Ret tt
  ∧ vf_to_pf (post o) = [link_of "ens1f0" Sim.vf0_event; link_of "ens1f0" Sim.vf1_event].
Proof.
  destruct (wait_for_vf_creation_returns Sim.host [Sim.switchdev_pf false] "ens1f0" 2
              [Sim.vf0_event; Sim.vf1_event] []
              (Sim.world Sim.mlnx_machine [Some Sim.vf0_event; Some Sim.vf1_event] ∅))
    as (H1 & H2 & _).
  - repeat constructor; eexists; (split; [vm_compute; reflexivity|]);
      vm_compute; repeat constructor.
  - vm_compute. repeat constructor; intros H;
      repeat (apply elem_of_cons in H as [H|H]; [discriminate H|]);
      by apply elem_of_nil in H.
  - intros ev _ H. by apply elem_of_nil in H.
  - reflexivity.
  - left. reflexivity.
  - split; [exact H1 | exact H2].
Defined.

Lemma configure_sriov_pf_switchdev_before_numvfs_witness :
  let o := configure_sriov_pf Sim.mlnx_host [Sim.switchdev_pf true] false false
             (Sim.world Sim.mlnx_machine [Some Sim.vf0_event; Some Sim.vf1_event] ∅) in
  switchdev_before_numvfs "ens1f0" (emitted o)
  ∧ ESysWrite (numvfs_path "ens1f0") "2" ∈ emitted o.
Proof.
  split.
  - apply (configure_sriov_pf_switchdev_before_numvfs Sim.mlnx_host
             [Sim.switchdev_pf true] "ens1f0").
    + intros it Hit _. apply list_elem_of_singleton in Hit as ->. reflexivity.
    + reflexivity.
  - vm_compute. repeat constructor.
Defined.

Lemma add_udev_rule_multiline_always_changes_witness :
  res (add_udev_rule Sim.host ("A" ++ NL ++ "B") _UDEV_RULE_FILE None
         (Sim.rules_world (Some ("A" ++ NL ++ "B" ++ NL)))) = Ret true.
Proof.
  eapply (add_udev_rule_multiline_always_changes Sim.host).
  - vm_compute. repeat constructor.
  - reflexivity.
  - reflexivity.
Defined.

Lemma set_numvfs_rejects_non_integer_witness :
  let o := set_numvfs Sim.host [] "p1p1" (PyStr "0") (Sim.world Sim.legacy_machine [] ∅) in
  (∃ m, res o = Raise (SRIOVNumvfsException m))
  ∧ post o = Sim.world Sim.legacy_machine [] ∅
  ∧ Forall (λ e, ¬ is_sys_write e) (emitted o)
  ∧ ∃ logs, emitted o =
            ELog DEBUG [T "p1p1"; T ": Getting numvfs for interface"]
            :: ESysRead (numvfs_path "p1p1") :: logs
            ∧ Forall is_log logs.
Proof.
  apply (set_numvfs_rejects_non_integer Sim.host [] "p1p1" (PyStr "0")).
  - reflexivity.
  - intros text H. vm_compute in H. injection H as <-. vm_compute. eauto.
Defined.

(** * Further properties of the module *)

(** ** Reading and writing the VF count *)

Section Numvfs_more.
Context {K : Type} (host : Host K) (sriov_map : list item).

Hint Resolve read_attr_Done read_attr_Failed write_attr_Done get_numvfs_reads
  get_numvfs_fails : run.

Lemma get_numvfs_garbled ifname (w : World K) text :
  sys_read host (numvfs_path ifname) (kern w) = Done text → py_int text = None →
  get_numvfs host ifname w =
  mkOut (Raise (ValueError text)) w
        [ELog DEBUG [T ifname; T ": Getting numvfs for interface"];
         ESysRead (numvfs_path ifname)].
Proof.
  intros Hr Hn. unfold get_numvfs, numvfs_path in *.
  eapply bind_Ret_eq; [reflexivity | reflexivity |].
  eapply bind_Raise.
  eapply try_except_passed; [|reflexivity].
  eapply bind_Ret_eq; [apply read_attr_Done; exact Hr | reflexivity |].
  cbv beta. rewrite Hn. reflexivity.
Qed.

(** X1. [get_numvfs] only observes: it leaves the world as it found it and
    writes nothing. A read that fails is reported as
    [SRIOVNumvfsException]; content that is not a number escapes as the
    [ValueError] of [int()]. *)
Theorem get_numvfs_only_observes ifname (w : World K) :
  let o := get_numvfs host ifname w in
  post o = w
  ∧ Forall (λ e, ¬ is_sys_write e) (emitted o)
  ∧ (∀ text, sys_read host (numvfs_path ifname) (kern w) = Failed text →
             res o = Raise (SRIOVNumvfsException
                              [T ifname; T ": Unable to read numvfs: "; T text]))
  ∧ (∀ text, sys_read host (numvfs_path ifname) (kern w) = Done text →
             py_int text = None → res o = Raise (ValueError text)).
Proof.
  cbv zeta.
  destruct (sys_read host (numvfs_path ifname) (kern w)) as [text|text] eqn:Hr.
  - destruct (py_int text) as [n|] eqn:Hn.
    + rewrite (get_numvfs_reads host ifname w n) by (exists text; auto).
      cbn. repeat split; [no_writes | discriminate | congruence].
    + rewrite (get_numvfs_garbled ifname w text Hr Hn).
      cbn. repeat split; [no_writes | discriminate | congruence].
  - rewrite (get_numvfs_fails host ifname w text Hr).
    cbn. repeat split; [no_writes | congruence | discriminate].
Qed.

(** X2. When the kernel refuses the write of the VF count, [set_numvfs]
    raises [SRIOVNumvfsException] with the kernel's message and stops
    there: it does not wait for VFs and does not read the count again. *)
Theorem set_numvfs_write_refused ifname numvfs k1 text (w : World K) :
  is_int numvfs = true →
  int_of numvfs ≠ 0 →
  reads_int host (numvfs_path ifname) (kern w) 0 →
  sys_write host (numvfs_path ifname) (pretty (int_of numvfs)) (kern w) = (k1, Failed text) →
  let o := set_numvfs host sriov_map ifname numvfs w in
  res o = Raise (SRIOVNumvfsException
                   [T ifname; T " Unable to configure pf  with numvfs: "; V numvfs; T NL;
                    T text])
  ∧ Forall (λ e, ¬ is_queue_get e) (emitted o)
  ∧ last (emitted o) = Some (ESysWrite (numvfs_path ifname) (pretty (int_of numvfs)))
  ∧ vf_to_pf (post o) = vf_to_pf w.
Proof.
  intros Hint Hnz Hcur Hwrite.
  apply Z.eqb_neq in Hnz.
  eassert (Hrun : set_numvfs host sriov_map ifname numvfs w = mkOut _ _ _).
  { unfold set_numvfs. run. rewrite Hint, (eq_int_int_of _ _ Hint), Hnz.
    cbn [negb Z.eqb]. fold (numvfs_path ifname).
    eapply bind_Raise.
    eapply try_except_caught;
      [ eapply bind_Ret_eq;
          [reflexivity | reflexivity | unfold write_attr; rewrite Hwrite; reflexivity]
      | reflexivity | reflexivity | reflexivity ]. }
  cbv zeta. rewrite Hrun. cbn.
  repeat split. repeat constructor; intros [].
Qed.

End Numvfs_more.

Lemma set_numvfs_write_refused_witness :
  ∃ m, res (set_numvfs SimMore.readonly_host [] "p1p1" (PyInt 2)
              (Sim.world Sim.legacy_machine [] ∅)) = Raise (SRIOVNumvfsException m).
Proof.
  eexists.
  eapply (set_numvfs_write_refused SimMore.readonly_host [] "p1p1" (PyInt 2)).
  - reflexivity.
  - vm_compute. discriminate.
  - exists ("0" ++ NL). split; vm_compute; reflexivity.
  - reflexivity.
Defined.

(** ** The synchronizer *)

Section Synchronizer_more.
Context {K : Type} (host : Host K) (sriov_map : list item).

(** One event either leaves [vf_to_pf] and the tally alone or records one
    new VF, under a name that was not recorded yet. *)
Lemma vf_event_links pf_name vdpa c ev (w : World K) :
  let o := vf_event host pf_name vdpa c ev w in
  (res o = Ret c ∧ vf_to_pf (post o) = vf_to_pf w)
  ∨ (res o = Ret (c + 1)
     ∧ vf_to_pf (post o) = vf_to_pf w ++ [link_of pf_name ev]
     ∧ vf_name_of ev ∉ (vf_to_pf w).*1).
Proof.
  unfold vf_event, _get_pf_path. unfold_prog.
  repeat match goal with
         | |- context [if ?b then _ else _] => destruct b eqn:?; unfold_prog
         end; cbn; auto.
  all: right; repeat split; try reflexivity.
  all: match goal with
       | H : negb (in_vf_to_pf _ _) && _ = true |- _ =>
         apply andb_true_iff in H as [H _]; apply negb_true_iff in H;
         unfold in_vf_to_pf in H; apply bool_decide_eq_false in H; exact H
       end.
Qed.

Lemma wait_loop_links script : ∀ pf_name numvfs vdpa c (w : World K),
  NoDup (vf_to_pf w).*1 →
  let o := wait_loop host pf_name numvfs vdpa c script w in
  ∃ new, vf_to_pf (post o) = vf_to_pf w ++ new
         ∧ NoDup (vf_to_pf (post o)).*1
         ∧ Forall (λ l, link_pf l.2 = pf_name) new
         ∧ Z.of_nat (length new) ≤ Z.max 0 (numvfs - c).
Proof.
  induction script as [|[ev|] rest IH]; intros pf_name numvfs vdpa c w Hnd; cbn [wait_loop];
    destruct (c <? numvfs) eqn:Hc;
    try (unfold_prog; cbn; exists []; rewrite app_nil_r;
         repeat split; [exact Hnd | constructor | cbn; lia]; fail).
  apply Z.ltb_lt in Hc. unfold_prog.
  set (w0 := set_vf_queue rest w).
  destruct (vf_event_links pf_name vdpa c ev w0) as [[Hr Hl]|(Hr & Hl & Hfresh)];
    rewrite Hr; cbn [res post emitted].
  - destruct (IH pf_name numvfs vdpa c (post (vf_event host pf_name vdpa c ev w0)))
      as (new & Hnew & Hnd' & Hpf & Hlen).
    { rewrite Hl. exact Hnd. }
    exists new. rewrite Hnew, Hl. repeat split; try assumption.
    rewrite <- Hl, <- Hnew. exact Hnd'.
  - destruct (IH pf_name numvfs vdpa (c + 1) (post (vf_event host pf_name vdpa c ev w0)))
      as (new & Hnew & Hnd' & Hpf & Hlen).
    { rewrite Hl, fmap_app. apply NoDup_app. repeat split.
      - exact Hnd.
      - intros x Hx Hx'. cbn in Hx'. apply list_elem_of_singleton in Hx' as ->.
        exact (Hfresh Hx).
      - cbn. apply NoDup_singleton. }
    exists (link_of pf_name ev :: new). rewrite Hnew, Hl.
    repeat split.
    + cbn. by rewrite <- app_assoc.
    + rewrite <- Hl, <- Hnew. exact Hnd'.
    + constructor; [reflexivity | exact Hpf].
    + cbn [length]. lia.
Qed.

(** X3. The synchronizer never raises, whatever the queue delivers: it
    returns, having touched neither the host nor the files, and all it
    did to the outside was to take from the queue and to log. *)
Theorem wait_for_vf_creation_never_raises pf_name numvfs (w : World K) :
  let o := _wait_for_vf_creation host sriov_map pf_name numvfs w in
  res o = Ret tt
  ∧ kern (post o) = kern w
  ∧ files (post o) = files w
  ∧ Forall is_wait_effect (emitted o).
Proof.
  destruct (_wait_for_vf_creation_eq host sriov_map pf_name numvfs w)
    as (w' & t & Hrun & Hk & Hf & Ht).
  cbv zeta. rewrite Hrun. auto.
Qed.

(** X4. What the synchronizer records: it only adds to [vf_to_pf], every
    added link points to the PF it waits for, no VF name is recorded
    twice, and it adds no more links than the target asks for. *)
Theorem wait_for_vf_creation_records_links pf_name numvfs (w : World K) :
  NoDup (vf_to_pf w).*1 →
  let o := _wait_for_vf_creation host sriov_map pf_name numvfs w in
  ∃ new, vf_to_pf (post o) = vf_to_pf w ++ new
         ∧ NoDup (vf_to_pf (post o)).*1
         ∧ Forall (λ l, link_pf l.2 = pf_name) new
         ∧ Z.of_nat (length new) ≤ Z.max 0 numvfs.
Proof.
  intros Hnd. unfold _wait_for_vf_creation. unfold_prog.
  match goal with |- context [wait_loop _ _ _ ?v _ _ _] => set (vdpa := v) end.
  destruct (wait_loop_links (vf_queue w) pf_name numvfs vdpa 0 w Hnd)
    as (new & H1 & H2 & H3 & H4).
  exists new. rewrite Z.sub_0_r in H4. auto.
Qed.

(** X5. With a target of zero (or less) there is nothing to wait for: the
    queue is not touched. *)
Theorem wait_for_vf_creation_no_target pf_name numvfs (w : World K) :
  numvfs ≤ 0 →
  _wait_for_vf_creation host sriov_map pf_name numvfs w =
  mkOut (Ret tt) w [ELog INFO [T pf_name; T ": Required VFs are created"]].
Proof.
  intros Hn. unfold _wait_for_vf_creation. unfold_prog.
  destruct (vf_queue w) as [|[ev|] rest]; cbn [wait_loop];
    (destruct (0 <? numvfs) eqn:Hc; [apply Z.ltb_lt in Hc; lia|]);
    reflexivity.
Qed.

End Synchronizer_more.

Lemma wait_for_vf_creation_records_links_witness :
  let w := Sim.world Sim.mlnx_machine [Some Sim.vf0_event; Some Sim.vf0_event] ∅ in
  let o := _wait_for_vf_creation Sim.host [Sim.switchdev_pf false] "ens1f0" 2 w in
  ∃ new, vf_to_pf (post o) = vf_to_pf w ++ new
         ∧ NoDup (vf_to_pf (post o)).*1
         ∧ Forall (λ l, link_pf l.2 = ("ens1f0" : str)) new
         ∧ Z.of_nat (length new) ≤ Z.max 0 2.
Proof.
  apply (wait_for_vf_creation_records_links Sim.host [Sim.switchdev_pf false] "ens1f0" 2).
  vm_compute. constructor.
Defined.

Lemma wait_for_vf_creation_no_target_witness :
  emitted (_wait_for_vf_creation Sim.host [] "ens1f0" 0
             (Sim.world Sim.mlnx_machine [Some Sim.vf0_event] ∅)) =
  [ELog INFO [T "ens1f0"; T ": Required VFs are created"]].
Proof.
  rewrite (wait_for_vf_creation_no_target Sim.host [] "ens1f0" 0); [reflexivity | lia].
Defined.

(** ** Waiting for the uplink representor *)

Section Uplink.
Context {K : Type} (host : Host K).

Lemma uplink_rep_loop_bounded pf_name path retries : ∀ w : World K,
  let o := uplink_rep_loop host pf_name path retries w in
  (sleeps (emitted o) ≤ retries)%nat
  ∧ files (post o) = files w
  ∧ vf_to_pf (post o) = vf_to_pf w
  ∧ ((res o = Ret tt
      ∧ last (emitted o) = Some (ELog INFO [T pf_name; T " Uplink representor ready"]))
     ∨ (res o = Raise (RuntimeError [T pf_name; T ": Timeout waiting uplink representor"])
        ∧ sleeps (emitted o) = retries)).
Proof.
  induction retries as [|n IH]; intros w; cbn [uplink_rep_loop].
  - cbn. repeat split; auto.
  - unfold get_sys_file_data. unfold_prog.
    destruct (bool_decide (sys_file_data host path (kern w) = [])) eqn:Hd; cbn [negb].
    + unfold_prog. cbn [app].
      set (w1 := set_kern _ w).
      destruct (IH w1) as (Hs & Hf & Hl & Hres). cbv zeta in Hs, Hf, Hl, Hres.
      destruct (uplink_rep_loop host pf_name path n w1) as [r w2 t];
        cbn [res post emitted] in *.
      change (files w1) with (files w) in Hf. change (vf_to_pf w1) with (vf_to_pf w) in Hl.
      change (sleeps (ESleep 1 :: t)) with (S (sleeps t)).
      destruct r as [[]|e]; cbn [res post emitted];
        (repeat split; [lia | exact Hf | exact Hl |]).
      * left. destruct Hres as [[_ Hlast]|[Hx _]]; [|discriminate Hx].
        split; [reflexivity|]. destruct t; [discriminate Hlast | exact Hlast].
      * right. destruct Hres as [[Hx _]|[Hx Hn]]; [discriminate Hx|].
        split; [exact Hx | by rewrite Hn].
    + unfold_prog. repeat split; [apply Nat.le_0_l|]. left. split; reflexivity.
Qed.

(** X6. [_wait_for_uplink_rep_creation] gives up after ten looks at
    [phys_switch_id]: it sleeps at most ten times, touches no file, and
    either returns on the representor being ready or raises
    [RuntimeError] after exactly ten sleeps. *)
Theorem wait_for_uplink_rep_creation_bounded pf_name (w : World K) :
  let o := _wait_for_uplink_rep_creation host pf_name w in
  (sleeps (emitted o) ≤ 10)%nat
  ∧ files (post o) = files w
  ∧ ((res o = Ret tt
      ∧ last (emitted o) = Some (ELog INFO [T pf_name; T " Uplink representor ready"]))
     ∨ (res o = Raise (RuntimeError [T pf_name; T ": Timeout waiting uplink representor"])
        ∧ sleeps (emitted o) = 10%nat)).
Proof.
  unfold _wait_for_uplink_rep_creation.
  destruct (uplink_rep_loop_bounded pf_name ("/sys/class/net/" ++ pf_name ++ "/phys_switch_id")
              MAX_RETRIES w) as (H1 & H2 & _ & H3).
  auto.
Qed.

(** X7. With [phys_switch_id] already readable, there is no sleep at all. *)
Theorem wait_for_uplink_rep_creation_ready pf_name (w : World K) :
  sys_file_data host ("/sys/class/net/" ++ pf_name ++ "/phys_switch_id") (kern w) ≠ [] →
  _wait_for_uplink_rep_creation host pf_name w =
  mkOut (Ret tt) w [ELog INFO [T pf_name; T " Uplink representor ready"]].
Proof.
  intros Hdata. unfold _wait_for_uplink_rep_creation, MAX_RETRIES.
  generalize 9%nat. intros n. cbn [uplink_rep_loop].
  unfold get_sys_file_data. unfold_prog.
  rewrite (bool_decide_eq_false_2 _ Hdata). reflexivity.
Qed.

End Uplink.

Lemma wait_for_uplink_rep_creation_ready_witness :
  res (_wait_for_uplink_rep_creation Sim.host "ens1f0"
         (Sim.world Sim.mlnx_machine [] ∅)) = Ret tt.
Proof.
  rewrite (wait_for_uplink_rep_creation_ready Sim.host "ens1f0"); [reflexivity|].
  vm_compute. discriminate.
Defined.

(** ** Running commands *)

Section Commands.
Context {K : Type} (host : Host K).

Lemma execute_eq cmd (w : World K) :
  execute host cmd w =
  mkOut (match snd (run_command host cmd (kern w)) with
         | Done stdout => Ret stdout
         | Failed text => Raise (ProcessExecutionError text)
         end)
        (set_kern (fst (run_command host cmd (kern w))) w) [EExec cmd].
Proof. unfold execute. destruct (run_command host cmd (kern w)); reflexivity. Qed.

Lemma join_cmd_strs (words : list str) (w : World K) :
  join_cmd (PyStr <$> words) w = mkOut (Ret words) w [].
Proof.
  induction words as [|s words IH]; [reflexivity|].
  cbn [fmap list_fmap join_cmd]. change (list_fmap _ _ PyStr words) with (PyStr <$> words).
  eapply bind_Ret_eq; [reflexivity | reflexivity |].
  eapply bind_Ret_eq; [exact IH | reflexivity | reflexivity].
Qed.

Lemma join_cmd_not_str cmd (w : World K) :
  Exists (λ v, ∀ s, v ≠ PyStr s) cmd → join_cmd cmd w = mkOut (Raise TypeError) w [].
Proof.
  induction cmd as [|v cmd IH]; intros H; [by apply Exists_nil in H|].
  cbn [join_cmd]. destruct v as [| | | |s];
    try (eapply bind_Raise; reflexivity).
  apply Exists_cons in H as [H|H]; [by destruct (H s)|].
  eapply bind_Ret_eq; [reflexivity | reflexivity |].
  eapply bind_Raise. exact (IH H).
Qed.

(** X8. A command line with an element that is not a [str] is rejected
    with [TypeError] by the join that builds the log line: nothing is
    logged and nothing is run. *)
Theorem run_ip_config_cmd_rejects_non_str cmd (w : World K) :
  Exists (λ v, ∀ s, v ≠ PyStr s) cmd →
  run_ip_config_cmd host cmd w = mkOut (Raise TypeError) w [].
Proof.
  intros H. unfold run_ip_config_cmd. eapply bind_Raise. exact (join_cmd_not_str cmd w H).
Qed.

(** What [run_ip_config_cmd] does with a command line of strings: it
    logs, runs the command once, and on failure logs the error and
    raises it again. *)
Lemma run_ip_config_cmd_run (words : list str) (w : World K) :
  run_ip_config_cmd host (PyStr <$> words) w =
  let '(k, r) := run_command host words (kern w) in
  match r with
  | Done _ =>
    mkOut (Ret tt) (set_kern k w) [ELog INFO [T "Running "; T (join " " words)]; EExec words]
  | Failed text =>
    mkOut (Raise (ProcessExecutionError text)) (set_kern k w)
          [ELog INFO [T "Running "; T (join " " words)]; EExec words;
           ELog ERROR [T "Failed to execute "; T (join " " words); T ": "; T text]]
  end.
Proof.
  unfold run_ip_config_cmd.
  destruct (run_command host words (kern w)) as [k [out|text]] eqn:Hrun.
  - eapply bind_Ret_eq; [apply join_cmd_strs | reflexivity |].
    eapply bind_Ret_eq; [reflexivity | reflexivity |].
    eapply try_except_Ret.
    eapply bind_Ret_eq; [rewrite execute_eq, Hrun; reflexivity | reflexivity | reflexivity].
  - eapply bind_Ret_eq; [apply join_cmd_strs | reflexivity |].
    eapply bind_Ret_eq; [reflexivity | reflexivity |].
    eapply try_except_caught;
      [ eapply bind_Raise; rewrite execute_eq, Hrun; reflexivity
      | reflexivity | reflexivity | reflexivity ].
Qed.

(** X9. With [raise_error] set, the safe runner is [run_ip_config_cmd]
    itself: same result, same effects, same final world. *)
Theorem run_ip_config_cmd_safe_raising cmd (w : World K) :
  run_ip_config_cmd_safe host true cmd w = run_ip_config_cmd host cmd w.
Proof.
  unfold run_ip_config_cmd_safe, try_except.
  destruct (run_ip_config_cmd host cmd w) as [[[]|e] w' t]; cbn [res post emitted];
    [reflexivity|].
  destruct e; try reflexivity. cbn. by rewrite app_nil_r.
Qed.

(** X10. With [raise_error] off, a failing command never makes the safe
    runner raise [ProcessExecutionError]; the command was still run. *)
Theorem run_ip_config_cmd_safe_swallows cmd (w : World K) text :
  res (run_ip_config_cmd_safe host false cmd w) ≠ Raise (ProcessExecutionError text)
  ∧ emitted (run_ip_config_cmd_safe host false cmd w) = emitted (run_ip_config_cmd host cmd w)
  ∧ post (run_ip_config_cmd_safe host false cmd w) = post (run_ip_config_cmd host cmd w).
Proof.
  unfold run_ip_config_cmd_safe, try_except.
  destruct (run_ip_config_cmd host cmd w) as [[[]|e] w' t]; cbn [res post emitted];
    [repeat split; discriminate|].
  destruct e; cbn; rewrite ?app_nil_r; repeat split; discriminate.
Qed.

Lemma get_pf_pci_found pf_name pci (w : World K) :
  search_slot_name (sys_file_data host (get_dev_path pf_name "uevent") (kern w)) = Some pci →
  get_pf_pci host pf_name w = mkOut (Ret pci) w [].
Proof.
  intros H. unfold get_pf_pci, get_sys_file_data.
  eapply bind_Ret_eq; [reflexivity | reflexivity |]. cbv beta. rewrite H. reflexivity.
Qed.

Lemma get_pf_pci_missing pf_name (w : World K) :
  search_slot_name (sys_file_data host (get_dev_path pf_name "uevent") (kern w)) = None →
  get_pf_pci host pf_name w = mkOut (Raise AttributeError) w [].
Proof.
  intros H. unfold get_pf_pci, get_sys_file_data.
  eapply bind_Ret_eq; [reflexivity | reflexivity |]. cbv beta. rewrite H. reflexivity.
Qed.

(** X11. A failure to set the flow steering mode is logged as a warning and
    goes no further: once the PCI address of the PF is known,
    [configure_flow_steering] runs the one command and returns, whatever
    the command did. *)
Theorem configure_flow_steering_tolerates_failure pf_name steering_mode pci (w : World K) :
  search_slot_name (sys_file_data host (get_dev_path pf_name "uevent") (kern w)) = Some pci →
  let o := configure_flow_steering host pf_name steering_mode w in
  res o = Ret tt
  ∧ ∃ line, emitted o =
            [EExec ["/usr/sbin/devlink" : str; "dev" : str; "param" : str; "set" : str;
                    "pci/" ++ pci; "name" : str; "flow_steering_mode" : str;
                    "value" : str; to_str steering_mode; "cmode" : str; "runtime" : str];
             line]
            ∧ is_log line.
Proof.
  intros Hpci. cbv zeta.
  match goal with |- context [EExec ?c] => set (cmd := c) end.
  assert (Hrun : ∃ line, is_log line ∧
            configure_flow_steering host pf_name steering_mode w =
            mkOut (Ret tt) (set_kern (fst (run_command host cmd (kern w))) w)
                  [EExec cmd; line]).
  { unfold configure_flow_steering.
    destruct (run_command host cmd (kern w)) as [k [out|text]] eqn:Hcmd;
      eexists; (split; [|
        eapply bind_Ret_eq; [exact (get_pf_pci_found _ _ _ Hpci) | reflexivity |]; cbv beta ]).
    2: { eapply try_except_Ret.
         eapply bind_Ret_eq; [rewrite execute_eq; fold cmd; rewrite Hcmd; reflexivity
                             | reflexivity | reflexivity]. }
    3: { eapply try_except_caught;
           [ eapply bind_Raise; rewrite execute_eq; fold cmd; rewrite Hcmd; reflexivity
           | reflexivity | reflexivity | reflexivity ]. }
    all: exact I. }
  destruct Hrun as (line & Hline & Hrun). rewrite Hrun. cbn [res emitted]. eauto.
Qed.

End Commands.

Lemma run_ip_config_cmd_rejects_non_str_witness :
  run_ip_config_cmd Sim.host [PyStr "ip"; PyStr "link"; PyStr "set"; PyStr "dev"; PyStr "p1p1";
                              PyStr "vf"; PyStr "0"; PyStr "spoofchk"; PyBool true]
    (Sim.world Sim.legacy_machine [] ∅)
  = mkOut (Raise TypeError) (Sim.world Sim.legacy_machine [] ∅) [].
Proof.
  apply (run_ip_config_cmd_rejects_non_str Sim.host).
  do 8 apply Exists_cons_tl. apply Exists_cons_hd. discriminate.
Defined.

Lemma configure_flow_steering_tolerates_failure_witness :
  res (configure_flow_steering Sim.host "ens1f0" (PyStr "smfs")
         (Sim.world Sim.mlnx_machine [] ∅)) = Ret tt.
Proof.
  eapply (configure_flow_steering_tolerates_failure Sim.host "ens1f0" (PyStr "smfs")).
  vm_compute. reflexivity.
Defined.

(** ** Tuning the VFs *)

Section Tuner.
Context {K : Type} (host : Host K).

Lemma getitem_eq k (it : item) v (w : World K) :
  assoc k (fields it) = Some v → getitem k it w = mkOut (Ret v) w [].
Proof. intros H. unfold getitem. rewrite H. reflexivity. Qed.

Lemma getdevice_eq k (it : item) dev v (w : World K) :
  device it = Some dev → assoc k dev = Some v → getdevice k it w = mkOut (Ret v) w [].
Proof. intros Hd H. unfold getdevice. rewrite Hd, H. reflexivity. Qed.

Lemma has_field k (it : item) v :
  k ≠ ("device" : str) → assoc k (fields it) = Some v → has k it = true.
Proof.
  intros Hk H. unfold has. rewrite (bool_decide_eq_false_2 _ Hk), H.
  apply bool_decide_eq_true_2. eauto.
Qed.

(** The safe runner on a command line of strings. *)
Lemma run_ip_config_cmd_safe_run raise_error (words : list str) (w : World K) :
  ∃ t, run_ip_config_cmd_safe host raise_error (PyStr <$> words) w =
       mkOut (match snd (run_command host words (kern w)) with
              | Done _ => Ret tt
              | Failed text => if raise_error then Raise (ProcessExecutionError text) else Ret tt
              end)
             (set_kern (fst (run_command host words (kern w))) w) t.
Proof.
  unfold run_ip_config_cmd_safe, try_except. rewrite run_ip_config_cmd_run.
  destruct (run_command host words (kern w)) as [k [out|text]]; cbn [res post emitted fst snd].
  - eauto.
  - destruct raise_error; cbn; eauto.
Qed.

(** X12. Entries that are not VFs are passed over: a map without VF entries
    makes [configure_sriov_vf] do nothing at all. *)
Theorem configure_sriov_vf_skips_other_entries sriov_map (w : World K) :
  Forall (λ it, ∃ v, assoc "device_type" (fields it) = Some v ∧ eq_str v "vf" = false)
         sriov_map →
  configure_sriov_vf host sriov_map w = mkOut (Ret tt) w [].
Proof.
  unfold configure_sriov_vf. cbn [get_sriov_map].
  induction 1 as [|it l (v & Hv & Hvf) _ IH]; [reflexivity|].
  cbn [for_each].
  eapply bind_Ret_eq;
    [ unfold configure_sriov_vf_item;
      eapply bind_Ret_eq;
        [ exact (getitem_eq _ _ _ _ Hv) | reflexivity
        | cbv beta; rewrite Hvf; reflexivity ]
    | reflexivity | exact IH ].
Qed.

Lemma bind_ext {A B} (m : M K A) (f g : A → M K B) w :
  (∀ a w', f a w' = g a w') → bind m f w = bind m g w.
Proof. intros H. unfold bind. destruct (res (m w)); [rewrite H|]; reflexivity. Qed.

(** Running the body of the loop for an entry that asks for rate limits
    only: up to the rate limits it reads the entry and logs, and after
    them nothing is left to do. *)
Ltac step tac := eapply bind_Ret_eq; [tac | reflexivity | cbv beta zeta].

Lemma rate_only_vf_run (it : item) pf_name vfid (w : World K) :
  rate_only_vf it pf_name vfid →
  ∃ line,
    configure_sriov_vf_item host it w =
    let base_cmd := [PyStr "ip"; PyStr "link"; PyStr "set"; PyStr "dev"; PyStr pf_name;
                     PyStr "vf"; PyStr (to_str vfid)] in
    let o :=
      (let* raise_error :=
         if has "max_tx_rate" it then
           let* max_tx_rate := getitem "max_tx_rate" it in
           let cmd := base_cmd ++ [PyStr "max_tx_rate"; PyStr (to_str max_tx_rate)] in
           let raise_error := if eq_int max_tx_rate 0 then false else true in
           run_ip_config_cmd_safe host raise_error cmd >> ret raise_error
         else ret true in
       let* raise_error :=
         if has "min_tx_rate" it then
           let* min_tx_rate := getitem "min_tx_rate" it in
           let cmd := base_cmd ++ [PyStr "min_tx_rate"; PyStr (to_str min_tx_rate)] in
           let raise_error := if eq_int min_tx_rate 0 then false else raise_error in
           run_ip_config_cmd_safe host raise_error cmd >> ret raise_error
         else ret raise_error in
       ret tt) w in
    mkOut (res o) (post o) (line :: emitted o).
Proof.
  intros (Htype & [name Hname] & (dev & Hdev & Hpf & Hvfid) & Hnone).
  repeat (apply Forall_cons in Hnone as [? Hnone]).
  eexists. unfold configure_sriov_vf_item.
  rewrite (bind_Ret _ _ _ _ _ _ (getitem_eq _ _ _ w Htype)).
  cbv beta. change (negb (eq_str (PyStr "vf") "vf")) with false. cbv iota.
  rewrite (bind_Ret _ _ _ _ _ _ (getdevice_eq _ _ _ _ w Hdev Hpf)). cbv beta.
  rewrite (bind_Ret _ _ _ _ _ _ (getdevice_eq _ _ _ _ w Hdev Hvfid)). cbv beta zeta.
  erewrite (bind_Ret (bind (getitem "name" it) _));
    [|eapply bind_Ret_eq; [exact (getitem_eq _ _ _ w Hname) | reflexivity | reflexivity]].
  cbn [res post emitted app].
  repeat match goal with H : has _ it = false |- _ => rewrite H; clear H end.
  cbn [when].
  rewrite (bind_Ret (ret tt) _ w tt w []) by reflexivity. cbn [res post emitted app].
  rewrite (bind_Ret (ret tt) _ w tt w []) by reflexivity. cbn [res post emitted app].
  match goal with
  | |- mkOut (res ?a) _ _ = mkOut (res ?b) _ _ => assert (Heq : a = b); [|by rewrite Heq]
  end.
  apply bind_ext. intros r1 w1. apply bind_ext. intros r2 w2. reflexivity.
Qed.

Lemma rate_step (it : item) pf_name vfid which rate raise_error (w : World K) :
  assoc which (fields it) = Some rate →
  ∃ t,
    (let* r := getitem which it in
     run_ip_config_cmd_safe host (if eq_int r 0 then false else raise_error)
       ([PyStr "ip"; PyStr "link"; PyStr "set"; PyStr "dev"; PyStr pf_name;
         PyStr "vf"; PyStr (to_str vfid)] ++ [PyStr which; PyStr (to_str r)]) >>
     ret (if eq_int r 0 then false else raise_error)) w =
    let out := run_command host (vf_rate_cmd pf_name vfid which rate) (kern w) in
    mkOut (match snd out with
           | Done _ => Ret (if eq_int rate 0 then false else raise_error)
           | Failed text =>
             if (if eq_int rate 0 then false else raise_error)
             then Raise (ProcessExecutionError text)
             else Ret false
           end)
          (set_kern (fst out) w) t.
Proof.
  intros Hrate.
  destruct (run_ip_config_cmd_safe_run (if eq_int rate 0 then false else raise_error)
              (vf_rate_cmd pf_name vfid which rate) w) as [t Ht].
  cbv zeta.
  assert (Hstep : ∀ t',
    (run_ip_config_cmd_safe host (if eq_int rate 0 then false else raise_error)
       (PyStr <$> vf_rate_cmd pf_name vfid which rate) >>
     ret (if eq_int rate 0 then false else raise_error)) w = t' →
    (let* r := getitem which it in
     run_ip_config_cmd_safe host (if eq_int r 0 then false else raise_error)
       ([PyStr "ip"; PyStr "link"; PyStr "set"; PyStr "dev"; PyStr pf_name;
         PyStr "vf"; PyStr (to_str vfid)] ++ [PyStr which; PyStr (to_str r)]) >>
     ret (if eq_int r 0 then false else raise_error)) w = t').
  { intros t' <-. rewrite (bind_Ret _ _ _ _ _ _ (getitem_eq _ _ _ w Hrate)).
    cbv beta. cbn [app]. symmetry. apply out_eta. }
  set (flag := if eq_int rate 0 then false else raise_error) in *.
  set (cmd := vf_rate_cmd pf_name vfid which rate) in *.
  destruct (run_command host cmd (kern w)) as [k [out|text]]; cbn [fst snd] in Ht |- *.
  - exists (t ++ []). apply Hstep.
    eapply bind_Ret_eq; [exact Ht | reflexivity | reflexivity].
  - destruct flag.
    + exists t. apply Hstep. exact (bind_Raise _ _ _ _ _ _ Ht).
    + exists (t ++ []). apply Hstep.
      eapply bind_Ret_eq; [exact Ht | reflexivity | reflexivity].
Qed.

(** X13. A failing command for [max_tx_rate] is fatal exactly when the rate
    asked for is not zero. *)
Theorem configure_sriov_vf_max_rate_failure (it : item) pf_name vfid rate k1 text
    (w : World K) :
  rate_only_vf it pf_name vfid →
  assoc "max_tx_rate" (fields it) = Some rate →
  has "min_tx_rate" it = false →
  run_command host (vf_rate_cmd pf_name vfid "max_tx_rate" rate) (kern w) = (k1, Failed text) →
  res (configure_sriov_vf_item host it w) =
  if eq_int rate 0 then Ret tt else Raise (ProcessExecutionError text).
Proof.
  intros Hvf Hmax Hnomin Hcmd.
  destruct (rate_only_vf_run it pf_name vfid w Hvf) as [line ->]. cbv zeta. cbn [res].
  rewrite (has_field "max_tx_rate" it rate) by (discriminate || exact Hmax).
  rewrite Hnomin.
  destruct (rate_step it pf_name vfid "max_tx_rate" rate true w Hmax) as [t Ht].
  cbv zeta in Ht. rewrite Hcmd in Ht. cbn [fst snd] in Ht.
  unfold bind at 1. rewrite Ht. cbn [res post emitted].
  destruct (eq_int rate 0); reflexivity.
Qed.

(** X14. The flag that makes a failure fatal is switched off by a zero
    [max_tx_rate] and stays off: when the command for [min_tx_rate]
    fails after the one for [max_tx_rate] went through, the failure is
    fatal only if neither rate is zero. *)
Theorem configure_sriov_vf_min_rate_failure (it : item) pf_name vfid max_rate min_rate
    k1 out k2 text (w : World K) :
  rate_only_vf it pf_name vfid →
  assoc "max_tx_rate" (fields it) = Some max_rate →
  assoc "min_tx_rate" (fields it) = Some min_rate →
  run_command host (vf_rate_cmd pf_name vfid "max_tx_rate" max_rate) (kern w) = (k1, Done out) →
  run_command host (vf_rate_cmd pf_name vfid "min_tx_rate" min_rate) k1 = (k2, Failed text) →
  res (configure_sriov_vf_item host it w) =
  if eq_int max_rate 0 || eq_int min_rate 0 then Ret tt
  else Raise (ProcessExecutionError text).
Proof.
  intros Hvf Hmax Hmin Hcmd1 Hcmd2.
  destruct (rate_only_vf_run it pf_name vfid w Hvf) as [line ->]. cbv zeta. cbn [res].
  rewrite (has_field "max_tx_rate" it max_rate) by (discriminate || exact Hmax).
  rewrite (has_field "min_tx_rate" it min_rate) by (discriminate || exact Hmin).
  destruct (rate_step it pf_name vfid "max_tx_rate" max_rate true w Hmax) as [t1 Ht1].
  cbv zeta in Ht1. rewrite Hcmd1 in Ht1. cbn [fst snd] in Ht1.
  unfold bind at 1. rewrite Ht1. cbn [res post emitted].
  destruct (rate_step it pf_name vfid "min_tx_rate" min_rate
              (if eq_int max_rate 0 then false else true) (set_kern k1 w) Hmin) as [t2 Ht2].
  cbv zeta in Ht2. change (kern (set_kern k1 w)) with k1 in Ht2.
  rewrite Hcmd2 in Ht2. cbn [fst snd] in Ht2.
  unfold bind at 1. rewrite Ht2. cbn [res post emitted].
  destruct (eq_int max_rate 0), (eq_int min_rate 0); reflexivity.
Qed.

End Tuner.

Lemma configure_sriov_vf_skips_other_entries_witness :
  configure_sriov_vf Sim.host [Sim.legacy_pf; Sim.switchdev_pf true]
    (Sim.world Sim.legacy_machine [] ∅)
  = mkOut (Ret tt) (Sim.world Sim.legacy_machine [] ∅) [].
Proof.
  apply (configure_sriov_vf_skips_other_entries Sim.host).
  repeat constructor; eexists; (split; [reflexivity | reflexivity]).
Defined.

Lemma configure_sriov_vf_max_rate_failure_witness :
  res (configure_sriov_vf_item Sim.host (Sim.rate_vf [("max_tx_rate" : str, PyInt 0)])
         (Sim.world (Sim.failing_machine [Sim.rate_cmd "max_tx_rate" "0"]) [] ∅)) = Ret tt.
Proof.
  apply (configure_sriov_vf_max_rate_failure Sim.host
           (Sim.rate_vf [("max_tx_rate" : str, PyInt 0)]) "p1p1" (PyInt 0) (PyInt 0)
           (Sim.failing_machine [Sim.rate_cmd "max_tx_rate" "0"]) "exit code 1").
  - repeat split; [eexists; reflexivity | eexists; repeat split; reflexivity
                   | repeat constructor].
  - reflexivity.
  - reflexivity.
  - reflexivity.
Defined.

Lemma configure_sriov_vf_min_rate_failure_witness :
  res (configure_sriov_vf_item Sim.host
         (Sim.rate_vf [("max_tx_rate" : str, PyInt 0); ("min_tx_rate" : str, PyInt 5)])
         (Sim.world (Sim.failing_machine [Sim.rate_cmd "min_tx_rate" "5"]) [] ∅)) = Ret tt.
Proof.
  apply (configure_sriov_vf_min_rate_failure Sim.host
           (Sim.rate_vf [("max_tx_rate" : str, PyInt 0); ("min_tx_rate" : str, PyInt 5)])
           "p1p1" (PyInt 0) (PyInt 0) (PyInt 5)
           (Sim.failing_machine [Sim.rate_cmd "min_tx_rate" "5"]) []
           (Sim.failing_machine [Sim.rate_cmd "min_tx_rate" "5"]) "exit code 1").
  - repeat split; [eexists; reflexivity | eexists; repeat split; reflexivity
                   | repeat constructor].
  - reflexivity.
  - reflexivity.
  - reflexivity.
  - reflexivity.
Defined.

(** ** The trigger of the udev rules *)

Section Counting.
Context {K : Type}.

Lemma runs_app cmd t1 t2 : runs cmd (t1 ++ t2) = (runs cmd t1 + runs cmd t2)%nat.
Proof. unfold runs. by rewrite filter_app, length_app. Qed.

Lemma runs_none cmd tr : Forall (λ e, is_exec cmd e = false) tr → runs cmd tr = 0%nat.
Proof.
  unfold runs. induction 1 as [|e tr He _ IH]; [reflexivity|].
  rewrite filter_cons. destruct (decide (is_exec cmd e = true)) as [Hx|_]; [congruence|].
  exact IH.
Qed.

Lemma runs_emits cmd {A} (m : M K A) w :
  emits (λ e, is_exec cmd e = false) m → runs cmd (emitted (m w)) = 0%nat.
Proof. intros H. apply runs_none, H. Qed.

Lemma bind_emitted {A B} (m : M K A) (f : A → M K B) w :
  emitted (bind m f w) =
  emitted (m w) ++ match res (m w) with
                   | Ret a => emitted (f a (post (m w)))
                   | Raise _ => []
                   end.
Proof. unfold bind. destruct (res (m w)); cbn [emitted]; by rewrite ?app_nil_r. Qed.

Lemma runs_bind_le cmd {A B} (m : M K A) (f : A → M K B) n1 n2 :
  (∀ w, runs cmd (emitted (m w)) ≤ n1)%nat →
  (∀ a w, runs cmd (emitted (f a w)) ≤ n2)%nat →
  ∀ w, (runs cmd (emitted (bind m f w)) ≤ n1 + n2)%nat.
Proof.
  intros Hm Hf w. rewrite bind_emitted, runs_app. specialize (Hm w).
  destruct (res (m w)) as [a|e].
  - specialize (Hf a (post (m w))). lia.
  - cbn. lia.
Qed.

Lemma runs_emits_le cmd {A} (m : M K A) :
  emits (λ e, is_exec cmd e = false) m → ∀ w, (runs cmd (emitted (m w)) ≤ 0)%nat.
Proof. intros H w. by rewrite runs_emits. Qed.

End Counting.

(** The loops of the module cause the effects their bodies cause. *)
Section Emits_loops.
Context {K : Type} (host : Host K) (P : effect → Prop).
Hypothesis P_log : ∀ l m, P (ELog l m).

Lemma emits_join_cmd cmd : emits (K:=K) P (join_cmd cmd).
Proof.
  induction cmd as [|v cmd IH]; cbn [join_cmd]; emits_with ltac:(fail); exact IH.
Qed.

Lemma emits_is_partitioned_pf_loop dev_name l :
  emits (K:=K) P (is_partitioned_pf_loop dev_name l).
Proof.
  induction l as [|c l IH]; cbn [is_partitioned_pf_loop];
    emits_with ltac:(apply P_log); try exact IH.
Qed.

Lemma emits_uplink_rep_loop pf_name path retries :
  (∀ s, P (ESleep s)) → emits P (uplink_rep_loop host pf_name path retries).
Proof.
  intros P_sleep. induction retries as [|n IH]; cbn [uplink_rep_loop];
    emits_with ltac:(first [apply P_log | apply P_sleep]); try exact IH.
Qed.

Lemma emits_wait_loop pf_name numvfs vdpa vf_count script :
  (∀ b t, P (EQueueGet b t)) →
  emits P (wait_loop host pf_name numvfs vdpa vf_count script).
Proof.
  intros P_get. revert vf_count. induction script as [|ev script IH]; intros vf_count;
    cbn [wait_loop]; emits_with ltac:(first [apply P_log | apply P_get]); try apply IH.
Qed.

End Emits_loops.

Section Trigger.
Context {K : Type} (host : Host K) (sriov_map : list item).

Lemma other_program a l : a ≠ ("/usr/sbin/udevadm" : str) → is_exec TRIGGER_CMD (EExec (a :: l)) = false.
Proof. intros Ha. apply bool_decide_eq_false. intros H. injection H as H _. exact (Ha H). Qed.

Lemma reload_is_not_trigger : is_exec TRIGGER_CMD (EExec RELOAD_CMD) = false.
Proof. reflexivity. Qed.

Ltac not_trigger :=
  first [ reflexivity
        | apply other_program; let H := fresh in intros H; vm_compute in H; discriminate H ].

Lemma join_cmd_words (cmd : list pyval) (w : World K) words :
  res (join_cmd cmd w) = Ret words → cmd = PyStr <$> words.
Proof.
  revert words. induction cmd as [|v cmd IH]; intros words; cbn [join_cmd].
  - cbn. intros H. by injection H as <-.
  - destruct v as [| | | |s]; try discriminate.
    unfold bind at 1. cbn [as_str ret res post emitted].
    unfold bind. destruct (res (join_cmd cmd w)) as [l|e] eqn:Hl; cbn; [|discriminate].
    intros H. injection H as <-. cbn. f_equal. by apply IH.
Qed.

Lemma emits_run_ip_config_cmd_ip (P : effect → Prop) rest :
  (∀ l m, P (ELog l m)) → (∀ words : list str, P (EExec (("ip" : str) :: words))) →
  emits P (run_ip_config_cmd host (PyStr "ip" :: rest)).
Proof.
  intros Hlog Hexec. unfold run_ip_config_cmd.
  apply emits_bind.
  - generalize (PyStr "ip" :: rest). intros cmd.
    induction cmd as [|v cmd IH]; cbn [join_cmd];
      emits_with ltac:(fail); exact IH.
  - intros w words Hw. apply join_cmd_words in Hw.
    destruct words as [|s words]; [discriminate Hw|]. injection Hw as <- _.
    emits_with ltac:(first [apply Hlog | apply Hexec]).
Qed.

Lemma no_trigger_log l m : no_trigger (ELog l m).
Proof. reflexivity. Qed.

Lemma no_trigger_join_cmd cmd : emits (K:=K) no_trigger (join_cmd cmd).
Proof. apply emits_join_cmd. Qed.

Lemma no_trigger_is_partitioned_pf_loop dev_name l :
  emits (K:=K) no_trigger (is_partitioned_pf_loop dev_name l).
Proof. apply emits_is_partitioned_pf_loop, no_trigger_log. Qed.

Lemma no_trigger_uplink_rep_loop pf_name path retries :
  emits no_trigger (uplink_rep_loop host pf_name path retries).
Proof. apply emits_uplink_rep_loop; [apply no_trigger_log | reflexivity]. Qed.

Lemma no_trigger_wait_loop pf_name numvfs vdpa vf_count script :
  emits no_trigger (wait_loop host pf_name numvfs vdpa vf_count script).
Proof. apply emits_wait_loop; [apply no_trigger_log | reflexivity]. Qed.

Lemma no_trigger_run_ip_config_cmd rest :
  emits no_trigger (run_ip_config_cmd host (PyStr "ip" :: rest)).
Proof.
  apply emits_run_ip_config_cmd_ip; [apply no_trigger_log|].
  intros words. unfold no_trigger. not_trigger.
Qed.

Hint Resolve no_trigger_join_cmd no_trigger_is_partitioned_pf_loop no_trigger_uplink_rep_loop
  no_trigger_wait_loop no_trigger_run_ip_config_cmd : emits.

Ltac no_trigger_side := unfold no_trigger; not_trigger.

Lemma no_trigger_item cli vdpa_devices (it : item) vars :
  emits no_trigger (configure_sriov_pf_item host sriov_map cli vdpa_devices it vars).
Proof. unfold configure_sriov_pf_item. emits_with no_trigger_side. Qed.

Lemma no_trigger_cleanup_puppet_config : emits (K:=K) no_trigger cleanup_puppet_config.
Proof. emits_with no_trigger_side. Qed.

Lemma no_trigger_restart_ovs_and_pfs_netdevs :
  emits no_trigger (restart_ovs_and_pfs_netdevs host sriov_map).
Proof. emits_with no_trigger_side. Qed.

Lemma no_trigger_get_vdpa_vhost_devices : emits no_trigger (get_vdpa_vhost_devices host).
Proof. emits_with no_trigger_side. Qed.

Hint Resolve no_trigger_cleanup_puppet_config no_trigger_restart_ovs_and_pfs_netdevs
  no_trigger_get_vdpa_vhost_devices no_trigger_item : emits.

Lemma trigger_udev_rules_once w :
  (runs TRIGGER_CMD (emitted (trigger_udev_rules host w)) ≤ 1)%nat.
Proof.
  unfold trigger_udev_rules, try_except, bind. rewrite execute_eq. cbn [res post emitted].
  destruct (snd (run_command host _ (kern w))); vm_compute; lia.
Qed.

(** X15. Whatever the map and the machine, one run of [configure_sriov_pf]
    runs the trigger command at most once. *)
Theorem configure_sriov_pf_triggers_at_most_once cli restart (w : World K) :
  (runs TRIGGER_CMD (emitted (configure_sriov_pf host sriov_map cli restart w)) ≤ 1)%nat.
Proof.
  revert w. unfold configure_sriov_pf. cbn [get_sriov_map].
  apply (runs_bind_le _ _ _ 0 1); [apply runs_emits_le; emits_with no_trigger_side|]. intros _.
  apply (runs_bind_le _ _ _ 0 1); [apply runs_emits_le; emits_with no_trigger_side|]. intros _.
  apply (runs_bind_le _ _ _ 0 1); [apply runs_emits_le; emits_with no_trigger_side|]. intros _.
  apply (runs_bind_le _ _ _ 0 1); [apply runs_emits_le; emits_with no_trigger_side|]. intros vd.
  apply (runs_bind_le _ _ _ 0 1); [apply runs_emits_le; emits_with no_trigger_side|]. intros vars.
  apply (runs_bind_le _ _ _ 0 1); [apply runs_emits_le; emits_with no_trigger_side|]. intros _.
  apply (runs_bind_le _ _ _ 1 0); [|intros _; apply runs_emits_le; emits_with no_trigger_side].
  destruct (cur_trigger_udev_rule vars); cbn [when];
    [apply trigger_udev_rules_once | intros w; vm_compute; lia].
Qed.

Lemma reload_udev_rules_runs_once (w : World K) :
  runs RELOAD_CMD (emitted (reload_udev_rules host w)) = 1%nat.
Proof.
  unfold reload_udev_rules, try_except, bind. rewrite execute_eq. cbn [res post emitted].
  destruct (snd (run_command host _ (kern w))); vm_compute; reflexivity.
Qed.

(** A call of [add_udev_rule] that reports a change has reloaded the
    rules. *)
Lemma add_udev_rule_reloaded udev_data f pattern (w : World K) :
  res (add_udev_rule host udev_data f pattern w) = Ret true →
  (1 ≤ runs RELOAD_CMD (emitted (add_udev_rule host udev_data f pattern w)))%nat.
Proof.
  pose proof (add_udev_rule_run host udev_data f pattern w) as Hrun. cbv zeta in Hrun.
  destruct (new_content _ _ _) as [c|].
  - destruct Hrun as (t & _ & ->). cbn [res emitted]. intros _.
    rewrite runs_app, bind_emitted, runs_app, reload_udev_rules_runs_once. lia.
  - rewrite Hrun. discriminate.
Qed.

(** Taking a run that returned apart, one [bind] at a time: the result
    of the first part is named, and the trace of the goal is split. *)
Tactic Notation "unbind" hyp(H) "as" ident(a) ident(Ha) :=
  cbv beta iota in H |- *;
  apply bind_returns in H as (a & Ha & H & ->); cbv beta iota in H |- *; rewrite runs_app;
  match type of Ha with
  | res (?m ?w) = _ =>
    let w' := fresh "w" in revert H; generalize (post (m w)); intros w' H
  end.

Lemma add_udev_rule_for_sriov_pf_reloaded pf_name (w : World K) :
  res (add_udev_rule_for_sriov_pf host pf_name w) = Ret true →
  (1 ≤ runs RELOAD_CMD (emitted (add_udev_rule_for_sriov_pf host pf_name w)))%nat.
Proof.
  unfold add_udev_rule_for_sriov_pf. intros H. unbind H as u Hu. unbind H as pci Hpci.
  apply add_udev_rule_reloaded in H. lia.
Qed.

Lemma add_udev_rule_for_vf_representors_reloaded pf_name (w : World K) :
  res (add_udev_rule_for_vf_representors host pf_name w) = Ret (Some true) →
  (1 ≤ runs RELOAD_CMD (emitted (add_udev_rule_for_vf_representors host pf_name w)))%nat.
Proof.
  unfold add_udev_rule_for_vf_representors. intros H.
  unbind H as u Hu. unbind H as data Hdata. unbind H as pci Hpci.
  destruct (PF_FUNC_RE_search pci).
  - unbind H as u1 Hu1. unbind H as r Hr. destruct r; [|discriminate H].
    apply add_udev_rule_reloaded in Hr. lia.
  - unbind H as u1 Hu1. discriminate H.
Qed.

Lemma add_udev_rule_for_vdpa_representors_reloaded pf_name (w : World K) :
  res (add_udev_rule_for_vdpa_representors host pf_name w) = Ret true →
  (1 ≤ runs RELOAD_CMD (emitted (add_udev_rule_for_vdpa_representors host pf_name w)))%nat.
Proof.
  unfold add_udev_rule_for_vdpa_representors. intros H.
  unbind H as u Hu. unbind H as links Hlinks. unbind H as lines Hlines.
  apply add_udev_rule_reloaded in H. lia.
Qed.

(** The flag [trigger_udev_rule] is only raised by a call that
    reloaded the rules. *)
Lemma item_flag_reloaded cli vdpa_devices (it : item) vars vars' (w : World K) :
  res (configure_sriov_pf_item host sriov_map cli vdpa_devices it vars w) = Ret vars' →
  cur_trigger_udev_rule vars' = true →
  cur_trigger_udev_rule vars = true
  ∨ (1 ≤ runs RELOAD_CMD
           (emitted (configure_sriov_pf_item host sriov_map cli vdpa_devices it vars w)))%nat.
Proof.
  unfold configure_sriov_pf_item. intros H Hflag. unbind H as dt Hdt.
  destruct (negb (eq_str dt "pf")); [injection H as <-; by left|].
  unbind H as configured Hconf. destruct configured.
  { unbind H as u Hu. injection H as <-. by left. }
  unbind H as u1 Hu1. unbind H as u2 Hu2. unbind H as name Hname.
  unbind H as is_mlnx Hmlnx. unbind H as u3 Hu3. unbind H as u4 Hu4.
  destruct (eq_str (get "link_mode" it) "switchdev" && is_mlnx);
    [|injection H as <-; by left].
  unbind H as u5 Hu5. unbind H as name2 Hname2. unbind H as pcis Hpcis.
  unbind H as u6 Hu6. unbind H as u7 Hu7. unbind H as u8 Hu8.
  unbind H as r0 Hr0. unbind H as r1 Hr1. unbind H as r2 Hr2.
  unbind H as vars3 Hv3. unbind H as u9 Hu9. injection H as <-.
  cbn [cur_dpdk_vfs_pcis_list cur_trigger_udev_rule cur_vdpa] in Hv3 |- *.
  assert (Hcases : ∀ flag3, (flag3 || (default false r2 || (r1 || cur_trigger_udev_rule vars)))
                   = true →
                   flag3 = true ∨ r2 = Some true ∨ r1 = true
                   ∨ cur_trigger_udev_rule vars = true).
  { intros flag3 Hf. destruct flag3, r2 as [[]|], r1; cbn in Hf; auto. }
  destruct (negb (truthy (get "vdpa" it))).
  - unbind Hv3 as x1 Hx1. unbind Hv3 as x2 Hx2. injection Hv3 as <-.
    cbn [cur_trigger_udev_rule] in Hflag.
    destruct (Hcases false Hflag) as [?|[->|[->|?]]]; [discriminate | | | by left].
    + apply add_udev_rule_for_vf_representors_reloaded in Hr2. right. lia.
    + apply add_udev_rule_for_sriov_pf_reloaded in Hr1. right. lia.
  - unbind Hv3 as r3 Hr3. injection Hv3 as <-. cbn [cur_trigger_udev_rule] in Hflag.
    destruct (Hcases r3 Hflag) as [->|[->|[->|?]]]; [ | | | by left].
    + apply add_udev_rule_for_vdpa_representors_reloaded in Hr3. right. lia.
    + apply add_udev_rule_for_vf_representors_reloaded in Hr2. right. lia.
    + apply add_udev_rule_for_sriov_pf_reloaded in Hr1. right. lia.
Qed.

Lemma fold_flag_reloaded cli vdpa_devices (l : list item) : ∀ vars vars' (w : World K),
  res (for_fold l (configure_sriov_pf_item host sriov_map cli vdpa_devices) vars w)
  = Ret vars' →
  cur_trigger_udev_rule vars' = true →
  cur_trigger_udev_rule vars = true
  ∨ (1 ≤ runs RELOAD_CMD
           (emitted (for_fold l (configure_sriov_pf_item host sriov_map cli vdpa_devices)
                              vars w)))%nat.
Proof.
  induction l as [|it l IH]; intros vars vars' w H Hflag; cbn [for_fold] in *.
  - injection H as <-. by left.
  - unbind H as vars1 Hit.
    destruct (IH vars1 vars' _ H Hflag) as [Hflag1|Hrest]; [|right; lia].
    destruct (item_flag_reloaded _ _ _ _ _ _ Hit Hflag1) as [?|?]; [by left | right; lia].
Qed.

(** X16. The trigger command is run only in a run that reloaded the rules:
    without a call of [add_udev_rule] that changed a rule file there is
    no trigger. *)
Theorem configure_sriov_pf_trigger_needs_reload cli restart (w : World K) :
  let o := configure_sriov_pf host sriov_map cli restart w in
  (1 ≤ runs TRIGGER_CMD (emitted o))%nat → (1 ≤ runs RELOAD_CMD (emitted o))%nat.
Proof.
  cbv zeta. unfold configure_sriov_pf. cbn [get_sriov_map].
  repeat (rewrite bind_emitted, !runs_app;
          rewrite (runs_emits TRIGGER_CMD) by emits_with no_trigger_side;
          match goal with
          | |- context [match res (?m ?w) with _ => _ end] =>
            destruct (res (m w)) as [?|?] eqn:?; [|cbn; lia];
            generalize (post (m w)); intros ?
          end).
  match goal with
  | Hfold : res (for_fold _ _ _ _) = Ret ?vars |- _ =>
    destruct (cur_trigger_udev_rule vars) eqn:Hflag;
      [ destruct (fold_flag_reloaded _ _ _ _ _ _ Hfold Hflag) as [Hx|Hx];
          [discriminate Hx | lia]
      | cbn [when]; rewrite (runs_emits TRIGGER_CMD) by emits_with no_trigger_side; lia ]
  end.
Qed.

End Trigger.

Lemma configure_sriov_pf_trigger_needs_reload_witness :
  let o := configure_sriov_pf Sim.host [Sim.switchdev_pf false] false false
             (Sim.world Sim.mlnx_machine [Some Sim.vf0_event; Some Sim.vf1_event] ∅) in
  (1 ≤ runs TRIGGER_CMD (emitted o))%nat ∧ (1 ≤ runs RELOAD_CMD (emitted o))%nat.
Proof.
  assert (H : (1 ≤ runs TRIGGER_CMD
                 (emitted (configure_sriov_pf Sim.host [Sim.switchdev_pf false] false false
                    (Sim.world Sim.mlnx_machine [Some Sim.vf0_event; Some Sim.vf1_event] ∅))))%nat)
    by (vm_compute; lia).
  split; [exact H|].
  exact (configure_sriov_pf_trigger_needs_reload Sim.host [Sim.switchdev_pf false]
           false false _ H).
Defined.

(** ** The rule files *)

Section Rules_more.
Context {K : Type} (host : Host K).

Lemma reload_udev_rules_failed (w : World K) k1 text :
  run_command host RELOAD_CMD (kern w) = (k1, Failed text) →
  reload_udev_rules host w =
  mkOut (Raise (ProcessExecutionError text)) (set_kern k1 w)
        [EExec RELOAD_CMD; ELog ERROR [T "Failed to reload udev rules: "; T text]].
Proof.
  intros H. unfold reload_udev_rules, try_except, bind. rewrite execute_eq.
  fold RELOAD_CMD. rewrite H. reflexivity.
Qed.

(** X17. [add_udev_rule] touches the one file it is given: afterwards the
    files are as before, or differ in that file only. *)
Theorem add_udev_rule_touches_one_file udev_data f pattern (w : World K) :
  let o := add_udev_rule host udev_data f pattern w in
  files (post o) = files w ∨ ∃ c, files (post o) = <[f := c]> (files w).
Proof.
  cbv zeta.
  destruct (new_content (strip udev_data) (pattern_of udev_data pattern) (files w !! f))
    as [c|] eqn:Hnew.
  - right. exists c. by destruct (add_udev_rule_writes host udev_data f pattern w c Hnew).
  - left. destruct (add_udev_rule_left_alone host udev_data f pattern w Hnew) as [_ ->].
    reflexivity.
Qed.

(** X18. Rewriting keeps the lines of the file in place: each line that
    contains the pattern is replaced by the rule, every other line stays
    where it was. *)
Theorem add_udev_rule_keeps_other_lines udev_data f pattern content (w : World K) :
  let d := strip udev_data in
  let p := pattern_of udev_data pattern in
  one_line d →
  files w !! f = Some content →
  contains p content = true →
  d ∉ splitlines content →
  let o := add_udev_rule host udev_data f pattern w in
  ∃ content', files (post o) !! f = Some content'
              ∧ splitlines content' = replaced d p <$> splitlines content.
Proof.
  intros d p Hd Hf Hp Hnot.
  assert (Hnew : new_content d p (files w !! f)
                 = Some (unlines (replaced d p <$> splitlines content))).
  { rewrite Hf. unfold new_content. rewrite Hp. unfold mem.
    by rewrite (bool_decide_eq_false_2 _ Hnot). }
  destruct (add_udev_rule_writes host udev_data f pattern w _ Hnew) as (Hfiles & _).
  eexists. cbv zeta. rewrite Hfiles, lookup_insert_eq. split; [reflexivity|].
  apply splitlines_unlines, Forall_fmap.
  eapply Forall_impl; [apply splitlines_one_lines|].
  intros l Hl. cbn. unfold replaced. by destruct (contains p l).
Qed.


Lemma contains_nil (s : str) : contains [] s = true.
Proof. apply contains_spec. by exists [], s. Qed.

(** A rule that is blank after stripping, given without a pattern,
    matches every line: on a file without an empty line each line is
    replaced by an empty one. *)
Lemma add_udev_rule_blank udev_data f content (w : World K) :
  strip udev_data = [] →
  files w !! f = Some content →
  [] ∉ splitlines content →
  files (post (add_udev_rule host udev_data f None w)) !! f
  = Some (unlines ((λ _, []) <$> splitlines content)).
Proof.
  intros Hd Hf Hnot.
  assert (Hnew : new_content (strip udev_data) (pattern_of udev_data None) (files w !! f)
                 = Some (unlines ((λ _, []) <$> splitlines content))).
  { rewrite Hf. unfold new_content, pattern_of. rewrite Hd, contains_nil. unfold mem.
    rewrite (bool_decide_eq_false_2 _ Hnot). do 2 f_equal.
    apply list_fmap_ext. intros _ l _. unfold replaced. by rewrite contains_nil. }
  destruct (add_udev_rule_writes host udev_data f None w _ Hnew) as (Hfiles & _).
  rewrite Hfiles. apply lookup_insert_eq.
Qed.

(** X20. With no VF recorded in [vf_to_pf] (the synchronizer saw no event),
    the vDPA representor rule is empty, and adding it blanks every line
    of a rule file that holds no empty line yet. *)
Theorem add_udev_rule_for_vdpa_representors_blanks_file pf_name content (w : World K) :
  vf_to_pf w = [] →
  files w !! _UDEV_RULE_FILE = Some content →
  [] ∉ splitlines content →
  files (post (add_udev_rule_for_vdpa_representors host pf_name w)) !! _UDEV_RULE_FILE
  = Some (unlines ((λ _, []) <$> splitlines content)).
Proof.
  intros Hlinks Hf Hnot. unfold add_udev_rule_for_vdpa_representors.
  unfold bind at 1. cbn [log tell res post emitted].
  unfold bind at 1. cbn [gets res post emitted]. rewrite Hlinks. cbn [for_fold].
  unfold bind at 1. cbn [ret res post emitted].
  apply add_udev_rule_blank; [reflexivity | exact Hf | exact Hnot].
Qed.

Lemma create_rep_link_name_script_eq (w : World K) :
  create_rep_link_name_script w =
  mkOut (Ret tt) (set_files (<[_REP_LINK_NAME_FILE := _REP_LINK_NAME_DATA]> (files w)) w)
        [EOpen _REP_LINK_NAME_FILE "w"; EWrite _REP_LINK_NAME_FILE _REP_LINK_NAME_DATA;
         EChmod _REP_LINK_NAME_FILE 493].
Proof.
  unfold create_rep_link_name_script.
  eapply bind_Ret_eq; [apply open_w_eq | reflexivity|].
  eapply bind_Ret_eq; [apply write_eq | reflexivity|].
  unfold tell. f_equal. unfold set_files. cbn [files kern vf_queue vf_to_pf].
  by rewrite lookup_insert_eq, insert_insert_eq.
Qed.

(** X21. [create_rep_link_name_script] overwrites: whatever the script file
    held, it holds the script afterwards, no other file is touched, and
    a second call changes nothing more. *)
Theorem create_rep_link_name_script_overwrites (w : World K) :
  let o := create_rep_link_name_script w in
  res o = Ret tt
  ∧ files (post o) = <[_REP_LINK_NAME_FILE := _REP_LINK_NAME_DATA]> (files w)
  ∧ kern (post o) = kern w
  ∧ post (create_rep_link_name_script (post o)) = post o.
Proof.
  cbv zeta. rewrite !create_rep_link_name_script_eq. cbn [res post].
  repeat split. unfold set_files. cbn [files kern vf_queue vf_to_pf].
  by rewrite insert_insert_eq.
Qed.

End Rules_more.

Lemma add_udev_rule_keeps_other_lines_witness :
  ∃ content',
    files (post (add_udev_rule Sim.host "C X" _UDEV_RULE_FILE (Some ("X" : str))
                   (Sim.rules_world (Some ("A" ++ NL ++ "B X" ++ NL ++ "C" ++ NL)))))
      !! _UDEV_RULE_FILE = Some content'
    ∧ splitlines content' = ["A" : str; "C X" : str; "C" : str].
Proof.
  apply (add_udev_rule_keeps_other_lines Sim.host "C X" _UDEV_RULE_FILE (Some ("X" : str))
           ("A" ++ NL ++ "B X" ++ NL ++ "C" ++ NL)).
  - vm_compute. repeat constructor.
  - reflexivity.
  - reflexivity.
  - vm_compute. intros H.
    repeat (apply elem_of_cons in H as [H|H]; [discriminate H|]).
    by apply elem_of_nil in H.
Defined.


Lemma add_udev_rule_for_vdpa_representors_blanks_file_witness :
  files (post (add_udev_rule_for_vdpa_representors Sim.host "ens1f0"
                 (Sim.rules_world (Some ("A X" ++ NL ++ "B" ++ NL)))))
    !! _UDEV_RULE_FILE = Some (NL ++ NL).
Proof.
  rewrite (add_udev_rule_for_vdpa_representors_blanks_file Sim.host "ens1f0"
             ("A X" ++ NL ++ "B" ++ NL)).
  - reflexivity.
  - reflexivity.
  - reflexivity.
  - vm_compute. intros H.
    repeat (apply elem_of_cons in H as [H|H]; [discriminate H|]).
    by apply elem_of_nil in H.
Defined.

(** ** Looking at the configuration and at sysfs *)

Section Lookups.
Context {K : Type} (host : Host K).

(** X22. [is_partitioned_pf] answers whether the map holds an entry for a VF
    of the device; it never raises, leaves the world alone and logs at
    most one warning. *)
Theorem is_partitioned_pf_finds sriov_map dev_name (w : World K) :
  let o := is_partitioned_pf sriov_map dev_name w in
  res o = Ret (existsb (uses_vf_of dev_name) sriov_map)
  ∧ post o = w
  ∧ Forall is_log (emitted o)
  ∧ (length (emitted o) ≤ 1)%nat.
Proof.
  unfold is_partitioned_pf. cbn [get_sriov_map].
  induction sriov_map as [|config l IH]; cbn [is_partitioned_pf_loop existsb].
  - cbn. repeat split; [constructor | lia].
  - unfold uses_vf_of at 1.
    destruct (eq_str (get_default "device_type" PyNone config) "vf"); cbn [andb orb]; [|exact IH].
    destruct (eq_str _ dev_name); cbn [orb]; [|exact IH].
    cbn. repeat split; [repeat constructor | lia].
Qed.

Lemma search_slot_name_None info :
  search_slot_name info = None ↔ contains "PCI_SLOT_NAME=" info = false.
Proof.
  induction info as [|c info IH].
  - cbn. split; reflexivity.
  - cbn [search_slot_name contains].
    unfold expect. destruct (startswith "PCI_SLOT_NAME=" (c :: info)) eqn:Hs.
    + cbn [orb]. split; discriminate.
    + cbn [orb]. exact IH.
Qed.

(** X23. [get_pf_pci] raises [AttributeError] exactly when the [uevent] file
    of the PF holds no [PCI_SLOT_NAME=]; it has no effect on the
    world. *)
Theorem get_pf_pci_needs_slot_name pf_name (w : World K) :
  let o := get_pf_pci host pf_name w in
  (res o = Raise AttributeError
   ↔ contains "PCI_SLOT_NAME=" (sys_file_data host (get_dev_path pf_name "uevent") (kern w))
     = false)
  ∧ post o = w ∧ emitted o = [].
Proof.
  cbv zeta.
  destruct (search_slot_name (sys_file_data host (get_dev_path pf_name "uevent") (kern w)))
    as [pci|] eqn:Hs.
  - rewrite (get_pf_pci_found host pf_name pci w Hs). cbn. repeat split; try discriminate.
    intros Hc. apply search_slot_name_None in Hc. congruence.
  - rewrite (get_pf_pci_missing host pf_name w Hs). cbn. repeat split.
    intros _. by apply search_slot_name_None.
Qed.

Lemma get_vf_pcis_list_loop pf_name (dir : list str) : ∀ (acc : list str) (w : World K),
  let o := for_fold dir (λ pf_file vf_pcis_list,
             if startswith "virtfn" pf_file then
               let* vf_info :=
                 get_sys_file_data host (get_dev_path pf_name (pf_file ++ "/uevent")) in
               match search_slot_name vf_info with
               | Some pci => ret (vf_pcis_list ++ [pci])
               | None => raise AttributeError
               end
             else ret vf_pcis_list) acc w in
  post o = w ∧ emitted o = []
  ∧ ∀ l, res o = Ret l →
         length l = (length acc + length (filter (λ f, startswith "virtfn" f = true) dir))%nat.
Proof.
  induction dir as [|pf_file dir IH]; intros acc w; cbn [for_fold].
  - cbn. repeat split. intros l H. injection H as <-. lia.
  - rewrite filter_cons. destruct (startswith "virtfn" pf_file) eqn:Hv.
    + rewrite decide_True by reflexivity.
      set (data := sys_file_data host (get_dev_path pf_name (pf_file ++ "/uevent")) (kern w)).
      destruct (search_slot_name data) as [pci|] eqn:Hs.
      * erewrite bind_Ret;
          [|eapply bind_Ret_eq;
              [reflexivity | reflexivity | cbv beta; fold data; rewrite Hs; reflexivity]].
        destruct (IH (acc ++ [pci]) w) as (Hp & He & Hl). cbv zeta in Hp, He, Hl.
        cbn [res post emitted app]. rewrite Hp, He. repeat split.
        intros l H. rewrite (Hl l H), length_app. cbn. lia.
      * erewrite bind_Raise;
          [|eapply bind_Ret_eq;
              [reflexivity | reflexivity | cbv beta; fold data; rewrite Hs; reflexivity]].
        cbn. repeat split. discriminate.
    + rewrite decide_False by discriminate.
      erewrite bind_Ret; [|reflexivity].
      destruct (IH acc w) as (Hp & He & Hl). cbv zeta in Hp, He, Hl.
      cbn [res post emitted app]. rewrite Hp, He. repeat split. exact Hl.
Qed.

(** X24. [get_vf_pcis_list] reads one address per [virtfn] entry of the
    device directory and nothing for the other entries; it has no effect
    on the world. *)
Theorem get_vf_pcis_list_one_per_virtfn pf_name (w : World K) :
  let o := get_vf_pcis_list host pf_name w in
  post o = w ∧ emitted o = []
  ∧ ∀ l, res o = Ret l →
         length l = length (filter (λ f, startswith "virtfn" f = true)
                              (sys_listdir host (get_dev_path pf_name "_device") (kern w))).
Proof.
  cbv zeta. unfold get_vf_pcis_list. unfold bind at 1. cbn [gets res post emitted app].
  destruct (get_vf_pcis_list_loop pf_name
              (sys_listdir host (get_dev_path pf_name "_device") (kern w)) [] w)
    as (Hp & He & Hl). cbv zeta in Hp, He, Hl.
  split; [exact Hp|]. split; [exact He|]. exact Hl.
Qed.

(** X25. A PF whose VF count already reads as the configured number is passed
    over: the entry costs one read of the attribute and three log lines,
    and the world and the loop's variables stay as they were. *)
Theorem configure_sriov_pf_skips_configured_pf sriov_map cli vdpa_devices (it : item) vars
    name numvfs curr (w : World K) :
  assoc "device_type" (fields it) = Some (PyStr "pf") →
  assoc "name" (fields it) = Some (PyStr name) →
  assoc "numvfs" (fields it) = Some numvfs →
  reads_int host (numvfs_path name) (kern w) curr →
  eq_int numvfs curr = true →
  configure_sriov_pf_item host sriov_map cli vdpa_devices it vars w =
  mkOut (Ret vars) w
        [ELog DEBUG [T name; T ": Getting numvfs for interface"];
         ESysRead (numvfs_path name);
         ELog DEBUG [T name; T ": Interface has "; N curr; T " configured"];
         ELog DEBUG [T "PF "; V (PyStr name); T " is already configured"]].
Proof.
  intros Htype Hname Hnum Hread Heq. unfold configure_sriov_pf_item.
  eapply bind_Ret_eq; [exact (getitem_eq _ _ _ _ Htype) | reflexivity | cbv beta].
  change (negb (eq_str (PyStr "pf") "pf")) with false. cbv iota.
  eapply bind_Ret_eq;
    [ unfold pf_configure_status;
      eapply bind_Ret_eq; [exact (getitem_eq _ _ _ _ Hnum) | reflexivity | cbv beta];
      eapply bind_Ret_eq; [exact (getitem_eq _ _ _ _ Hname) | reflexivity | cbv beta];
      eapply bind_Ret_eq; [reflexivity | reflexivity | cbv beta];
      eapply bind_Ret_eq; [exact (get_numvfs_reads host name w curr Hread) | reflexivity
                          | reflexivity]
    | reflexivity | cbv beta ].
  rewrite Heq.
  eapply bind_Ret_eq;
    [ eapply bind_Ret_eq; [exact (getitem_eq _ _ _ _ Hname) | reflexivity | reflexivity]
    | reflexivity | reflexivity ].
Qed.

End Lookups.

Lemma configure_sriov_pf_skips_configured_pf_witness :
  post (configure_sriov_pf_item Sim.host [] false []
          (Item [("device_type" : str, PyStr "pf"); ("name" : str, PyStr "p1p1");
                 ("numvfs" : str, PyInt 4)] None)
          (PfVars [] false PyNone) (Sim.world Sim.busy_machine [] ∅))
  = Sim.world Sim.busy_machine [] ∅.
Proof.
  rewrite (configure_sriov_pf_skips_configured_pf Sim.host [] false [] _ _
             "p1p1" (PyInt 4) 4).
  - reflexivity.
  - reflexivity.
  - reflexivity.
  - reflexivity.
  - exists ("4" ++ NL). split; vm_compute; reflexivity.
  - reflexivity.
Defined.

(** ** What [configure_sriov_pf] writes to sysfs *)

Section Writes.
Context {K : Type} (host : Host K) (sriov_map : list item).

Lemma emits_for_fold_in (P : effect → Prop) {A S} (l : list A) (body : A → S → M K S) :
  (∀ x, x ∈ l → ∀ s, emits P (body x s)) → ∀ s, emits P (for_fold l body s).
Proof.
  induction l as [|x l IH]; intros H s; [apply emits_ret|].
  cbn [for_fold]. apply emits_bind; [apply H; left|].
  intros _ s' _. apply IH. intros y Hy. apply H. by right.
Qed.

Lemma eq_str_true v s : eq_str v s = true → v = PyStr s.
Proof. destruct v; try discriminate. cbn. by intros ->%bool_decide_eq_true. Qed.

Lemma pf_write_log l m : pf_write_of sriov_map (ELog l m).
Proof. exact I. Qed.

Lemma pf_write_join_cmd cmd : emits (K:=K) (pf_write_of sriov_map) (join_cmd cmd).
Proof. apply emits_join_cmd. Qed.

Lemma pf_write_is_partitioned_pf_loop dev_name l :
  emits (K:=K) (pf_write_of sriov_map) (is_partitioned_pf_loop dev_name l).
Proof. apply emits_is_partitioned_pf_loop, pf_write_log. Qed.

Lemma pf_write_uplink_rep_loop pf_name path retries :
  emits (pf_write_of sriov_map) (uplink_rep_loop host pf_name path retries).
Proof. apply emits_uplink_rep_loop; [apply pf_write_log | intros; exact I]. Qed.

Lemma pf_write_wait_loop pf_name numvfs vdpa vf_count script :
  emits (pf_write_of sriov_map) (wait_loop host pf_name numvfs vdpa vf_count script).
Proof. apply emits_wait_loop; [apply pf_write_log | intros; exact I]. Qed.

Hint Resolve pf_write_join_cmd pf_write_is_partitioned_pf_loop pf_write_uplink_rep_loop
  pf_write_wait_loop : emits.

Lemma pf_write_set_numvfs (it : item) name numvfs :
  it ∈ sriov_map →
  assoc "name" (fields it) = Some (PyStr name) →
  assoc "device_type" (fields it) = Some (PyStr "pf") →
  emits (pf_write_of sriov_map) (set_numvfs host sriov_map name numvfs).
Proof.
  intros Hit Hname Htype.
  emits_with ltac:(first [exact I | right; exists it, name; auto]).
Qed.

Lemma pf_write_item cli vdpa_devices (it : item) vars :
  it ∈ sriov_map →
  emits (pf_write_of sriov_map)
        (configure_sriov_pf_item host sriov_map cli vdpa_devices it vars).
Proof.
  intros Hit. unfold configure_sriov_pf_item.
  emits_with ltac:(first
    [ exact I
    | left; reflexivity
    | eapply pf_write_set_numvfs;
        [ exact Hit
        | eapply name_of_Ret; eassumption
        | match goal with
          | Hdt : res (getitem _ it _) = Ret ?a,
            Hpf : negb (eq_str ?a _) = false |- _ =>
            apply getitem_Ret in Hdt; apply negb_false_iff, eq_str_true in Hpf;
            congruence
          end ] ]).
Qed.

(** X26. The sysfs writes of a run of [configure_sriov_pf] all go to the VF
    count of a PF named in the map or to the unbind file of the
    Mellanox driver: no other attribute is written. *)
Theorem configure_sriov_pf_writes_only_vf_counts cli restart (w : World K) :
  Forall (pf_write_of sriov_map) (emitted (configure_sriov_pf host sriov_map cli restart w)).
Proof.
  revert w. change (emits (pf_write_of sriov_map) (configure_sriov_pf host sriov_map cli restart)).
  unfold configure_sriov_pf. cbn [get_sriov_map].
  apply emits_bind; [emits_with ltac:(exact I)|]. intros _ _ _.
  apply emits_bind; [emits_with ltac:(exact I)|]. intros _ _ _.
  apply emits_bind; [emits_with ltac:(exact I)|]. intros _ _ _.
  apply emits_bind; [emits_with ltac:(exact I)|]. intros _ vdpa_devices _.
  apply emits_bind; [|intros; emits_with ltac:(exact I)].
  apply emits_for_fold_in. intros it Hit vars. by apply pf_write_item.
Qed.

End Writes.

(** ** Restarting Open vSwitch and the PFs *)

Section Restart.
Context {K : Type} (host : Host K).
Hypothesis commands_succeed : ∀ cmd k, ∃ out, snd (run_command host cmd k) = Done out.

Lemma execs_app t1 t2 : execs (t1 ++ t2) = execs t1 ++ execs t2.
Proof. apply omap_app. Qed.

Lemma execute_succeeds cmd (w : World K) :
  ∃ out, execute host cmd w =
         mkOut (Ret out) (set_kern (fst (run_command host cmd (kern w))) w) [EExec cmd].
Proof.
  destruct (commands_succeed cmd (kern w)) as [out Hout]. exists out.
  rewrite execute_eq, Hout. reflexivity.
Qed.

Lemma if_down_interface_succeeds device (w : World K) :
  ∃ w' line, if_down_interface host device w =
             mkOut (Ret tt) w' [line; EExec ["/sbin/ifdown" : str; to_str device]]
             ∧ is_log line.
Proof.
  destruct (execute_succeeds ["/sbin/ifdown" : str; to_str device] w) as [out Hx].
  eexists _, _. split.
  - unfold if_down_interface.
    eapply bind_Ret_eq; [reflexivity | reflexivity |].
    eapply try_except_Ret. eapply bind_Ret_eq; [exact Hx | reflexivity | reflexivity].
  - exact I.
Qed.

Lemma if_up_interface_succeeds device (w : World K) :
  ∃ w' line, if_up_interface host device w =
             mkOut (Ret tt) w' [line; EExec ["/sbin/ifup" : str; to_str device]]
             ∧ is_log line.
Proof.
  destruct (execute_succeeds ["/sbin/ifup" : str; to_str device] w) as [out Hx].
  eexists _, _. split.
  - unfold if_up_interface.
    eapply bind_Ret_eq; [reflexivity | reflexivity |].
    eapply try_except_Ret. eapply bind_Ret_eq; [exact Hx | reflexivity | reflexivity].
  - exact I.
Qed.

Lemma restart_loop (l : list item) : ∀ w : World K,
  Forall (λ it, is_Some (assoc "device_type" (fields it))
                ∧ (eq_str (get "device_type" it) "pf" = true →
                   is_Some (assoc "name" (fields it)))) l →
  let o := for_each l (λ item,
             let* device_type := getitem "device_type" item in
             if eq_str device_type "pf" then
               (let* name := getitem "name" item in if_down_interface host name) >>
               (let* name := getitem "name" item in if_up_interface host name)
             else ret tt) w in
  res o = Ret tt ∧ execs (emitted o) = concat (cycle_cmds <$> l).
Proof.
  induction l as [|it l IH]; intros w Hl; cbn [for_each].
  - split; reflexivity.
  - apply Forall_cons in Hl as [[[dt Hdt] Hname] Hl].
    assert (Hget : get "device_type" it = dt)
      by (unfold get, get_default; by rewrite Hdt).
    assert (Hbody : ∃ w' t,
              (let* device_type := getitem "device_type" it in
               if eq_str device_type "pf" then
                 (let* name := getitem "name" it in if_down_interface host name) >>
                 (let* name := getitem "name" it in if_up_interface host name)
               else ret tt) w = mkOut (Ret tt) w' t
              ∧ execs t = cycle_cmds it).
    { unfold cycle_cmds. rewrite Hget in *. destruct (eq_str dt "pf") eqn:Hpf.
      - destruct (Hname eq_refl) as [name Hn].
        assert (Hgn : get "name" it = name) by (unfold get, get_default; by rewrite Hn).
        rewrite Hgn.
        destruct (if_down_interface_succeeds name w) as (w1 & l1 & Hd & Hl1).
        destruct (if_up_interface_succeeds name w1) as (w2 & l2 & Hu & Hl2).
        exists w2, ([l1; EExec ["/sbin/ifdown" : str; to_str name]] ++
                    [l2; EExec ["/sbin/ifup" : str; to_str name]]).
        split.
        + eapply bind_Ret_eq; [exact (getitem_eq _ _ _ _ Hdt) | reflexivity | cbv beta].
          rewrite Hpf.
          eapply bind_Ret_eq;
            [ eapply bind_Ret_eq; [exact (getitem_eq _ _ _ _ Hn) | reflexivity | exact Hd]
            | reflexivity
            | eapply bind_Ret_eq; [exact (getitem_eq _ _ _ _ Hn) | reflexivity | exact Hu] ].
        + destruct l1; try (destruct Hl1; fail).
          destruct l2; try (destruct Hl2; fail). reflexivity.
      - exists w, []. split; [|reflexivity].
        eapply bind_Ret_eq; [exact (getitem_eq _ _ _ _ Hdt) | reflexivity | cbv beta].
        rewrite Hpf. reflexivity. }
    destruct Hbody as (w' & t & Hbody & Ht).
    rewrite (bind_Ret _ _ _ _ _ _ Hbody). cbn [res post emitted].
    destruct (IH w' Hl) as [Hr He]. cbv zeta in Hr, He.
    rewrite Hr, execs_app, Ht, He. split; reflexivity.
Qed.

(** X27. When every command succeeds, [restart_ovs_and_pfs_netdevs] restarts
    Open vSwitch first and then takes each PF of the map down and up
    again, in the order of the map; entries that are not PFs are left
    alone. *)
Theorem restart_ovs_and_pfs_netdevs_sequence sriov_map (w : World K) :
  Forall (λ it, is_Some (assoc "device_type" (fields it))
                ∧ (eq_str (get "device_type" it) "pf" = true →
                   is_Some (assoc "name" (fields it)))) sriov_map →
  let o := restart_ovs_and_pfs_netdevs host sriov_map w in
  res o = Ret tt
  ∧ execs (emitted o) =
    ["/usr/bin/systemctl" : str; "restart" : str; "openvswitch" : str]
    :: concat (cycle_cmds <$> sriov_map).
Proof.
  intros Hmap. unfold restart_ovs_and_pfs_netdevs. cbn [get_sriov_map].
  set (cmd := ["/usr/bin/systemctl" : str; "restart" : str; "openvswitch" : str]).
  destruct (execute_succeeds cmd w) as [out Hx].
  cbv zeta. rewrite (bind_Ret _ _ _ _ _ _ Hx). cbn [res post emitted].
  destruct (restart_loop sriov_map (set_kern (fst (run_command host cmd (kern w))) w) Hmap)
    as [Hr He]. cbv zeta in Hr, He.
  rewrite Hr. split; [reflexivity|].
  rewrite (execs_app [EExec cmd]), He. reflexivity.
Qed.

End Restart.

Lemma restart_ovs_and_pfs_netdevs_sequence_witness :
  execs (emitted (restart_ovs_and_pfs_netdevs SimMore.reliable_host
                    [Sim.legacy_pf; Sim.rate_vf []; Sim.switchdev_pf false]
                    (Sim.world Sim.legacy_machine [] ∅)))
  = [["/usr/bin/systemctl" : str; "restart" : str; "openvswitch" : str];
     ["/sbin/ifdown" : str; "p1p1" : str]; ["/sbin/ifup" : str; "p1p1" : str];
     ["/sbin/ifdown" : str; "ens1f0" : str]; ["/sbin/ifup" : str; "ens1f0" : str]].
Proof.
  apply (restart_ovs_and_pfs_netdevs_sequence SimMore.reliable_host).
  - intros cmd k. exists []. reflexivity.
  - repeat constructor; try (eexists; reflexivity); intros _; eexists; reflexivity.
Defined.

(** ** Cleaning up after puppet *)

Section Cleanup.
Context {K : Type}.

Lemma readlines_no_newline s : s ≠ [] → LF ∉ s → readlines s = [s].
Proof.
  induction s as [|c s IH]; intros Hne Hno; [congruence|]. cbn [readlines].
  apply not_elem_of_cons in Hno as [Hc Hs].
  destruct (Ascii.eqb_spec c LF) as [->|_]; [congruence|].
  destruct s as [|c' s]; [reflexivity|]. by rewrite IH.
Qed.

Lemma readlines_line s rest :
  LF ∉ s → readlines (s ++ LF :: rest) = (s ++ [LF]) :: readlines rest.
Proof.
  induction s as [|c s IH]; intros Hno.
  - cbn [app readlines]. by rewrite Ascii.eqb_refl.
  - apply not_elem_of_cons in Hno as [Hc Hs]. cbn [app readlines].
    destruct (Ascii.eqb_spec c LF) as [->|_]; [congruence|]. by rewrite IH.
Qed.

Lemma file_lines_readlines s : file_lines (readlines s).
Proof.
  induction s as [|c s IH]; [constructor|]. cbn [readlines].
  destruct (Ascii.eqb_spec c LF) as [->|Hc].
  - apply (file_lines_cons []); [apply not_elem_of_nil | exact IH].
  - destruct (readlines s) as [|l ls].
    + apply file_lines_last; [discriminate|].
      apply not_elem_of_cons. split; [congruence | apply not_elem_of_nil].
    + inversion IH as [|l' Hne Hno|l' ls' Hno Hls]; subst.
      * apply file_lines_last; [discriminate|].
        apply not_elem_of_cons. split; [congruence | exact Hno].
      * apply (file_lines_cons (c :: l')); [|exact Hls].
        apply not_elem_of_cons. split; [congruence | exact Hno].
Qed.

Lemma readlines_concat ls : file_lines ls → readlines (concat ls) = ls.
Proof.
  induction 1 as [|s Hne Hno|s ls Hno Hls IH]; [reflexivity| |].
  - cbn. rewrite app_nil_r. by apply readlines_no_newline.
  - cbn [concat]. rewrite <- app_assoc. cbn [app]. by rewrite readlines_line, IH.
Qed.

Lemma file_lines_filter (P : str → Prop) `{∀ l, Decision (P l)} ls :
  file_lines ls → file_lines (filter P ls).
Proof.
  induction 1 as [|s Hne Hno|s ls Hno Hls IH]; [constructor| |].
  - rewrite filter_cons. destruct (decide (P s)); [by constructor | constructor].
  - rewrite filter_cons. destruct (decide (P (s ++ [LF]))); [by constructor | exact IH].
Qed.

(** Cleaning what was kept keeps all of it. *)
Lemma kept_of_ifup_local_idem old :
  kept_of_ifup_local (kept_of_ifup_local old) = kept_of_ifup_local old.
Proof.
  unfold kept_of_ifup_local at 1 2.
  rewrite readlines_concat by apply file_lines_filter, file_lines_readlines.
  by rewrite list_filter_filter_l.
Qed.

Lemma set_files_same (w : World K) : set_files (files w) w = w.
Proof. by destruct w. Qed.

Lemma remove_if_exists f (w : World K) :
  ∃ t, (let* e := file_exists f in when e (remove f)) w
       = mkOut (Ret tt) (set_files (delete f (files w)) w) t.
Proof.
  destruct (files w !! f) as [c|] eqn:Hf.
  - eexists. eapply bind_Ret_eq; [exact (file_exists_true _ _ _ Hf) | reflexivity|].
    reflexivity.
  - exists []. eapply bind_Ret_eq; [exact (file_exists_false _ _ Hf) | reflexivity|].
    cbn [when]. by rewrite delete_id, set_files_same.
Qed.

Lemma kept_foldl lines (acc : str) :
  foldl (λ file_contents line,
           if negb (contains "/etc/sysconfig/allocate_vfs" line)
           then file_contents ++ line else file_contents) acc lines
  = acc ++ concat (filter (λ line, contains "/etc/sysconfig/allocate_vfs" line = false) lines).
Proof.
  revert acc. induction lines as [|l lines IH]; intros acc; cbn [foldl].
  - by rewrite app_nil_r.
  - rewrite IH, filter_cons.
    destruct (contains "/etc/sysconfig/allocate_vfs" l); cbn [negb].
    + by rewrite decide_False by discriminate.
    + rewrite decide_True by reflexivity. cbn [concat]. by rewrite app_assoc.
Qed.

Lemma cleanup_puppet_config_eq (w : World K) :
  ∃ t, cleanup_puppet_config w = mkOut (Ret tt) (set_files (cleaned (files w)) w) t.
Proof.
  unfold cleanup_puppet_config.
  destruct (remove_if_exists _RESET_SRIOV_RULES_FILE w) as [t1 H1].
  set (w1 := set_files (delete _RESET_SRIOV_RULES_FILE (files w)) w) in *.
  destruct (remove_if_exists _ALLOCATE_VFS_FILE w1) as [t2 H2].
  set (w2 := set_files (delete _ALLOCATE_VFS_FILE (files w1)) w1) in *.
  assert (Hfs : files w2 = delete _ALLOCATE_VFS_FILE (delete _RESET_SRIOV_RULES_FILE (files w)))
    by reflexivity.
  assert (H3 : ∃ t3, (let* e := file_exists _IFUP_LOCAL_FILE in
                      when e
                        (let* oldfile := get_file_data _IFUP_LOCAL_FILE in
                         let file_contents :=
                           foldl (λ file_contents line,
                                    if negb (contains "/etc/sysconfig/allocate_vfs" line)
                                    then file_contents ++ line else file_contents)
                                 [] (readlines oldfile) in
                         if bool_decide (strip file_contents = ("#!/bin/bash" : str)) then
                           remove _IFUP_LOCAL_FILE
                         else
                           open_w _IFUP_LOCAL_FILE >> write _IFUP_LOCAL_FILE file_contents)) w2
                     = mkOut (Ret tt) (set_files (cleaned (files w)) w) t3).
  { unfold cleaned. cbv zeta. rewrite <- Hfs.
    destruct (files w2 !! _IFUP_LOCAL_FILE) as [old|] eqn:Hold.
    - destruct (bool_decide (strip (kept_of_ifup_local old) = ("#!/bin/bash" : str))) eqn:Hb;
        eexists;
        (eapply bind_Ret_eq; [exact (file_exists_true _ _ _ Hold) | reflexivity|]);
        cbn [when];
        (eapply bind_Ret_eq; [exact (get_file_data_Some _ _ _ Hold) | reflexivity|]);
        cbv beta zeta; rewrite kept_foldl; cbn [app]; fold (kept_of_ifup_local old);
        rewrite Hb; cbv iota.
      + reflexivity.
      + eapply bind_Ret_eq; [apply open_w_eq | reflexivity|].
        rewrite write_eq. f_equal. unfold set_files. cbn [files kern vf_queue vf_to_pf].
        by rewrite lookup_insert_eq, insert_insert_eq.
    - exists []. eapply bind_Ret_eq; [exact (file_exists_false _ _ Hold) | reflexivity|].
      cbn [when]. unfold ret. f_equal. }
  destruct H3 as [t3 H3].
  eexists. eapply bind_Ret_eq; [exact H1 | reflexivity|].
  eapply bind_Ret_eq; [exact H2 | reflexivity|]. exact H3.
Qed.

Lemma reset_not_allocate : _RESET_SRIOV_RULES_FILE ≠ _ALLOCATE_VFS_FILE.
Proof. discriminate. Qed.
Lemma reset_not_ifup : _RESET_SRIOV_RULES_FILE ≠ _IFUP_LOCAL_FILE.
Proof. discriminate. Qed.
Lemma allocate_not_ifup : _ALLOCATE_VFS_FILE ≠ _IFUP_LOCAL_FILE.
Proof. discriminate. Qed.

Lemma cleaned_lookup fs :
  cleaned fs !! _RESET_SRIOV_RULES_FILE = None
  ∧ cleaned fs !! _ALLOCATE_VFS_FILE = None
  ∧ (∀ f, f ≠ _RESET_SRIOV_RULES_FILE → f ≠ _ALLOCATE_VFS_FILE → f ≠ _IFUP_LOCAL_FILE →
          cleaned fs !! f = fs !! f)
  ∧ (∀ c, cleaned fs !! _IFUP_LOCAL_FILE = Some c →
          strip c ≠ ("#!/bin/bash" : str) ∧ kept_of_ifup_local c = c).
Proof.
  pose proof reset_not_allocate. pose proof reset_not_ifup. pose proof allocate_not_ifup.
  unfold cleaned. cbv zeta.
  set (fs2 := delete _ALLOCATE_VFS_FILE (delete _RESET_SRIOV_RULES_FILE fs)).
  assert (HR : fs2 !! _RESET_SRIOV_RULES_FILE = None)
    by (subst fs2; rewrite lookup_delete_ne by done; apply lookup_delete_eq).
  assert (HA : fs2 !! _ALLOCATE_VFS_FILE = None) by apply lookup_delete_eq.
  assert (HF : ∀ f, f ≠ _RESET_SRIOV_RULES_FILE → f ≠ _ALLOCATE_VFS_FILE → fs2 !! f = fs !! f)
    by (intros f ? ?; subst fs2; by rewrite !lookup_delete_ne by done).
  destruct (fs2 !! _IFUP_LOCAL_FILE) as [old|] eqn:Hold.
  - destruct (bool_decide (strip (kept_of_ifup_local old) = ("#!/bin/bash" : str))) eqn:Hb.
    + repeat split.
      * by rewrite lookup_delete_ne.
      * by rewrite lookup_delete_ne.
      * intros f ? ? ?. rewrite lookup_delete_ne by done. by apply HF.
      * rewrite lookup_delete_eq in H2. discriminate.
      * rewrite lookup_delete_eq in H2. discriminate.
    + apply bool_decide_eq_false in Hb. repeat split.
      * by rewrite lookup_insert_ne.
      * by rewrite lookup_insert_ne.
      * intros f ? ? ?. rewrite lookup_insert_ne by done. by apply HF.
      * rewrite lookup_insert_eq in H2. by injection H2 as <-.
      * rewrite lookup_insert_eq in H2. injection H2 as <-. apply kept_of_ifup_local_idem.
  - repeat split; try assumption.
    + intros f ? ? ?. by apply HF.
    + congruence.
    + congruence.
Qed.

Lemma cleaned_idem fs : cleaned (cleaned fs) = cleaned fs.
Proof.
  destruct (cleaned_lookup fs) as (HR & HA & _ & HI).
  unfold cleaned at 1. cbv zeta.
  rewrite (delete_id _ _ HR), (delete_id _ _ HA).
  destruct (cleaned fs !! _IFUP_LOCAL_FILE) as [c|] eqn:Hc; [|reflexivity].
  destruct (HI c eq_refl) as [Hstrip Hkept]. rewrite Hkept.
  rewrite (bool_decide_eq_false_2 _ Hstrip). by apply insert_id.
Qed.



End Cleanup.
